(** * TradeForge-AI: the bot fleet state engine

    A shallow embedding of the fleet state kept by [App] (simulation tick,
    deploy, toggle, delete, update) and of the read side of [BotDashboard]
    (alert banner, history lookup, filter/search/sort, the alert and rename
    forms), followed by the properties established about them.

    Modelling conventions.
    - A JavaScript [number] is an exact rational, or NaN, or a signed
      infinity.  IEEE-754 rounding, overflow and the sign of zero are
      abstracted away; every finite result is kept in lowest terms so that
      equal finite numbers are equal terms.  The arithmetic, the reading of
      digits and the rounding to two decimals are therefore those of the
      code wherever binary64 is exact, as on whole numbers below 2^53.  A
      property that depends on the size of a number is stated within
      explicit bounds, and with room for the rounding where binary64
      rounds.
    - [Array.prototype.sort] is the stable sort that the language fixes
      for a comparator that orders its arguments consistently.  When the
      comparator returns NaN because a key is NaN, the language leaves the
      order to the engine; properties of the order are stated for keys
      that are not NaN.
    - A JavaScript string is a [string] whose characters are read as code
      units 0..255 (the Latin-1 range).
    - React state is passed explicitly: a handler maps the state it closes
      over to the state it sets.
    - [Math.random] and [Date.now] are inputs: a sequence of draws threaded
      through the tick, and the clock reading handed to the deploy handler. *)

From Stdlib Require Import QArith Qround Qabs ZArith List String Ascii Bool Lia
  Lqa Sorted.
From stdpp Require Import base list strings pretty.

Local Open Scope string_scope.

(** ** JavaScript numbers *)

Inductive number : Type :=
| NaN
| Infinity (negative : bool)
| Num (q : Q).

Definition Qlt_bool (a b : Q) : bool := negb (Qle_bool b a).

Definition Qneg_bool (q : Q) : bool := Qlt_bool q 0%Q.

Definition Qzero_bool (q : Q) : bool := Qeq_bool q 0%Q.

Module Number.

Definition fin (q : Q) : number := Num (Qred q).

Definition ofZ (z : Z) : number := Num (inject_Z z).

Definition neg (a : number) : number :=
  match a with
  | NaN => NaN
  | Infinity s => Infinity (negb s)
  | Num q => fin (- q)%Q
  end.

(** [a + b] *)
Definition add (a b : number) : number :=
  match a, b with
  | NaN, _ | _, NaN => NaN
  | Infinity s, Infinity s' => if Bool.eqb s s' then Infinity s else NaN
  | Infinity s, Num _ | Num _, Infinity s => Infinity s
  | Num p, Num q => fin (p + q)%Q
  end.

(** [a - b] *)
Definition sub (a b : number) : number := add a (neg b).

(** [a * b] *)
Definition mul (a b : number) : number :=
  match a, b with
  | NaN, _ | _, NaN => NaN
  | Infinity s, Infinity s' => Infinity (xorb s s')
  | Infinity s, Num q | Num q, Infinity s =>
      if Qzero_bool q then NaN else Infinity (xorb s (Qneg_bool q))
  | Num p, Num q => fin (p * q)%Q
  end.

(** [a / b] *)
Definition div (a b : number) : number :=
  match a, b with
  | NaN, _ | _, NaN => NaN
  | Infinity _, Infinity _ => NaN
  | Infinity s, Num q => Infinity (xorb s (Qneg_bool q))
  | Num _, Infinity _ => Num 0%Q
  | Num p, Num q =>
      if Qzero_bool q
      then (if Qzero_bool p then NaN else Infinity (Qneg_bool p))
      else fin (p / q)%Q
  end.

(** [a > b]; false as soon as one side is NaN *)
Definition gt (a b : number) : bool :=
  match a, b with
  | NaN, _ | _, NaN => false
  | Infinity s, Infinity s' => negb s && s'
  | Infinity s, Num _ => negb s
  | Num _, Infinity s => s
  | Num p, Num q => Qlt_bool q p
  end.

(** [a === b] on numbers *)
Definition eqb (a b : number) : bool :=
  match a, b with
  | Infinity s, Infinity s' => Bool.eqb s s'
  | Num p, Num q => Qeq_bool p q
  | _, _ => false
  end.

(** ToBoolean on a number: NaN and zero are falsy *)
Definition truthy (a : number) : bool :=
  match a with
  | NaN => false
  | Infinity _ => true
  | Num q => negb (Qzero_bool q)
  end.

(** [a || b] where [a] is a number *)
Definition or (a b : number) : number := if truthy a then a else b.

(** The integer [n] with [n / 100] closest to [x], the larger one on a
    tie ([x] is non-negative here, as in Number.prototype.toFixed). *)
Definition nearestHundredth (x : Q) : Z := Qfloor (x * 100 + (1 # 2))%Q.

(** [Number(a.toFixed(2))]: toFixed prints NaN and the infinities by name,
    a magnitude of 1e21 or more through ToString, and anything else with
    the sign in front of the magnitude rounded to two decimals; [Number]
    reads the digits back. *)
Definition toFixed2 (a : number) : number :=
  match a with
  | NaN => NaN
  | Infinity s => Infinity s
  | Num q =>
      if Qneg_bool q
      then (if Qle_bool (inject_Z (10 ^ 21)) (- q)%Q then a
            else fin (- (nearestHundredth (- q)%Q # 100))%Q)
      else (if Qle_bool (inject_Z (10 ^ 21)) q then a
            else fin (nearestHundredth q # 100)%Q)
  end.

End Number.

(** ** JavaScript strings *)

Module Str.

Definition code (c : ascii) : N := N_of_ascii c.

(** WhiteSpace and LineTerminator code units below 256:
    TAB, LF, VT, FF, CR, SP and NBSP. *)
Definition isWhiteSpace (c : ascii) : bool :=
  let n := code c in
  ((9 <=? n) && (n <=? 13) || (n =? 32) || (n =? 160))%N.

Definition isDigit (c : ascii) : bool :=
  let n := code c in ((48 <=? n) && (n <=? 57))%N.

Definition digitValue (c : ascii) : Z := Z.of_N (code c) - 48.

Fixpoint trimStart (s : string) : string :=
  match s with
  | EmptyString => EmptyString
  | String c r => if isWhiteSpace c then trimStart r else s
  end.

Fixpoint trimEnd (s : string) : string :=
  match s with
  | EmptyString => EmptyString
  | String c r =>
      match trimEnd r with
      | EmptyString => if isWhiteSpace c then EmptyString else String c EmptyString
      | r' => String c r'
      end
  end.

(** [s.trim()] *)
Definition trim (s : string) : string := trimEnd (trimStart s).

(** ToBoolean on a string: only the empty string is falsy *)
Definition truthy (s : string) : bool :=
  match s with EmptyString => false | _ => true end.

Definition lowerChar (c : ascii) : ascii :=
  let n := code c in
  if ((65 <=? n) && (n <=? 90) ||
      (192 <=? n) && (n <=? 222) && negb (n =? 215))%N
  then ascii_of_N (n + 32) else c.

(** [s.toLowerCase()] *)
Fixpoint toLowerCase (s : string) : string :=
  match s with
  | EmptyString => EmptyString
  | String c r => String (lowerChar c) (toLowerCase r)
  end.

(** [s.includes(q)] *)
Fixpoint includes (s q : string) : bool :=
  String.prefix q s ||
  match s with
  | EmptyString => false
  | String _ r => includes r q
  end.

(** Longest run of decimal digits at the front, and what follows it. *)
Fixpoint takeDigits (s : string) : list ascii * string :=
  match s with
  | EmptyString => (nil, EmptyString)
  | String c r =>
      if isDigit c
      then (let '(ds, rest) := takeDigits r in (c :: ds, rest))
      else (nil, s)
  end.

Definition digitsValue (ds : list ascii) : Z :=
  fold_left (fun acc c => 10 * acc + digitValue c)%Z ds 0%Z.

End Str.

(** ** Reading numbers out of strings *)

Definition pow10 (e : Z) : Q :=
  if (e <? 0)%Z then (1 / inject_Z (10 ^ (- e)))%Q else inject_Z (10 ^ e).

(** ExponentPart at the front of [s]: [e] or [E], an optional sign, at least
    one digit.  Without one the literal ends before [s] and the exponent
    is 0. *)
Definition parseExponent (s : string) : Z :=
  match s with
  | String c r =>
      if (Ascii.eqb c "e" || Ascii.eqb c "E")%bool then
        let '(minus, r1) :=
          match r with
          | String "+" r' => (false, r')
          | String "-" r' => (true, r')
          | _ => (false, r)
          end in
        match Str.takeDigits r1 with
        | (nil, _) => 0%Z
        | (ds, _) => if minus then (- Str.digitsValue ds)%Z else Str.digitsValue ds
        end
      else 0%Z
  | EmptyString => 0%Z
  end.

(** The longest prefix of [s] that is a StrUnsignedDecimalLiteral other than
    [Infinity], as its value: digits with an optional fraction, or a dot
    followed by digits, then an optional exponent. *)
Definition parseUnsigned (s : string) : option Q :=
  let '(ip, r1) := Str.takeDigits s in
  match r1 with
  | String "." r2 =>
      let '(fp, r3) := Str.takeDigits r2 in
      match ip, fp with
      | nil, nil => None
      | _, _ =>
          Some (inject_Z (Str.digitsValue (ip ++ fp)%list)
                / inject_Z (10 ^ Z.of_nat (length fp))
                * pow10 (parseExponent r3))%Q
      end
  | _ =>
      match ip with
      | nil => None
      | _ => Some (inject_Z (Str.digitsValue ip) * pow10 (parseExponent r1))%Q
      end
  end.

(** [parseFloat(s)]: leading white space is skipped, then the longest prefix
    that is a StrDecimalLiteral is read; NaN when there is none. *)
Definition parseFloat (s : string) : number :=
  let t := Str.trimStart s in
  let '(minus, u) :=
    match t with
    | String "+" r => (false, r)
    | String "-" r => (true, r)
    | _ => (false, t)
    end in
  if String.prefix "Infinity" u then Infinity minus
  else match parseUnsigned u with
       | None => NaN
       | Some q => Number.fin (if minus then (- q)%Q else q)
       end.

(** [str.match(/(\d+)X/)] for a letter [X], as the captured digits of the
    leftmost match: a run of digits can only be followed by [X] at its end,
    so the scan keeps the current run and restarts after any other
    character. *)
Fixpoint matchDigitsBefore (X : ascii) (run : list ascii) (s : string)
  : option (list ascii) :=
  match s with
  | EmptyString => None
  | String c r =>
      if Str.isDigit c then matchDigitsBefore X (run ++ [c])%list r
      else if (Ascii.eqb c X && negb (Nat.eqb (length run) 0))%bool then Some run
      else matchDigitsBefore X nil r
  end.

(** [parseInt] on a capture of [\d+] *)
Definition parseIntDigits (ds : list ascii) : number :=
  Number.ofZ (Str.digitsValue ds).

(** ** types.ts *)

Record BotAlertSettings : Type := {
  pnlDropThreshold : number;
  maxDowntimeMinutes : number;
  notifyOnTradeFailure : bool
}.

Inductive AlertType : Type := PNL | DOWNTIME | FAILURE.

Inductive Severity : Type := WARNING | CRITICAL.

Module ActiveAlert.
Record t : Type := {
  id : string;
  type : AlertType;
  message : string;
  severity : Severity;
  timestamp : string
}.
End ActiveAlert.

Inductive HistoryType : Type := TRADE | STATUS_CHANGE | ALERT | INFO.

Module BotHistoryEntry.
Record t : Type := {
  id : string;
  timestamp : string;
  type : HistoryType;
  title : string;
  description : string;
  profit : option number
}.
End BotHistoryEntry.

Inductive Status : Type := RUNNING | PAUSED | STOPPED.

Record TradingBot : Type := {
  id : string;
  name : string;
  status : Status;
  pnl : number;
  pnlPercent : number;
  uptime : string;
  trades : number;
  lastTrade : string;
  alertSettings : BotAlertSettings;
  activeAlerts : list ActiveAlert.t;
  targetPnl : option number;
  strategyCode : option string;
  history : list BotHistoryEntry.t
}.

(** [Partial<TradingBot>]: every field may be left out. *)
Module Partial.
Record t : Type := {
  id : option string;
  name : option string;
  status : option Status;
  pnl : option number;
  pnlPercent : option number;
  uptime : option string;
  trades : option number;
  lastTrade : option string;
  alertSettings : option BotAlertSettings;
  activeAlerts : option (list ActiveAlert.t);
  targetPnl : option number;
  strategyCode : option string;
  history : option (list BotHistoryEntry.t)
}.

Definition empty : t :=
  {| id := None; name := None; status := None; pnl := None;
     pnlPercent := None; uptime := None; trades := None; lastTrade := None;
     alertSettings := None; activeAlerts := None; targetPnl := None;
     strategyCode := None; history := None |}.
End Partial.

Inductive TabView : Type := DASHBOARD | STRATEGY | BOTS | DATA | SETTINGS.

Definition Status_eqb (a b : Status) : bool :=
  match a, b with
  | RUNNING, RUNNING | PAUSED, PAUSED | STOPPED, STOPPED => true
  | _, _ => false
  end.

(** [{ ...bot, ...updates }] *)
Definition spread (bot : TradingBot) (updates : Partial.t) : TradingBot :=
  {| id := default (id bot) (Partial.id updates);
     name := default (name bot) (Partial.name updates);
     status := default (status bot) (Partial.status updates);
     pnl := default (pnl bot) (Partial.pnl updates);
     pnlPercent := default (pnlPercent bot) (Partial.pnlPercent updates);
     uptime := default (uptime bot) (Partial.uptime updates);
     trades := default (trades bot) (Partial.trades updates);
     lastTrade := default (lastTrade bot) (Partial.lastTrade updates);
     alertSettings := default (alertSettings bot) (Partial.alertSettings updates);
     activeAlerts := default (activeAlerts bot) (Partial.activeAlerts updates);
     targetPnl :=
       match Partial.targetPnl updates with
       | Some v => Some v
       | None => targetPnl bot
       end;
     strategyCode :=
       match Partial.strategyCode updates with
       | Some v => Some v
       | None => strategyCode bot
       end;
     history := default (history bot) (Partial.history updates) |}.

(** ** Math.random as a threaded sequence of draws *)

Definition Draws : Type := nat -> Q.

Definition Rand (A : Type) : Type := Draws -> A * Draws.

Definition ret {A} (a : A) : Rand A := fun d => (a, d).

Definition bind {A B} (c : Rand A) (k : A -> Rand B) : Rand B :=
  fun d => let '(a, d') := c d in k a d'.

Notation "'let*' x := c 'in' k" := (bind c (fun x => k))
  (at level 10, x name, c at level 100, k at level 200).

(** [Math.random()] *)
Definition random : Rand number :=
  fun d => (Number.fin (d 0%nat), fun n => d (S n)).

(** [xs.map(f)] for a callback that draws random numbers *)
Fixpoint mapM {A B} (f : A -> Rand B) (xs : list A) : Rand (list B) :=
  match xs with
  | nil => ret nil
  | x :: xs' => let* y := f x in let* ys := mapM f xs' in ret (y :: ys)
  end.

(** ** constants.ts *)

Definition SAMPLE_CODE : string := "
def on_tick(candle, indicators):
    # Sample Strategy Logic
    if indicators['rsi'] < 30 and candle['close'] > indicators['ma200']:
        return Order(side='BUY', amount=1.0)
    elif indicators['rsi'] > 70:
        return Order(side='SELL', amount=1.0)
    return None
".

Definition historyTypes : list HistoryType :=
  [TRADE; TRADE; TRADE; INFO; STATUS_CHANGE].

(** [Math.floor(x)] as a list index *)
Definition floorIndex (x : number) : nat :=
  match x with
  | Num q => Z.to_nat (Qfloor q)
  | _ => 0%nat
  end.

(** One round of the loop of generateMockHistory; [time] is the ISO
    rendering of the entry's instant. *)
Definition mockEntry (time : string) (i : nat) : Rand BotHistoryEntry.t :=
  let* r := random in
  let type := nth (floorIndex (Number.mul r (Number.ofZ 5))) historyTypes INFO in
  match type with
  | TRADE =>
      let* b := random in
      let isBuy := Number.gt b (Num 0.5) in
      if isBuy then
        ret {| BotHistoryEntry.id := "h-" +:+ pretty i;
               BotHistoryEntry.timestamp := time;
               BotHistoryEntry.type := type;
               BotHistoryEntry.title := "Executed BUY Order";
               BotHistoryEntry.description := "Bought 0.5 units @ $45,200";
               BotHistoryEntry.profit := None |}
      else
        let* p := random in
        let pnl := Number.sub (Number.mul p (Number.ofZ 100)) (Number.ofZ 40) in
        ret {| BotHistoryEntry.id := "h-" +:+ pretty i;
               BotHistoryEntry.timestamp := time;
               BotHistoryEntry.type := type;
               BotHistoryEntry.title := "Executed SELL Order";
               BotHistoryEntry.description := "Sold 0.5 units @ $46,100";
               BotHistoryEntry.profit := Some (Number.toFixed2 pnl) |}
  | STATUS_CHANGE =>
      let* c := random in
      ret {| BotHistoryEntry.id := "h-" +:+ pretty i;
             BotHistoryEntry.timestamp := time;
             BotHistoryEntry.type := type;
             BotHistoryEntry.title := "Status Update";
             BotHistoryEntry.description :=
               if Number.gt c (Num 0.5) then "Bot resumed from pause"
               else "Optimization cycle complete";
             BotHistoryEntry.profit := None |}
  | _ =>
      ret {| BotHistoryEntry.id := "h-" +:+ pretty i;
             BotHistoryEntry.timestamp := time;
             BotHistoryEntry.type := type;
             BotHistoryEntry.title := "System Log";
             BotHistoryEntry.description := "Synced with exchange API successfully.";
             BotHistoryEntry.profit := None |}
  end.

(** [generateMockHistory(count)]; [stamp i] is the ISO rendering of the
    instant [i] times 45 minutes before the call. *)
Definition generateMockHistory (stamp : nat -> string) (count : nat)
  : Rand (list BotHistoryEntry.t) :=
  mapM (fun i => mockEntry (stamp i) i) (seq 0 count).

Definition mkSettings (drop downtime : Z) (notify : bool) : BotAlertSettings :=
  {| pnlDropThreshold := Number.ofZ drop;
     maxDowntimeMinutes := Number.ofZ downtime;
     notifyOnTradeFailure := notify |}.

Definition mkAlert (i : string) (t : AlertType) (m : string) (s : Severity)
  (now : string) : ActiveAlert.t :=
  {| ActiveAlert.id := i; ActiveAlert.type := t; ActiveAlert.message := m;
     ActiveAlert.severity := s; ActiveAlert.timestamp := now |}.

Definition MACD_CODE : string := "class MACDStrategy:
    def next(self, close, macd, signal):
        if macd > signal and self.position == 0:
            self.buy()
        elif macd < signal and self.position > 0:
            self.sell()
".

Definition RSI_CODE : string := "class RSIStrategy:
    def next(self, rsi):
        if rsi < 30:
            self.buy(size=0.1)
        elif rsi > 70:
            self.close_position()
".

Definition DEEPQ_CODE : string := "# Reinforced Learning Agent
import torch
import torch.nn as nn

class QNetwork(nn.Module):
    def __init__(self, state_size, action_size):
        super(QNetwork, self).__init__()
        self.fc1 = nn.Linear(state_size, 64)
        self.fc2 = nn.Linear(64, 64)
        self.fc3 = nn.Linear(64, action_size)

    def forward(self, state):
        x = torch.relu(self.fc1(state))
        x = torch.relu(self.fc2(x))
        return self.fc3(x)
".

Definition mkBot (i n : string) (s : Status) (p pp : Q) (up : string)
  (tr : Z) (last : string) (cfg : BotAlertSettings)
  (alerts : list ActiveAlert.t) (target : Z) (code : string)
  (h : list BotHistoryEntry.t) : TradingBot :=
  {| id := i; name := n; status := s; pnl := Number.fin p;
     pnlPercent := Number.fin pp; uptime := up; trades := Number.ofZ tr;
     lastTrade := last; alertSettings := cfg; activeAlerts := alerts;
     targetPnl := Some (Number.ofZ target); strategyCode := Some code;
     history := h |}.

(** [MOCK_BOTS]; the array literal is evaluated once, in order, so the ten
    activity logs consume the draws one after the other.  [stamp] is as
    for [generateMockHistory] and [now] is the ISO rendering of the load
    instant. *)
Definition MOCK_BOTS (stamp : nat -> string) (now : string)
  : Rand (list TradingBot) :=
  let* h1 := generateMockHistory stamp 15 in
  let* h2 := generateMockHistory stamp 5 in
  let* h3 := generateMockHistory stamp 20 in
  let* h4 := generateMockHistory stamp 8 in
  let* h5 := generateMockHistory stamp 30 in
  let* h6 := generateMockHistory stamp 4 in
  let* h7 := generateMockHistory stamp 40 in
  let* h8 := generateMockHistory stamp 12 in
  let* h9 := generateMockHistory stamp 10 in
  let* h10 := generateMockHistory stamp 5 in
  ret [
    mkBot "1" "MACD Trend Follower - BTC" RUNNING 1250.50 12.5 "4d 12h" 24
      "2h ago" (mkSettings 5 60 true) [] 5000 MACD_CODE h1;
    mkBot "2" "RSI Mean Reversion - ETH" PAUSED (-45.20) (-0.8) "1d 4h" 5
      "1d ago" (mkSettings 10 30 true)
      [mkAlert "a1" DOWNTIME "Bot unresponsive for 45 mins" WARNING now]
      2000 RSI_CODE h2;
    mkBot "3" "Bollinger Breakout - SOL" RUNNING 3420.80 28.4 "7d 2h" 45
      "15m ago" (mkSettings 8 45 false) [] 10000 SAMPLE_CODE h3;
    mkBot "4" "VWAP Scalper - BTC" STOPPED (-120.50) (-2.1) "12h 30m" 8
      "5h ago" (mkSettings 3 15 true)
      [mkAlert "a2" FAILURE "API Rate Limit Exceeded" CRITICAL now]
      1000 SAMPLE_CODE h4;
    mkBot "5" "Grid Trader - DOGE" RUNNING 150.25 1.5 "3d 8h" 112
      "1m ago" (mkSettings 15 120 true) [] 3000 SAMPLE_CODE h5;
    mkBot "6" "Ichimoku Cloud - LINK" PAUSED 12.00 0.2 "5h 10m" 2
      "3h ago" (mkSettings 5 60 true) [] 1500 SAMPLE_CODE h6;
    mkBot "7" "DeepQ Learning Agent - BTC" RUNNING 5600.75 28.0 "15d 4h" 892
      "30s ago" (mkSettings 15 30 true) [] 10000 DEEPQ_CODE h7;
    mkBot "8" "Sentiment Transformer - ETH" PAUSED 890.00 8.9 "3d 12h" 45
      "4h ago" (mkSettings 5 120 false) [] 5000 SAMPLE_CODE h8;
    mkBot "9" "Arbitrage Hunter - MATIC" RUNNING 120.40 1.2 "6h 15m" 14
      "2m ago" (mkSettings 2 10 true) [] 1000 SAMPLE_CODE h9;
    mkBot "10" "Whale Watcher AI - XRP" STOPPED (-50.25) (-1.0) "1d 0h" 3
      "1d ago" (mkSettings 5 60 true)
      [mkAlert "a3" PNL "Drawdown limit reached" WARNING now]
      2500 SAMPLE_CODE h10
  ].

(** ** App.tsx *)

(** The part of the state of [App] that the fleet engine reads and writes:
    the selected tab and the bot store. *)
Record AppState : Type := {
  activeTab : TabView;
  bots : list TradingBot
}.

Definition setBots (l : list TradingBot) (st : AppState) : AppState :=
  {| activeTab := activeTab st; bots := l |}.

Definition setActiveTab (t : TabView) (st : AppState) : AppState :=
  {| activeTab := t; bots := bots st |}.

(** The callback mapped over the store every 1.5 seconds. *)
Definition tickBot (bot : TradingBot) : Rand TradingBot :=
  if Status_eqb (status bot) RUNNING then
    let* r1 := random in
    let volatility := Number.mul r1 (Number.ofZ 8) in
    let* r2 := random in
    let direction :=
      if Number.gt r2 (Num 0.45) then Number.ofZ 1 else Number.ofZ (-1) in
    let change := Number.mul volatility direction in
    let newPnl := Number.add (pnl bot) change in
    let newPercent :=
      Number.mul (Number.div newPnl (Number.ofZ 10000)) (Number.ofZ 100) in
    let* r3 := random in
    let hasNewTrade := Number.gt r3 (Num 0.95) in
    let* lastTradeTime :=
      (if hasNewTrade then ret "Just now"
       else
         let* r4 := random in
         if Number.gt r4 (Num 0.9) then
           if String.eqb (lastTrade bot) "Just now" then ret "1m ago"
           else if String.eqb (lastTrade bot) "1m ago" then ret "2m ago"
           else ret (lastTrade bot)
         else ret (lastTrade bot)) in
    ret {| id := id bot;
           name := name bot;
           status := status bot;
           pnl := Number.toFixed2 newPnl;
           pnlPercent := Number.toFixed2 newPercent;
           uptime := uptime bot;
           trades :=
             if hasNewTrade then Number.add (trades bot) (Number.ofZ 1)
             else trades bot;
           lastTrade := lastTradeTime;
           alertSettings := alertSettings bot;
           activeAlerts := activeAlerts bot;
           targetPnl := targetPnl bot;
           strategyCode := strategyCode bot;
           history := history bot |}
  else ret bot.

(** One firing of the interval: [setBots(currentBots => currentBots.map(...))] *)
Definition tick (st : AppState) : Rand AppState :=
  let* l := mapM tickBot (bots st) in ret (setBots l st).

(** [handleDeployBot]; [now] is the reading of [Date.now()], an integer
    count of milliseconds, and its [toString()] is its decimal rendering. *)
Definition handleDeployBot (now : Z) (strategyName description code : string)
  (st : AppState) : AppState :=
  let newBot :=
    {| id := pretty now;
       name := strategyName;
       status := RUNNING;
       pnl := Number.ofZ 0;
       pnlPercent := Number.ofZ 0;
       uptime := "0m";
       trades := Number.ofZ 0;
       lastTrade := "Waiting for signal...";
       alertSettings :=
         {| pnlDropThreshold := Number.ofZ 5;
            maxDowntimeMinutes := Number.ofZ 60;
            notifyOnTradeFailure := true |};
       activeAlerts := [];
       targetPnl := Some (Number.ofZ 5000);
       strategyCode := Some code;
       history := [] |} in
  setActiveTab BOTS (setBots (newBot :: bots st) st).

Definition toggled (bot : TradingBot) : TradingBot :=
  {| id := id bot;
     name := name bot;
     status := if Status_eqb (status bot) RUNNING then PAUSED else RUNNING;
     pnl := pnl bot;
     pnlPercent := pnlPercent bot;
     uptime := uptime bot;
     trades := trades bot;
     lastTrade := lastTrade bot;
     alertSettings := alertSettings bot;
     activeAlerts := activeAlerts bot;
     targetPnl := targetPnl bot;
     strategyCode := strategyCode bot;
     history := history bot |}.

Definition handleToggleBot (i : string) (st : AppState) : AppState :=
  setBots (map (fun bot => if String.eqb (id bot) i then toggled bot else bot)
               (bots st)) st.

Definition handleDeleteBot (i : string) (st : AppState) : AppState :=
  setBots (List.filter (fun b => negb (String.eqb (id b) i)) (bots st)) st.

Definition handleUpdateBot (i : string) (updates : Partial.t) (st : AppState)
  : AppState :=
  setBots (map (fun bot => if String.eqb (id bot) i then spread bot updates
                           else bot)
               (bots st)) st.

(** ** BotDashboard.tsx *)

Inductive StatusFilter : Type := ALL | Only (s : Status).

Module SortBy.
Inductive t : Type := NAME | PNL | UPTIME.
End SortBy.

(** The alert form keeps the number inputs as strings. *)
Module AlertForm.
Record t : Type := {
  id : string;
  pnlDropThreshold : string;
  maxDowntimeMinutes : string;
  notifyOnTradeFailure : bool;
  targetPnl : string
}.
End AlertForm.

Record DashboardState : Type := {
  statusFilter : StatusFilter;
  searchQuery : string;
  sortBy : SortBy.t;
  alertForm : option AlertForm.t;
  historyBotId : option string;
  editingNameId : option string;
  tempName : string
}.

Definition setAlertForm (f : option AlertForm.t) (d : DashboardState)
  : DashboardState :=
  {| statusFilter := statusFilter d; searchQuery := searchQuery d;
     sortBy := sortBy d; alertForm := f; historyBotId := historyBotId d;
     editingNameId := editingNameId d; tempName := tempName d |}.

Definition setHistoryBotId (i : option string) (d : DashboardState)
  : DashboardState :=
  {| statusFilter := statusFilter d; searchQuery := searchQuery d;
     sortBy := sortBy d; alertForm := alertForm d; historyBotId := i;
     editingNameId := editingNameId d; tempName := tempName d |}.

Definition setEditingNameId (i : option string) (d : DashboardState)
  : DashboardState :=
  {| statusFilter := statusFilter d; searchQuery := searchQuery d;
     sortBy := sortBy d; alertForm := alertForm d;
     historyBotId := historyBotId d; editingNameId := i;
     tempName := tempName d |}.

Definition setTempName (n : string) (d : DashboardState) : DashboardState :=
  {| statusFilter := statusFilter d; searchQuery := searchQuery d;
     sortBy := sortBy d; alertForm := alertForm d;
     historyBotId := historyBotId d; editingNameId := editingNameId d;
     tempName := n |}.

(** [bots.reduce((acc, bot) => acc + bot.pnl, 0)] *)
Definition totalPnL (l : list TradingBot) : number :=
  fold_left (fun acc bot => Number.add acc (pnl bot)) l (Number.ofZ 0).

Definition activeCount (l : list TradingBot) : nat :=
  length (List.filter (fun b => Status_eqb (status b) RUNNING) l).

(** [{ ...a, botName: b.name }] *)
Module BannerAlert.
Record t : Type := {
  id : string;
  type : AlertType;
  message : string;
  severity : Severity;
  timestamp : string;
  botName : string
}.
End BannerAlert.

Definition withBotName (b : TradingBot) (a : ActiveAlert.t) : BannerAlert.t :=
  {| BannerAlert.id := ActiveAlert.id a;
     BannerAlert.type := ActiveAlert.type a;
     BannerAlert.message := ActiveAlert.message a;
     BannerAlert.severity := ActiveAlert.severity a;
     BannerAlert.timestamp := ActiveAlert.timestamp a;
     BannerAlert.botName := name b |}.

(** [bots.flatMap(b => b.activeAlerts.map(a => ({...a, botName: b.name})))] *)
Definition allActiveAlerts (l : list TradingBot) : list BannerAlert.t :=
  flat_map (fun b => map (withBotName b) (activeAlerts b)) l.

(** [bots.find(b => b.id === historyBotId) || null] *)
Definition historyBot (l : list TradingBot) (historyBotId : option string)
  : option TradingBot :=
  List.find (fun b => match historyBotId with
                      | Some i => String.eqb (id b) i
                      | None => false
                      end) l.

(** The entries listed by the activity-log overlay: those of [historyBot]
    when there is one; without one the overlay is not rendered. *)
Definition historyEntries (l : list TradingBot) (historyBotId : option string)
  : list BotHistoryEntry.t :=
  match historyBot l historyBotId with
  | Some b => history b
  | None => []
  end.

Definition handleEditAlerts (toString : number -> string) (bot : TradingBot)
  (d : DashboardState) : DashboardState :=
  setAlertForm
    (Some {| AlertForm.id := id bot;
             AlertForm.pnlDropThreshold :=
               toString (pnlDropThreshold (alertSettings bot));
             AlertForm.maxDowntimeMinutes :=
               toString (maxDowntimeMinutes (alertSettings bot));
             AlertForm.notifyOnTradeFailure :=
               notifyOnTradeFailure (alertSettings bot);
             AlertForm.targetPnl :=
               match targetPnl bot with
               | Some t => if Number.truthy t then toString t else "5000"
               | None => "5000"
               end |}) d.

Definition handleSaveAlerts (d : DashboardState) (st : AppState)
  : DashboardState * AppState :=
  match alertForm d with
  | Some f =>
      let settings :=
        {| pnlDropThreshold :=
             Number.or (parseFloat (AlertForm.pnlDropThreshold f)) (Number.ofZ 0);
           maxDowntimeMinutes :=
             Number.or (parseFloat (AlertForm.maxDowntimeMinutes f)) (Number.ofZ 0);
           notifyOnTradeFailure := AlertForm.notifyOnTradeFailure f |} in
      let updates :=
        {| Partial.id := None; Partial.name := None; Partial.status := None;
           Partial.pnl := None; Partial.pnlPercent := None;
           Partial.uptime := None; Partial.trades := None;
           Partial.lastTrade := None;
           Partial.alertSettings := Some settings;
           Partial.activeAlerts := None;
           Partial.targetPnl :=
             Some (Number.or (parseFloat (AlertForm.targetPnl f)) (Number.ofZ 0));
           Partial.strategyCode := None; Partial.history := None |} in
      (setAlertForm None d, handleUpdateBot (AlertForm.id f) updates st)
  | None => (d, st)
  end.

Definition handleStartRename (bot : TradingBot) (d : DashboardState)
  : DashboardState :=
  setTempName (name bot) (setEditingNameId (Some (id bot)) d).

Definition handleSaveName (d : DashboardState) (st : AppState)
  : DashboardState * AppState :=
  match editingNameId d with
  | Some i =>
      if (Str.truthy i && Str.truthy (Str.trim (tempName d)))%bool then
        let updates :=
          {| Partial.id := None;
             Partial.name := Some (Str.trim (tempName d));
             Partial.status := None; Partial.pnl := None;
             Partial.pnlPercent := None; Partial.uptime := None;
             Partial.trades := None; Partial.lastTrade := None;
             Partial.alertSettings := None; Partial.activeAlerts := None;
             Partial.targetPnl := None; Partial.strategyCode := None;
             Partial.history := None |} in
        (setEditingNameId None d, handleUpdateBot i updates st)
      else (d, st)
  | None => (d, st)
  end.

Definition handleCancelRename (d : DashboardState) : DashboardState :=
  setTempName "" (setEditingNameId None d).

(** *** Filter, search and sort *)

(** [Array.prototype.sort(comparefn)].  The comparator's result is read as
    in SortCompare: NaN counts as 0 and [x] goes after [y] exactly when the
    result is positive.  The sort is stable, so each element is inserted in
    front of the sorted remainder and moves right only past elements it goes
    after.  For a comparator that orders consistently this is the one
    result the language allows; for one that does not, as [b.pnl - a.pnl]
    with a NaN among the keys, the order is the engine's choice and this
    is only one of the possible results. *)
Section ArraySort.
Context {A : Type} (comparefn : A -> A -> number).

Definition goesAfter (x y : A) : bool :=
  Number.gt (comparefn x y) (Number.ofZ 0).

Fixpoint insertSorted (x : A) (l : list A) : list A :=
  match l with
  | [] => [x]
  | y :: l' => if goesAfter x y then y :: insertSorted x l' else x :: l
  end.

Fixpoint Array_sort (l : list A) : list A :=
  match l with
  | [] => []
  | x :: l' => insertSorted x (Array_sort l')
  end.

(** No element goes after its right neighbour. *)
Fixpoint settled (l : list A) : Prop :=
  match l with
  | x :: (y :: _) as l' => goesAfter x y = false /\ settled l'
  | _ => True
  end.
End ArraySort.

(** [getHours] of the UPTIME comparator *)
Definition getHours (str : string) : number :=
  if (Str.includes str "m" && negb (Str.includes str "h")
      && negb (Str.includes str "d"))%bool
  then Num 0.01
  else
    let d := match matchDigitsBefore "d" [] str with
             | Some ds => parseIntDigits ds
             | None => Number.ofZ 0
             end in
    let h := match matchDigitsBefore "h" [] str with
             | Some ds => parseIntDigits ds
             | None => Number.ofZ 0
             end in
    Number.add (Number.mul d (Number.ofZ 24)) h.

Definition statusMatches (f : StatusFilter) (b : TradingBot) : bool :=
  match f with
  | ALL => true
  | Only s => Status_eqb (status b) s
  end.

Definition searchMatches (q : string) (b : TradingBot) : bool :=
  (Str.includes (Str.toLowerCase (name b)) q
   || Str.includes (Str.toLowerCase (id b)) q)%bool.

(** A heap is the list of the arrays allocated so far and a reference is an
    index into it. *)
Abbreviation Heap := (list (list TradingBot)).

(** Computations on arrays held by reference: the spread and [filter]
    allocate a new array, [sort] overwrites the one it is called on. *)
Definition Mem (A : Type) : Type := Heap -> A * Heap.

Definition contents (r : nat) (h : Heap) : list TradingBot :=
  default [] (h !! r).

Definition alloc (l : list TradingBot) : Mem nat :=
  fun h => (length h, (h ++ [l])%list).

(** [[...arr]] *)
Definition spreadCopy (r : nat) : Mem nat :=
  fun h => alloc (contents r h) h.

(** [arr.filter(p)] *)
Definition filterArray (p : TradingBot -> bool) (r : nat) : Mem nat :=
  fun h => alloc (List.filter p (contents r h)) h.

(** [arr.sort(comparefn)] *)
Definition sortArray (comparefn : TradingBot -> TradingBot -> number)
  (r : nat) : Mem nat :=
  fun h => (r, <[r := Array_sort comparefn (contents r h)]> h).

Section ProcessedBots.
(** [String.prototype.localeCompare] depends on the host's collation. *)
Variable localeCompare : string -> string -> number.

(** The comparator handed to [result.sort] *)
Definition compareBots (key : SortBy.t) (a b : TradingBot) : number :=
  match key with
  | SortBy.NAME => localeCompare (name a) (name b)
  | SortBy.PNL => Number.sub (pnl b) (pnl a)
  | SortBy.UPTIME => Number.sub (getHours (uptime b)) (getHours (uptime a))
  end.

(** [processedBots] as a function of the values involved *)
Definition processedBots (d : DashboardState) (l : list TradingBot)
  : list TradingBot :=
  let result := l in
  let result :=
    match statusFilter d with
    | ALL => result
    | Only _ => List.filter (statusMatches (statusFilter d)) result
    end in
  let result :=
    if Str.truthy (searchQuery d)
    then List.filter (searchMatches (Str.toLowerCase (searchQuery d))) result
    else result in
  Array_sort (compareBots (sortBy d)) result.

(** The same computation on arrays held by reference. *)
Definition processedBotsRef (d : DashboardState) (botsRef : nat) : Mem nat :=
  fun h0 =>
    let '(result, h1) := spreadCopy botsRef h0 in
    let '(result, h2) :=
      match statusFilter d with
      | ALL => (result, h1)
      | Only _ => filterArray (statusMatches (statusFilter d)) result h1
      end in
    let '(result, h3) :=
      if Str.truthy (searchQuery d)
      then filterArray (searchMatches (Str.toLowerCase (searchQuery d)))
                       result h2
      else (result, h2) in
    let '(_, h4) := sortArray (compareBots (sortBy d)) result h3 in
    (result, h4).
End ProcessedBots.

(** ** A concrete load of the application

    The module is loaded at 2024-01-02T06:00:00.000Z and every draw made
    while [MOCK_BOTS] is built is 7/10, which selects 'INFO' for each log
    entry.  The longest log has 40 entries, 45 minutes apart, so all
    instants fall on the first two days of 2024. *)

Definition pad2 (n : nat) : string :=
  if (n <? 10)%nat then "0" +:+ pretty n else pretty n.

(** ISO rendering of the instant [i] times 45 minutes before the load,
    for [i] up to 40. *)
Definition loadStamp (i : nat) : string :=
  let m := (1800 - 45 * i)%nat in
  "2024-01-" +:+ pad2 (1 + m / 1440) +:+ "T" +:+ pad2 (m mod 1440 / 60)
  +:+ ":" +:+ pad2 (m mod 60) +:+ ":00.000Z".

Definition loadInstant : string := "2024-01-02T06:00:00.000Z".

Definition loadDraws : Draws := fun _ => 0.7%Q.

Definition initialBots : list TradingBot :=
  fst (MOCK_BOTS loadStamp loadInstant loadDraws).

(** [useState<TabView>(TabView.DASHBOARD)], [useState<TradingBot[]>(MOCK_BOTS)] *)
Definition initialState : AppState :=
  {| activeTab := DASHBOARD; bots := initialBots |}.

(** [useState] defaults of the dashboard *)
Definition initialDashboard : DashboardState :=
  {| statusFilter := ALL; searchQuery := ""; sortBy := SortBy.PNL;
     alertForm := None; historyBotId := None; editingNameId := None;
     tempName := "" |}.

(** The same application with an empty fleet. *)
Definition emptyState : AppState := {| activeTab := DASHBOARD; bots := [] |}.

(** Draws repeating with period four. *)
Definition cycle4 (a b c e : Q) : Draws :=
  fun n => match (n mod 4)%nat with
           | 0%nat => a
           | 1%nat => b
           | 2%nat => c
           | _ => e
           end.

(** [n] firings of the interval, one after the other *)
Fixpoint ticks (n : nat) (st : AppState) : Rand AppState :=
  match n with
  | O => ret st
  | S n' => let* st' := tick st in ticks n' st'
  end.

(** ** Vocabulary of the properties *)

(** The PnL change of a running bot's tick as a function of the draws left
    when its turn comes: volatility from the first, direction from the
    second. *)
Definition tickChange (d : Draws) : number :=
  Number.mul (Number.mul (Number.fin (d 0%nat)) (Number.ofZ 8))
             (if Number.gt (Number.fin (d 1%nat)) (Num 0.45)
              then Number.ofZ 1 else Number.ofZ (-1)).

(** The new PnL of that tick, before it is rounded. *)
Definition tickNewPnl (bot : TradingBot) (d : Draws) : number :=
  Number.add (pnl bot) (tickChange d).

(** What the toggle stores for a bot: the same record with the status
    RUNNING turned into PAUSED and any other status into RUNNING. *)
Definition withStatus (s : Status) (b : TradingBot) : TradingBot :=
  {| id := id b; name := name b; status := s; pnl := pnl b;
     pnlPercent := pnlPercent b; uptime := uptime b; trades := trades b;
     lastTrade := lastTrade b; alertSettings := alertSettings b;
     activeAlerts := activeAlerts b; targetPnl := targetPnl b;
     strategyCode := strategyCode b; history := history b |}.



(** The state reached from an empty fleet by Deploy("Test Bot", "desc",
    "code") at clock reading 1704175200000 followed by [n] ticks in each of
    which the bot loses 4: the draws are 1/2 (volatility 4), 0 (direction
    -1), 0 (no trade), 0 (no ageing). *)
Definition losingRun (n : nat) : AppState :=
  fst (ticks n (handleDeployBot 1704175200000 "Test Bot" "desc" "code" emptyState)
             (cycle4 0.5 0 0 0)).

(** The identifiers of the store are decimal renderings of clock readings
    other than [now]. *)
Definition idsFromOtherInstants (now : Z) (l : list TradingBot) : Prop :=
  Forall (fun b => exists t : Z, t <> now /\ id b = pretty t) l.

(** The bots that pass the status filter and the search box. *)
Definition keeps (d : DashboardState) (b : TradingBot) : bool :=
  (statusMatches (statusFilter d) b
   && (if Str.truthy (searchQuery d)
       then searchMatches (Str.toLowerCase (searchQuery d)) b
       else true))%bool.

(** What a step of the query leaves in the heap, starting from [h0]: the
    arrays of [h0] are where and what they were, and the reference in hand
    points to a later array holding [l]. *)
Definition queryStep (h0 : Heap) (l : list TradingBot) (s : nat * Heap) : Prop :=
  length h0 <= fst s /\
  (forall k, k < length h0 -> snd s !! k = h0 !! k) /\
  snd s !! fst s = Some l.

(** The PnL of [b] is not above the PnL of [a]. *)
Definition notBelow (a b : TradingBot) : Prop :=
  Number.gt (pnl b) (pnl a) = false.

(** Every character of [s] is white space; the empty string qualifies. *)
Fixpoint allWhiteSpace (s : string) : bool :=
  match s with
  | EmptyString => true
  | String c r => (Str.isWhiteSpace c && allWhiteSpace r)%bool
  end.

(** The dashboard while bot [i] is being renamed to [newName]. *)
Definition renaming (i newName : string) : DashboardState :=
  setTempName newName (setEditingNameId (Some i) initialDashboard).

(** The record stored for a bot whose settings are saved: the bot with its
    alert configuration and its target replaced. *)
Definition withAlertConfig (cfg : BotAlertSettings) (target : number)
  (b : TradingBot) : TradingBot :=
  {| id := id b; name := name b; status := status b; pnl := pnl b;
     pnlPercent := pnlPercent b; uptime := uptime b; trades := trades b;
     lastTrade := lastTrade b; alertSettings := cfg;
     activeAlerts := activeAlerts b; targetPnl := Some target;
     strategyCode := strategyCode b; history := history b |}.

(** The dashboard with the alert form open on [f]. *)
Definition editingAlerts (f : AlertForm.t) : DashboardState :=
  setAlertForm (Some f) initialDashboard.

(** A text whose first character after the leading white space is neither
    a digit, a sign, a dot nor the I of Infinity has no number in front. *)
Definition startsNoNumber (s : string) : bool :=
  match Str.trimStart s with
  | EmptyString => true
  | String c _ =>
      negb (Str.isDigit c || Ascii.eqb c "+" || Ascii.eqb c "-"
            || Ascii.eqb c "." || Ascii.eqb c "I")
  end.

(** What a banner entry holds besides the bot's name: the stored alert. *)
Definition storedAlert (x : BannerAlert.t) : ActiveAlert.t :=
  {| ActiveAlert.id := BannerAlert.id x;
     ActiveAlert.type := BannerAlert.type x;
     ActiveAlert.message := BannerAlert.message x;
     ActiveAlert.severity := BannerAlert.severity x;
     ActiveAlert.timestamp := BannerAlert.timestamp x |}.

(** A text that cannot continue a run of digits as a number: it is empty,
    or starts with something other than a digit, a dot or the letter of an
    exponent. *)
Definition endsNumber (s : string) : bool :=
  match s with
  | EmptyString => true
  | String c _ =>
      negb (Str.isDigit c || Ascii.eqb c "." || Ascii.eqb c "e"
            || Ascii.eqb c "E")
  end.

(** The bots of a store that do not carry the id [i], in store order. *)
Definition others (i : string) (l : list TradingBot) : list TradingBot :=
  List.filter (fun b => negb (String.eqb (id b) i)) l.

(** ** Vocabulary of the further properties *)

(** Every draw is a value [Math.random] can return: at least 0, below 1. *)
Definition drawsInRange (d : Draws) : Prop := forall n, (0 <= d n < 1)%Q.

(** What a tick keeps of a bot: everything but PnL, percent, trade count
    and last-trade label. *)
Definition sameIdentity (b b' : TradingBot) : Prop :=
  id b' = id b /\ name b' = name b /\ status b' = status b /\
  uptime b' = uptime b /\ alertSettings b' = alertSettings b /\
  activeAlerts b' = activeAlerts b /\ targetPnl b' = targetPnl b /\
  strategyCode b' = strategyCode b /\ history b' = history b.

(** How a tick may move the trade count and the last-trade label of a bot:
    a new trade counts one more and reads "Just now"; without one the count
    stays and the label stays or ages by one step. *)
Definition tradeStep (b b' : TradingBot) : Prop :=
  (trades b' = Number.add (trades b) (Number.ofZ 1) /\
   lastTrade b' = "Just now") \/
  (trades b' = trades b /\
   (lastTrade b' = lastTrade b \/
    (lastTrade b = "Just now" /\ lastTrade b' = "1m ago") \/
    (lastTrade b = "1m ago" /\ lastTrade b' = "2m ago"))).

(** The record stored for a renamed bot. *)
Definition withName (n : string) (b : TradingBot) : TradingBot :=
  {| id := id b; name := n; status := status b; pnl := pnl b;
     pnlPercent := pnlPercent b; uptime := uptime b; trades := trades b;
     lastTrade := lastTrade b; alertSettings := alertSettings b;
     activeAlerts := activeAlerts b; targetPnl := targetPnl b;
     strategyCode := strategyCode b; history := history b |}.

(** Where two toggles in a row leave a bot: a stopped bot is started by the
    first and paused by the second, any other bot is back where it was. *)
Definition toggledTwice (b : TradingBot) : TradingBot :=
  match status b with
  | STOPPED => withStatus PAUSED b
  | _ => b
  end.

(** No two bots of the store carry the same id. *)
Definition uniqueIds (l : list TradingBot) : Prop := NoDup (map id l).

(** The text starts with no white space and ends with none. *)
Definition trimmed (s : string) : Prop :=
  Str.trimStart s = s /\ Str.trimEnd s = s.

(** The target the alert form shows for a bot: its own when it has one
    that is not zero, else 5000. *)
Definition shownTarget (b : TradingBot) : number :=
  match targetPnl b with
  | Some t => if Number.truthy t then t else Num 5000
  | None => Num 5000
  end.

(** A rendering of numbers good enough for whole numbers: their decimal
    digits. *)
Definition wholeToString (x : number) : string :=
  match x with
  | Num q => pretty (Qnum q)
  | Infinity false => "Infinity"
  | Infinity true => "-Infinity"
  | NaN => "NaN"
  end.

(** The setters of the dashboard's search box and sort key:
    [setSearchQuery] and [setSortBy] of [useState]. *)
Definition setSearchQuery (q : string) (d : DashboardState) : DashboardState :=
  {| statusFilter := statusFilter d; searchQuery := q; sortBy := sortBy d;
     alertForm := alertForm d; historyBotId := historyBotId d;
     editingNameId := editingNameId d; tempName := tempName d |}.

Definition setSortBy (k : SortBy.t) (d : DashboardState) : DashboardState :=
  {| statusFilter := statusFilter d; searchQuery := searchQuery d; sortBy := k;
     alertForm := alertForm d; historyBotId := historyBotId d;
     editingNameId := editingNameId d; tempName := tempName d |}.

(** A comparator of the shape [(a, b) => key(b) - key(a)]. *)
Definition compareDescending {A} (key : A -> number) (a b : A) : number :=
  Number.sub (key b) (key a).

(** The key of [b] is not above the key of [a]. *)
Definition keyNotBelow {A} (key : A -> number) (a b : A) : Prop :=
  Number.gt (key b) (key a) = false.

(** The hours read off a bot's uptime label. *)
Definition uptimeHours (b : TradingBot) : number := getHours (uptime b).

(** Every character is one of 0 to 9. *)
Definition digitChars (ds : list ascii) : Prop :=
  Forall (fun c => Str.isDigit c = true) ds.

(** ** BotDashboard.tsx, further *)

(** What [handleExportCode] hands to the browser. *)
Record Download : Type := {
  download : string;
  blobContent : string;
  blobType : string
}.

(** A character that [/[^a-z0-9]/gi] leaves alone: with code units below
    256 the class [a-z0-9], read without regard to case, holds the digits
    and the letters A-Z and a-z. *)
Definition isAlnum (c : ascii) : bool :=
  let n := Str.code c in
  ((48 <=? n) && (n <=? 57) || (65 <=? n) && (n <=? 90)
   || (97 <=? n) && (n <=? 122))%N.

(** [s.replace(/[^a-z0-9]/gi, '_')] *)
Fixpoint replaceNonAlnum (s : string) : string :=
  match s with
  | EmptyString => EmptyString
  | String c r => String (if isAlnum c then c else "_"%char) (replaceNonAlnum r)
  end.

(** [handleExportCode]: nothing happens without strategy code; otherwise
    the code is offered as a Python file named after the bot. *)
Definition handleExportCode (bot : TradingBot) : option Download :=
  match strategyCode bot with
  | Some code =>
      if Str.truthy code then
        Some {| download :=
                  Str.toLowerCase (replaceNonAlnum (name bot)) +:+ ".py";
                blobContent := code;
                blobType := "text/x-python" |}
      else None
  | None => None
  end.

(** [Math.max(a, b)] and [Math.min(a, b)]: NaN as soon as one side is. *)
Definition Math_max (a b : number) : number :=
  match a, b with
  | NaN, _ | _, NaN => NaN
  | _, _ => if Number.gt a b then a else b
  end.

Definition Math_min (a b : number) : number :=
  match a, b with
  | NaN, _ | _, NaN => NaN
  | _, _ => if Number.gt a b then b else a
  end.

(** The width of the PnL progress bar, in percent; the bar is drawn for a
    bot with a target that is truthy and above 0:
    [Math.min(100, Math.max(0, (bot.pnl / bot.targetPnl) * 100))]. *)
Definition progressPercent (bot : TradingBot) : option number :=
  match targetPnl bot with
  | Some t =>
      if (Number.truthy t && Number.gt t (Number.ofZ 0))%bool then
        Some (Math_min (Number.ofZ 100)
                (Math_max (Number.ofZ 0)
                   (Number.mul (Number.div (pnl bot) t) (Number.ofZ 100))))
      else None
  | None => None
  end.

(** A character of a file name made by [handleExportCode]: a small letter,
    a digit or the underscore. *)
Definition isFileNameChar (c : ascii) : bool :=
  let n := Str.code c in
  ((48 <=? n) && (n <=? 57) || (97 <=? n) && (n <=? 122) || (n =? 95))%N.

(** ** StrategyBuilder.tsx: ranking a batch *)

Module BacktestResult.
Record t : Type := {
  strategyName : string;
  description : string;
  totalReturn : string;
  winRate : string;
  maxDrawdown : string;
  sharpeRatio : string;
  tradesExecuted : number;
  pseudoCode : string;
  equityCurve : list (string * number)
}.
End BacktestResult.

(** [s.replace(c, '')] for a one-character pattern: the first occurrence
    goes, the rest stays. *)
Fixpoint removeFirst (c : ascii) (s : string) : string :=
  match s with
  | EmptyString => EmptyString
  | String a r => if Ascii.eqb a c then r else String a (removeFirst c r)
  end.

(** [parseFloat(r.totalReturn.replace('%', '').replace('+', ''))] *)
Definition returnValue (r : BacktestResult.t) : number :=
  parseFloat (removeFirst "+" (removeFirst "%" (BacktestResult.totalReturn r))).

(** The batch as [handleGenerate] stores it: sorted by total return,
    highest first. *)
Definition sortedData (data : list BacktestResult.t) : list BacktestResult.t :=
  Array_sort (fun a b => Number.sub (returnValue b) (returnValue a)) data.

(** The total return reads as a number with at most two decimals and of
    magnitude at most 10^9: [k / 100] for a whole [k].  Two such returns
    that differ are told apart by the comparator, in binary64 too. *)
Definition readsAsPercent (r : BacktestResult.t) : Prop :=
  exists k : Z, (Z.abs k <= 10 ^ 11)%Z /\ returnValue r = Number.fin (k # 100).

(** A result as the service may return it, with the given name and total
    return. *)
Definition sampleResult (name ret : string) : BacktestResult.t :=
  {| BacktestResult.strategyName := name; BacktestResult.description := "";
     BacktestResult.totalReturn := ret; BacktestResult.winRate := "55%";
     BacktestResult.maxDrawdown := "-8%"; BacktestResult.sharpeRatio := "1.2";
     BacktestResult.tradesExecuted := Num 40; BacktestResult.pseudoCode := "";
     BacktestResult.equityCurve := [] |}.

(** The value of [Number.toFixed2] on a finite number, as a rational. *)
Definition rounded (q : Q) : Q :=
  if Qneg_bool q
  then (if Qle_bool (inject_Z (10 ^ 21)) (- q) then q
        else - (inject_Z (Number.nearestHundredth (- q)) * (1 # 100)))
  else (if Qle_bool (inject_Z (10 ^ 21)) q then q
        else inject_Z (Number.nearestHundredth q) * (1 # 100)).

(** ** constants.ts: the mock market data *)

Module CandleData.
Record t : Type := {
  time : string;
  open : number;
  high : number;
  low : number;
  close : number;
  volume : number;
  ma7 : option number;
  ma25 : option number
}.
End CandleData.

(** [Math.floor(a)] *)
Definition Math_floor (a : number) : number :=
  match a with
  | Num q => Num (inject_Z (Qfloor q))
  | _ => a
  end.

(** One round of the loop of [generateMockData]: the candle pushed and the
    price carried to the next round, from the price carried in and the four
    draws of the round in the order they are made (change, high, low,
    volume). *)
Definition candleOf (time : string) (price r1 r2 r3 r4 : number)
  : CandleData.t * number :=
  let volatility := Number.mul price (Num 0.02) in
  let change := Number.mul (Number.sub r1 (Num 0.5)) volatility in
  let open := price in
  let close := Number.add price change in
  let high :=
    Number.add (Math_max open close)
               (Number.mul (Number.mul r2 volatility) (Num 0.5)) in
  let low :=
    Number.sub (Math_min open close)
               (Number.mul (Number.mul r3 volatility) (Num 0.5)) in
  let volume :=
    Number.add (Math_floor (Number.mul r4 (Number.ofZ 1000))) (Number.ofZ 500) in
  ({| CandleData.time := time;
      CandleData.open := Number.toFixed2 open;
      CandleData.high := Number.toFixed2 high;
      CandleData.low := Number.toFixed2 low;
      CandleData.close := Number.toFixed2 close;
      CandleData.volume := volume;
      CandleData.ma7 := None;
      CandleData.ma25 := None |}, close).

(** The loop [for (let i = count; i > 0; i--)], from round [i] on; [stamp i]
    is the ISO rendering of the instant [i] hours before the call. *)
Fixpoint candlesFrom (stamp : nat -> string) (i : nat) (price : number)
  : Rand (list CandleData.t) :=
  match i with
  | O => ret []
  | S i' =>
      let* r1 := random in
      let* r2 := random in
      let* r3 := random in
      let* r4 := random in
      let '(candle, price') := candleOf (stamp i) price r1 r2 r3 r4 in
      let* rest := candlesFrom stamp i' price' in
      ret (candle :: rest)
  end.

(** [getMA(period)] at [index] of [array]: nothing before a full window,
    then the mean of the window's closes, to two decimals. *)
Definition getMA (array : list CandleData.t) (index period : nat)
  : option number :=
  if (index <? period - 1)%nat then None
  else
    let slice :=
      List.firstn ((index + 1) - (index + 1 - period))
                  (List.skipn (index + 1 - period) array) in
    let sum :=
      fold_left (fun acc curr => Number.add acc (CandleData.close curr))
                slice (Number.ofZ 0) in
    Some (Number.toFixed2 (Number.div sum (Number.ofZ (Z.of_nat period)))).

Definition withAverages (array : list CandleData.t) (index : nat)
  (candle : CandleData.t) : CandleData.t :=
  {| CandleData.time := CandleData.time candle;
     CandleData.open := CandleData.open candle;
     CandleData.high := CandleData.high candle;
     CandleData.low := CandleData.low candle;
     CandleData.close := CandleData.close candle;
     CandleData.volume := CandleData.volume candle;
     CandleData.ma7 := getMA array index 7;
     CandleData.ma25 := getMA array index 25 |}.

(** [generateMockData(count)] *)
Definition generateMockData (stamp : nat -> string) (count : nat)
  : Rand (list CandleData.t) :=
  let* data := candlesFrom stamp count (Number.ofZ 45000) in
  ret (imap (withAverages data) data).

(** [MOCK_MARKET_DATA] *)
Definition MOCK_MARKET_DATA (stamp : nat -> string) : Rand (list CandleData.t) :=
  generateMockData stamp 100.

(** The candle is well formed: open, high, low and close are numbers, none
    below 0, low is the least and high the greatest of the four, and the
    volume is a whole number from 500 to 1499. *)
Definition wellFormedCandle (c : CandleData.t) : Prop :=
  exists o h l cl v,
    CandleData.open c = Num o /\ CandleData.high c = Num h /\
    CandleData.low c = Num l /\ CandleData.close c = Num cl /\
    CandleData.volume c = Num (inject_Z v) /\
    (0 <= l /\ l <= o /\ l <= cl /\ o <= h /\ cl <= h)%Q /\
    (500 <= v <= 1499)%Z.

(** Each candle opens where the one before it closed, the first one at
    [start]. *)
Fixpoint linked (start : number) (l : list CandleData.t) : Prop :=
  match l with
  | [] => True
  | c :: l' => CandleData.open c = start /\ linked (CandleData.close c) l'
  end.

(** ** App: the price header *)

(** [array[i]] for an integer [i]; nothing out of range. *)
Definition Array_at {A} (array : list A) (i : Z) : option A :=
  if (i <? 0)%Z then None else array !! Z.to_nat i.

(** [getLastPrice()] over the market data; [None] stands for the TypeError
    of reading [close] of [undefined]. *)
Definition getLastPrice (data : list CandleData.t) : option number :=
  match Array_at data (Z.of_nat (length data) - 1) with
  | Some last => Some (CandleData.close last)
  | None => None
  end.

Module Change.
Record t : Type := { value : number; percent : number }.
End Change.

(** [getChange()] over the market data, with the same reading of [None]. *)
Definition getChange (data : list CandleData.t) : option Change.t :=
  match Array_at data (Z.of_nat (length data) - 1),
        Array_at data (Z.of_nat (length data) - 2) with
  | Some last, Some prev =>
      let change := Number.sub (CandleData.close last) (CandleData.close prev) in
      let percent :=
        Number.mul (Number.div change (CandleData.close prev)) (Number.ofZ 100) in
      Some {| Change.value := change; Change.percent := percent |}
  | _, _ => None
  end.

(** [0.99 ^ n]: the least share of a price that [n] rounds of the mock
    random walk can leave. *)
Fixpoint decay (n : nat) : Q :=
  match n with
  | O => 1
  | S n' => (99 # 100) * decay n'
  end.

(** * Properties *)

(** ** The draw monad *)

Lemma mapM_cons {A B} (f : A -> Rand B) x xs d :
  mapM f (x :: xs) d =
  (fst (f x d) :: fst (mapM f xs (snd (f x d))), snd (mapM f xs (snd (f x d)))).
Proof.
  simpl. unfold bind, ret.
  destruct (f x d) as [y d1]. simpl.
  destruct (mapM f xs d1) as [ys d2]. reflexivity.
Qed.

(** Each output element is the callback's result on the input element at
    the same position, for the draws left at that point. *)
Lemma mapM_Forall2 {A B} (f : A -> Rand B) xs d :
  Forall2 (fun x y => exists d', y = fst (f x d')) xs (fst (mapM f xs d)).
Proof.
  revert d. induction xs as [|x xs IH]; intros d.
  - constructor.
  - rewrite mapM_cons. simpl. constructor; [eauto | apply IH].
Qed.

Lemma mapM_length {A B} (f : A -> Rand B) xs d :
  length (fst (mapM f xs d)) = length xs.
Proof. symmetry. eapply Forall2_length, mapM_Forall2. Qed.

Lemma mapM_lookup {A B} (f : A -> Rand B) xs d k x :
  xs !! k = Some x ->
  exists d', fst (mapM f xs d) !! k = Some (fst (f x d')).
Proof.
  intros Hk.
  destruct (Forall2_lookup_l _ _ _ _ _ (mapM_Forall2 f xs d) Hk)
    as (y & Hy & d' & ->).
  eauto.
Qed.

Lemma tick_bots st d :
  bots (fst (tick st d)) = fst (mapM tickBot (bots st) d).
Proof.
  unfold tick, bind, ret. destruct (mapM tickBot (bots st) d). reflexivity.
Qed.

Lemma tickBot_not_running bot d :
  status bot <> RUNNING -> tickBot bot d = (bot, d).
Proof.
  intros H. unfold tickBot. destruct (status bot); try reflexivity.
  contradiction.
Qed.

(** ** Simulation tick: bots that are not running *)

(** C4. One simulation tick leaves every bot whose status is PAUSED or
    STOPPED exactly as it was: the record at its position in the store is
    the same record, so pnl, pnlPercent, trades and lastTrade are
    unchanged, whatever the draws. *)
Theorem tick_leaves_idle_bots (st : AppState) (d : Draws) (k : nat)
  (b : TradingBot) :
  bots st !! k = Some b ->
  status b = PAUSED \/ status b = STOPPED ->
  bots (fst (tick st d)) !! k = Some b.
Proof.
  intros Hk Hs. rewrite tick_bots.
  destruct (mapM_lookup tickBot (bots st) d k b Hk) as [d' ->].
  rewrite tickBot_not_running; [reflexivity|].
  destruct Hs as [-> | ->]; discriminate.
Qed.

Lemma tick_leaves_idle_bots_witness :
  exists b, bots initialState !! 1%nat = Some b /\ status b = PAUSED /\
            bots (fst (tick initialState (cycle4 0.5 0 0 0))) !! 1%nat = Some b.
Proof.
  eexists. split; [reflexivity|]. split; [reflexivity|].
  apply (tick_leaves_idle_bots initialState (cycle4 0.5 0 0 0) 1);
    [reflexivity | left; reflexivity].
Defined.

(** ** ToggleStatus *)

Lemma map_cond_lookup {A} (p : A -> bool) (f : A -> A) (l : list A) k x :
  l !! k = Some x ->
  map (fun a => if p a then f a else a) l !! k = Some (if p x then f x else x).
Proof.
  intros H.
  change (map (fun a => if p a then f a else a) l)
    with ((fun a => if p a then f a else a) <$> l).
  rewrite list_lookup_fmap, H. reflexivity.
Qed.

Lemma map_cond_id {A} (p : A -> bool) (f : A -> A) (l : list A) :
  (forall x, x ∈ l -> p x = false) ->
  map (fun a => if p a then f a else a) l = l.
Proof.
  induction l as [|x l IH]; intros H; simpl; [reflexivity|].
  rewrite (H x) by constructor.
  rewrite IH; [reflexivity|]. intros y Hy. apply H. now constructor.
Qed.

Lemma AppState_eta st : {| activeTab := activeTab st; bots := bots st |} = st.
Proof. destruct st; reflexivity. Qed.

Lemma id_eqb_false (b : TradingBot) i : id b <> i -> String.eqb (id b) i = false.
Proof. intros H. now apply String.eqb_neq. Qed.

(** C1, as the code has it.  For every store and id, ToggleStatus(id)
    replaces each bot carrying that id, at its position, by the same record
    with status PAUSED if it was RUNNING and RUNNING if it was PAUSED or
    STOPPED (the button of a stopped bot reads "Start Bot"); the selected
    tab is kept, and when no bot carries the id the whole state is
    unchanged. *)
Theorem handleToggleBot_spec (i : string) (st : AppState) :
  activeTab (handleToggleBot i st) = activeTab st /\
  length (bots (handleToggleBot i st)) = length (bots st) /\
  (forall k b, bots st !! k = Some b -> id b = i ->
     (status b = RUNNING ->
        bots (handleToggleBot i st) !! k = Some (withStatus PAUSED b)) /\
     (status b = PAUSED ->
        bots (handleToggleBot i st) !! k = Some (withStatus RUNNING b)) /\
     (status b = STOPPED ->
        bots (handleToggleBot i st) !! k = Some (withStatus RUNNING b))) /\
  ((forall b, b ∈ bots st -> id b <> i) -> handleToggleBot i st = st).
Proof.
  unfold handleToggleBot, setBots; simpl.
  split; [reflexivity|]. split; [apply length_map|]. split.
  - intros k b Hk Hi.
    rewrite (map_cond_lookup (fun bot => String.eqb (id bot) i) toggled _ _ _ Hk).
    rewrite Hi, String.eqb_refl. unfold toggled, withStatus.
    repeat split; intros ->; reflexivity.
  - intros H.
    rewrite (map_cond_id (fun bot => String.eqb (id bot) i) toggled).
    + apply AppState_eta.
    + intros x Hx. apply id_eqb_false. now apply H.
Qed.

Lemma handleToggleBot_spec_witness :
  (exists b, bots initialState !! 0%nat = Some b /\ status b = RUNNING /\
     bots (handleToggleBot "1" initialState) !! 0%nat
     = Some (withStatus PAUSED b)) /\
  handleToggleBot "11" initialState = initialState.
Proof.
  pose proof (handleToggleBot_spec "1" initialState) as (_ & _ & H1 & _).
  pose proof (handleToggleBot_spec "11" initialState) as (_ & _ & _ & H2).
  split.
  - eexists. split; [reflexivity|]. split; [reflexivity|].
    eapply H1; reflexivity.
  - apply H2. intros b Hb.
    repeat (apply elem_of_cons in Hb as [-> | Hb]; [vm_compute; discriminate|]).
    inversion Hb.
Defined.

(** C1 as stated fails on a stopped bot: in the fleet the application
    starts with, bot "4" is STOPPED and ToggleStatus("4") stores it as
    RUNNING; the store is not left as it was. *)
Lemma handleToggleBot_starts_stopped_bot :
  map (fun b => (id b, status b)) (bots initialState)
  = [("1", RUNNING); ("2", PAUSED); ("3", RUNNING); ("4", STOPPED);
     ("5", RUNNING); ("6", PAUSED); ("7", RUNNING); ("8", PAUSED);
     ("9", RUNNING); ("10", STOPPED)] /\
  map (fun b => (id b, status b)) (bots (handleToggleBot "4" initialState))
  = [("1", RUNNING); ("2", PAUSED); ("3", RUNNING); ("4", RUNNING);
     ("5", RUNNING); ("6", PAUSED); ("7", RUNNING); ("8", PAUSED);
     ("9", RUNNING); ("10", STOPPED)].
Proof. split; vm_compute; reflexivity. Qed.

(** ** Simulation tick: running bots *)

Lemma tickBot_running bot d :
  status bot = RUNNING ->
  let b' := fst (tickBot bot d) in
  id b' = id bot /\ name b' = name bot /\ status b' = status bot /\
  uptime b' = uptime bot /\ alertSettings b' = alertSettings bot /\
  activeAlerts b' = activeAlerts bot /\ targetPnl b' = targetPnl bot /\
  strategyCode b' = strategyCode bot /\ history b' = history bot /\
  pnl b' = Number.toFixed2 (tickNewPnl bot d) /\
  pnlPercent b' =
    Number.toFixed2
      (Number.mul (Number.div (tickNewPnl bot d) (Number.ofZ 10000))
                  (Number.ofZ 100)).
Proof.
  intros Hs. unfold tickBot. rewrite Hs.
  change (Status_eqb RUNNING RUNNING) with true.
  unfold bind, random, ret, tickNewPnl, tickChange. cbv beta iota.
  match goal with
  | |- context [let '(a, d') := ?c in _] => destruct c as [a d']
  end.
  cbv beta iota zeta. unfold fst.
  repeat split; reflexivity.
Qed.

(** A tick keeps every field that the alert banner reads. *)
Lemma tickBot_keeps_alerts bot d :
  name (fst (tickBot bot d)) = name bot /\
  activeAlerts (fst (tickBot bot d)) = activeAlerts bot.
Proof.
  destruct (status bot) eqn:Hs.
  - destruct (tickBot_running bot d Hs) as (_ & Hn & _ & _ & _ & Ha & _).
    split; assumption.
  - rewrite tickBot_not_running by (rewrite Hs; discriminate). split; reflexivity.
  - rewrite tickBot_not_running by (rewrite Hs; discriminate). split; reflexivity.
Qed.

(** ** Alert banner *)

Lemma withBotName_ext b b' a :
  name b = name b' -> withBotName b a = withBotName b' a.
Proof. intros H. unfold withBotName. rewrite H. reflexivity. Qed.

Lemma allActiveAlerts_ext (l l' : list TradingBot) :
  Forall2 (fun b b' => name b' = name b /\ activeAlerts b' = activeAlerts b) l l' ->
  allActiveAlerts l' = allActiveAlerts l.
Proof.
  induction 1 as [|b b' l l' [Hn Ha] _ IH]; [reflexivity|].
  unfold allActiveAlerts in *. simpl. rewrite IH, Ha. f_equal.
  apply map_ext. intros a. now apply withBotName_ext.
Qed.

Lemma Forall2_of_maps (l l' : list TradingBot) :
  map name l = map name l' ->
  map activeAlerts l = map activeAlerts l' ->
  Forall2 (fun b b' => name b' = name b /\ activeAlerts b' = activeAlerts b) l l'.
Proof.
  revert l'. induction l as [|b l IH]; intros [|b' l'] Hn Ha;
    simpl in *; try discriminate; constructor.
  - injection Hn as Hn _. injection Ha as Ha _. split; congruence.
  - injection Hn as _ Hn. injection Ha as _ Ha. now apply IH.
Qed.

Lemma storedAlert_withBotName b a :
  storedAlert (withBotName b a) = a /\
  BannerAlert.botName (withBotName b a) = name b.
Proof. destruct a. split; reflexivity. Qed.

Lemma allActiveAlerts_pairs (l : list TradingBot) :
  map (fun x => (storedAlert x, BannerAlert.botName x)) (allActiveAlerts l)
  = flat_map (fun b => map (fun a => (a, name b)) (activeAlerts b)) l.
Proof.
  unfold allActiveAlerts. induction l as [|b l IH]; [reflexivity|].
  cbn [flat_map]. rewrite map_app, IH. f_equal.
  rewrite map_map. apply map_ext. intros a.
  destruct (storedAlert_withBotName b a) as [-> ->]. reflexivity.
Qed.

(** C2, as the code has it.  The alert read lists exactly the alerts
    stored in the bots' [activeAlerts], each once, in store order and, for
    one bot, in the order of its list, each with its bot's name beside it;
    so there are as many entries as stored alerts.  Nothing else goes into
    it: two fleets with the same names and the same stored alerts, bot by
    bot, give the same banner whatever their PnL percents and thresholds
    are, and a simulation tick, which moves PnL percent, leaves the banner
    as it was. *)
Theorem allActiveAlerts_reads_stored_alerts (l : list TradingBot) :
  map (fun x => (storedAlert x, BannerAlert.botName x)) (allActiveAlerts l)
  = flat_map (fun b => map (fun a => (a, name b)) (activeAlerts b)) l /\
  length (allActiveAlerts l)
  = list_sum (map (fun b => length (activeAlerts b)) l) /\
  (forall l',
     map name l = map name l' ->
     map activeAlerts l = map activeAlerts l' ->
     allActiveAlerts l' = allActiveAlerts l) /\
  (forall tab d,
     allActiveAlerts (bots (fst (tick {| activeTab := tab; bots := l |} d)))
     = allActiveAlerts l).
Proof.
  split; [apply allActiveAlerts_pairs|]. split.
  { unfold allActiveAlerts. induction l as [|b l IH]; [reflexivity|].
    cbn [flat_map map list_sum]. now rewrite length_app, length_map, IH. }
  split.
  - intros l' Hn Ha. apply allActiveAlerts_ext. now apply Forall2_of_maps.
  - intros tab d. rewrite tick_bots. simpl. apply allActiveAlerts_ext.
    eapply Forall2_impl; [apply mapM_Forall2|].
    intros b b' [d' ->]. apply tickBot_keeps_alerts.
Qed.

Lemma allActiveAlerts_reads_stored_alerts_witness :
  map (fun x => (ActiveAlert.id (storedAlert x), BannerAlert.botName x))
      (allActiveAlerts initialBots)
  = [("a1", "RSI Mean Reversion - ETH"); ("a2", "VWAP Scalper - BTC");
     ("a3", "Whale Watcher AI - XRP")] /\
  allActiveAlerts (bots (losingRun 150)) = allActiveAlerts (bots (losingRun 0)).
Proof.
  split.
  - pose proof (proj1 (allActiveAlerts_reads_stored_alerts initialBots)) as H.
    apply (f_equal (map (fun p => (ActiveAlert.id (fst p), snd p)))) in H.
    rewrite map_map in H. cbn [fst snd] in H. rewrite H.
    vm_compute. reflexivity.
  - assert (Hn : map name (bots (losingRun 0)) = map name (bots (losingRun 150)))
      by (vm_compute; reflexivity).
    assert (Ha : map activeAlerts (bots (losingRun 0))
                 = map activeAlerts (bots (losingRun 150)))
      by (vm_compute; reflexivity).
    exact (proj1 (proj2 (proj2 (allActiveAlerts_reads_stored_alerts _))) _ Hn Ha).
Defined.

(** C2 as stated fails: after 150 losing ticks the deployed bot has PnL
    percent -6 against a threshold of 5, after 300 it has -12, and in both
    states the alert read yields no alert at all. *)
Lemma allActiveAlerts_silent_on_pnl_breach :
  map (fun b => (pnlPercent b, pnlDropThreshold (alertSettings b)))
      (bots (losingRun 150)) = [(Num (-6), Num 5)] /\
  allActiveAlerts (bots (losingRun 150)) = [] /\
  map (fun b => (pnlPercent b, pnlDropThreshold (alertSettings b)))
      (bots (losingRun 300)) = [(Num (-12), Num 5)] /\
  allActiveAlerts (bots (losingRun 300)) = [].
Proof.
  split; [|split; [|split]]; vm_compute; reflexivity.
Qed.

(** ** PnL percent against stored PnL *)


Lemma Forall_List_filter {A} (P : A -> Prop) (p : A -> bool) l :
  Forall P l -> Forall P (List.filter p l).
Proof.
  induction 1 as [|x l Hx _ IH]; simpl; [constructor|].
  destruct (p x); [constructor|]; assumption.
Qed.






(** ** Deploy *)

(** C5, as the code has it.  Deploy puts one new bot in front of the store
    and leaves the bots already there unchanged behind it; the new bot is
    RUNNING with pnl 0, pnlPercent 0, trades 0, no history, no alerts and
    the default alert configuration (5, 60, true), and its identifier is
    the decimal rendering of the clock reading.  That identifier differs
    from every identifier in the store when those are renderings of other
    clock readings. *)
Theorem handleDeployBot_spec (now : Z) (n desc code : string) (st : AppState) :
  exists b,
    bots (handleDeployBot now n desc code st) = b :: bots st /\
    activeTab (handleDeployBot now n desc code st) = BOTS /\
    id b = pretty now /\ name b = n /\ status b = RUNNING /\
    pnl b = Num 0 /\ pnlPercent b = Num 0 /\ trades b = Num 0 /\
    history b = [] /\ activeAlerts b = [] /\
    alertSettings b = {| pnlDropThreshold := Num 5;
                         maxDowntimeMinutes := Num 60;
                         notifyOnTradeFailure := true |} /\
    targetPnl b = Some (Num 5000) /\ strategyCode b = Some code /\
    uptime b = "0m" /\ lastTrade b = "Waiting for signal..." /\
    (idsFromOtherInstants now (bots st) ->
     Forall (fun b0 => id b0 <> id b) (bots st)).
Proof.
  eexists. split; [reflexivity|]. simpl.
  repeat (split; [reflexivity|]).
  unfold idsFromOtherInstants. intros H. eapply Forall_impl; [exact H|].
  simpl. intros b0 (t & Ht & Hid) Heq. apply Ht.
  rewrite Hid in Heq. now apply (inj pretty) in Heq.
Qed.

Ltac rendering_of_one_of ts :=
  match ts with
  | ?t :: ?ts' =>
      first [ exists t; split; [discriminate | vm_compute; reflexivity]
            | rendering_of_one_of ts' ]
  end.

Lemma initialBots_ids :
  idsFromOtherInstants 1704175200000 (bots initialState).
Proof.
  unfold idsFromOtherInstants.
  set (l := bots initialState). vm_compute in l. subst l.
  repeat (apply Forall_cons; split;
          [rendering_of_one_of [1; 2; 3; 4; 5; 6; 7; 8; 9; 10]%Z|]).
  apply Forall_nil. exact I.
Defined.

Lemma handleDeployBot_spec_witness :
  exists b,
    bots (handleDeployBot 1704175200000 "Test Bot" "desc" "code" initialState)
    = b :: bots initialState /\
    Forall (fun b0 => id b0 <> id b) (bots initialState).
Proof.
  destruct (handleDeployBot_spec 1704175200000 "Test Bot" "desc" "code"
              initialState)
    as (b & Hb & _ & _ & _ & _ & _ & _ & _ & _ & _ & _ & _ & _ & _ & _ & Hfresh).
  exists b. split; [exact Hb|]. apply Hfresh. exact initialBots_ids.
Defined.

(** C5 as stated fails on the identifier: two deploys under the same clock
    reading give two bots with the same identifier. *)
Lemma handleDeployBot_same_instant_same_id :
  map id (bots (handleDeployBot 1704175200000 "Second Bot" "desc" "code"
                  (handleDeployBot 1704175200000 "Test Bot" "desc" "code"
                     emptyState)))
  = ["1704175200000"; "1704175200000"].
Proof. vm_compute. reflexivity. Qed.

(** ** Number comparisons *)

Lemma Qlt_bool_iff a b : Qlt_bool a b = true <-> (a < b)%Q.
Proof.
  unfold Qlt_bool. rewrite negb_true_iff, <- not_true_iff_false, Qle_bool_iff.
  split; [apply Qnot_le_lt | apply Qlt_not_le].
Qed.

Lemma Qlt_bool_false_iff a b : Qlt_bool a b = false <-> (b <= a)%Q.
Proof.
  unfold Qlt_bool. rewrite negb_false_iff. apply Qle_bool_iff.
Qed.

(** [a - b > 0] says the same as [a > b]. *)
Lemma gt_sub (a b : number) :
  Number.gt (Number.sub a b) (Number.ofZ 0) = Number.gt a b.
Proof.
  destruct a as [|s|p], b as [|s'|q]; try reflexivity.
  - destruct s, s'; reflexivity.
  - simpl. destruct s'; reflexivity.
  - simpl. apply eq_true_iff_eq. rewrite !Qlt_bool_iff, !Qred_correct.
    split; intros H.
    + apply Qplus_lt_l with (z := (- q)%Q). now rewrite Qplus_opp_r.
    + apply Qplus_lt_l with (z := (- q)%Q) in H. now rewrite Qplus_opp_r in H.
Qed.

Lemma gt_asym (a b : number) :
  Number.gt a b = true -> Number.gt b a = false.
Proof.
  destruct a as [|s|p], b as [|s'|q]; simpl; try reflexivity; try discriminate.
  - destruct s, s'; simpl; congruence.
  - destruct s; simpl; congruence.
  - destruct s'; simpl; congruence.
  - rewrite Qlt_bool_iff, Qlt_bool_false_iff. apply Qlt_le_weak.
Qed.

(** Numbers that are [===] to the same number are not above one another. *)
Lemma gt_of_eqb (a b v : number) :
  Number.eqb a v = true -> Number.eqb b v = true -> Number.gt a b = false.
Proof.
  destruct a as [|s|p], b as [|s'|q], v as [|t|r]; simpl;
    try reflexivity; try discriminate.
  - destruct s, s', t; simpl; congruence.
  - rewrite !Qeq_bool_iff, Qlt_bool_false_iff. intros -> ->. apply Qle_refl.
Qed.

(** ** Array.prototype.sort *)

Section ArraySortFacts.
Context {A : Type} (comparefn : A -> A -> number).

(** If [x] goes after [y] then [y] does not go after [x]. *)
Hypothesis goesAfter_asym :
  forall x y, goesAfter comparefn x y = true -> goesAfter comparefn y x = false.

Lemma insertSorted_settled x l :
  settled comparefn l -> settled comparefn (insertSorted comparefn x l).
Proof.
  induction l as [|y l IH]; intros Hl; simpl; [exact I|].
  destruct (goesAfter comparefn x y) eqn:Hxy.
  - assert (Hrest : settled comparefn l) by (destruct l; [exact I | apply Hl]).
    specialize (IH Hrest).
    destruct l as [|z l]; simpl in *.
    + split; [now apply goesAfter_asym | exact I].
    + destruct (goesAfter comparefn x z) eqn:Hxz.
      * split; [apply Hl | exact IH].
      * split; [now apply goesAfter_asym | exact IH].
  - split; assumption.
Qed.

Lemma Array_sort_settled l : settled comparefn (Array_sort comparefn l).
Proof.
  induction l as [|x l IH]; simpl; [exact I|].
  now apply insertSorted_settled.
Qed.

Lemma Array_sort_fixed l : settled comparefn l -> Array_sort comparefn l = l.
Proof using Type.
  induction l as [|x l IH]; intros Hl; [reflexivity|].
  simpl. rewrite IH by (destruct l; [exact I | apply Hl]).
  destruct l as [|y l]; [reflexivity|].
  simpl. destruct Hl as [-> _]. reflexivity.
Qed.

(** Sorting a sorted array changes nothing. *)
Lemma Array_sort_idempotent l :
  Array_sort comparefn (Array_sort comparefn l) = Array_sort comparefn l.
Proof. apply Array_sort_fixed, Array_sort_settled. Qed.

Lemma insertSorted_Permutation x l :
  insertSorted comparefn x l ≡ₚ x :: l.
Proof using Type.
  induction l as [|y l IH]; simpl; [reflexivity|].
  destruct (goesAfter comparefn x y); [|reflexivity].
  rewrite IH. apply Permutation_swap.
Qed.

(** The sorted array holds the elements it held before. *)
Lemma Array_sort_Permutation l : Array_sort comparefn l ≡ₚ l.
Proof using Type.
  induction l as [|x l IH]; simpl; [reflexivity|].
  rewrite insertSorted_Permutation. now constructor.
Qed.

(** Elements that never go after one another keep their order. *)
Lemma insertSorted_filter (P : A -> bool) x l :
  (forall a b, P a = true -> P b = true -> goesAfter comparefn a b = false) ->
  List.filter P (insertSorted comparefn x l) = List.filter P (x :: l).
Proof using Type.
  intros HP. induction l as [|y l IH]; [reflexivity|].
  simpl insertSorted. destruct (goesAfter comparefn x y) eqn:Hxy; [|reflexivity].
  simpl in *. rewrite IH.
  destruct (P x) eqn:Hx, (P y) eqn:Hy; try reflexivity.
  rewrite (HP x y Hx Hy) in Hxy. discriminate.
Qed.

Lemma Array_sort_filter (P : A -> bool) l :
  (forall a b, P a = true -> P b = true -> goesAfter comparefn a b = false) ->
  List.filter P (Array_sort comparefn l) = List.filter P l.
Proof using Type.
  intros HP. induction l as [|x l IH]; [reflexivity|].
  simpl Array_sort. rewrite insertSorted_filter by exact HP.
  simpl. now rewrite IH.
Qed.
End ArraySortFacts.

Lemma List_filter_all {A} (p : A -> bool) l :
  Forall (fun x => p x = true) l -> List.filter p l = l.
Proof.
  induction 1 as [|x l Hx _ IH]; simpl; [reflexivity|].
  now rewrite Hx, IH.
Qed.

Lemma List_filter_Forall {A} (p : A -> bool) l :
  Forall (fun x => p x = true) (List.filter p l).
Proof.
  induction l as [|x l IH]; simpl; [constructor|].
  destruct (p x) eqn:Hx; [constructor|]; assumption.
Qed.

Lemma List_filter_filter {A} (p q : A -> bool) l :
  List.filter q (List.filter p l) = List.filter (fun x => p x && q x)%bool l.
Proof.
  induction l as [|x l IH]; simpl; [reflexivity|].
  destruct (p x); simpl; [destruct (q x)|]; now rewrite IH.
Qed.

(** *** The comparator for descending PnL *)

Lemma goesAfter_PNL lc (a b : TradingBot) :
  goesAfter (compareBots lc SortBy.PNL) a b = Number.gt (pnl b) (pnl a).
Proof. unfold goesAfter, compareBots. apply gt_sub. Qed.

Lemma goesAfter_PNL_asym lc (a b : TradingBot) :
  goesAfter (compareBots lc SortBy.PNL) a b = true ->
  goesAfter (compareBots lc SortBy.PNL) b a = false.
Proof. rewrite !goesAfter_PNL. apply gt_asym. Qed.

(** ** Fleet query *)

Lemma processedBots_eq lc d l :
  processedBots lc d l
  = Array_sort (compareBots lc (sortBy d)) (List.filter (keeps d) l).
Proof.
  unfold processedBots, keeps. f_equal.
  destruct (statusFilter d) as [|s], (Str.truthy (searchQuery d)); simpl.
  - symmetry. apply List.filter_ext. reflexivity.
  - symmetry. apply List_filter_all, Forall_forall. reflexivity.
  - rewrite List_filter_filter. reflexivity.
  - apply List.filter_ext. intros b. now rewrite andb_true_r.
Qed.

Lemma contents_Some r (h : Heap) l : h !! r = Some l -> contents r h = l.
Proof. unfold contents. now intros ->. Qed.

Lemma queryStep_alloc h0 (h : Heap) l :
  (forall k, k < length h0 -> h !! k = h0 !! k) ->
  length h0 <= length h ->
  queryStep h0 l (alloc l h).
Proof.
  intros Hold Hlen. unfold queryStep, alloc; cbn [fst snd].
  split; [exact Hlen|]. split.
  - intros k Hk. rewrite lookup_app_l by lia. now apply Hold.
  - rewrite lookup_app_r by lia. now rewrite Nat.sub_diag.
Qed.

Lemma queryStep_length h0 l s : queryStep h0 l s -> length h0 <= length (snd s).
Proof.
  intros (Hr & _ & Hl). apply lookup_lt_Some in Hl. lia.
Qed.

Lemma queryStep_spreadCopy (h0 : Heap) r l :
  h0 !! r = Some l -> queryStep h0 l (spreadCopy r h0).
Proof.
  intros Hr. unfold spreadCopy. rewrite (contents_Some _ _ _ Hr).
  apply queryStep_alloc; [reflexivity | lia].
Qed.

Lemma queryStep_filterArray h0 l p s :
  queryStep h0 l s -> queryStep h0 (List.filter p l) (filterArray p (fst s) (snd s)).
Proof.
  intros Hs. pose proof (queryStep_length _ _ _ Hs) as Hlen.
  destruct Hs as (Hr & Hold & Hl).
  unfold filterArray. rewrite (contents_Some _ _ _ Hl).
  now apply queryStep_alloc.
Qed.

Lemma queryStep_sortArray h0 l cmp s :
  queryStep h0 l s ->
  queryStep h0 (Array_sort cmp l) (sortArray cmp (fst s) (snd s)) /\
  fst (sortArray cmp (fst s) (snd s)) = fst s.
Proof.
  intros (Hr & Hold & Hl). split; [|reflexivity].
  unfold sortArray, queryStep; cbn [fst snd]. rewrite (contents_Some _ _ _ Hl).
  split; [exact Hr|]. split.
  - intros k Hk. rewrite list_lookup_insert_ne by lia. now apply Hold.
  - apply list_lookup_insert_eq. now apply lookup_lt_Some in Hl.
Qed.

Lemma processedBotsRef_queryStep lc d (h0 : Heap) r l :
  h0 !! r = Some l ->
  queryStep h0 (processedBots lc d l) (processedBotsRef lc d r h0).
Proof.
  intros Hr. pose proof (queryStep_spreadCopy h0 r l Hr) as H1.
  unfold processedBotsRef, processedBots.
  destruct (spreadCopy r h0) as [r1 h1].
  assert (H2 : queryStep h0
                 (match statusFilter d with
                  | ALL => l
                  | Only _ => List.filter (statusMatches (statusFilter d)) l
                  end)
                 (match statusFilter d with
                  | ALL => (r1, h1)
                  | Only _ => filterArray (statusMatches (statusFilter d)) r1 h1
                  end)).
  { destruct (statusFilter d); [exact H1|].
    exact (queryStep_filterArray h0 l _ (r1, h1) H1). }
  destruct (match statusFilter d with
            | ALL => (r1, h1)
            | Only _ => filterArray (statusMatches (statusFilter d)) r1 h1
            end) as [r2 h2].
  set (l2 := match statusFilter d with
             | ALL => l
             | Only _ => List.filter (statusMatches (statusFilter d)) l
             end) in *.
  assert (H3 : queryStep h0
                 (if Str.truthy (searchQuery d)
                  then List.filter (searchMatches (Str.toLowerCase (searchQuery d))) l2
                  else l2)
                 (if Str.truthy (searchQuery d)
                  then filterArray (searchMatches (Str.toLowerCase (searchQuery d)))
                                   r2 h2
                  else (r2, h2))).
  { destruct (Str.truthy (searchQuery d)); [|exact H2].
    exact (queryStep_filterArray h0 l2 _ (r2, h2) H2). }
  destruct (if Str.truthy (searchQuery d)
            then filterArray (searchMatches (Str.toLowerCase (searchQuery d))) r2 h2
            else (r2, h2)) as [r3 h3].
  destruct (queryStep_sortArray h0 _ (compareBots lc (sortBy d)) (r3, h3) H3)
    as [H4 _].
  unfold sortArray in *. cbn [fst snd] in *. exact H4.
Qed.

(** *** Descending order *)

Lemma gt_false_trans (a b c : number) :
  b <> NaN ->
  Number.gt b a = false -> Number.gt c b = false -> Number.gt c a = false.
Proof.
  intros Hb.
  destruct a as [|s|p], b as [|s'|q], c as [|s''|r]; simpl; try congruence;
    repeat match goal with x : bool |- _ => destruct x end;
    simpl; try congruence.
  rewrite !Qlt_bool_false_iff. intros H1 H2. now apply Qle_trans with q.
Qed.

Lemma insertSorted_PNL_descending lc x l :
  Forall (fun b => pnl b <> NaN) l ->
  StronglySorted notBelow l ->
  StronglySorted notBelow (insertSorted (compareBots lc SortBy.PNL) x l).
Proof.
  intros Hnan Hs. induction Hs as [|y l Hs IH Hy]; simpl.
  - repeat constructor.
  - apply Forall_cons in Hnan as [Hyn Hnan].
    rewrite goesAfter_PNL. destruct (Number.gt (pnl y) (pnl x)) eqn:Hxy.
    + constructor; [now apply IH|].
      rewrite insertSorted_Permutation. constructor; [|exact Hy].
      unfold notBelow. now apply gt_asym.
    + constructor; [now constructor|].
      constructor; [exact Hxy|].
      eapply Forall_impl; [exact Hy|]. intros z Hz.
      unfold notBelow in *. now apply gt_false_trans with (pnl y).
Qed.

(** On PnL values that are numbers the sort puts higher PnL first. *)
Lemma Array_sort_PNL_descending lc l :
  Forall (fun b => pnl b <> NaN) l ->
  StronglySorted notBelow (Array_sort (compareBots lc SortBy.PNL) l).
Proof.
  induction 1 as [|x l Hx Hl IH]; simpl; [constructor|].
  apply insertSorted_PNL_descending; [|exact IH].
  now rewrite Array_sort_Permutation.
Qed.

(** C6.  The query copies the store's array before it filters and sorts:
    whatever the filter and the search text, every array that existed
    before the query, the store's among them, is afterwards what it was,
    and the array returned holds a value that depends on the store's
    content and the parameters alone.  This is for the sort by PnL over a
    store in which no PnL is NaN, so that [b.pnl - a.pnl] orders the bots
    consistently and the language fixes the result of the sort.  Then
    sorting the result again gives the result back, running the whole
    query on its result gives the result back, the bots whose PnL is
    [===] to a given number come in the result in the order they have in
    the store, and no bot comes before one of higher PnL; the last two
    leave one list only, so the result is the same whichever stable sort
    computes it. *)
Theorem processedBots_pure_idempotent_stable
  (localeCompare : string -> string -> number) (d : DashboardState)
  (h : Heap) (botsRef : nat) (l : list TradingBot) :
  h !! botsRef = Some l ->
  sortBy d = SortBy.PNL ->
  Forall (fun b => pnl b <> NaN) l ->
  let result := fst (processedBotsRef localeCompare d botsRef h) in
  let h' := snd (processedBotsRef localeCompare d botsRef h) in
  (forall k, k < length h -> h' !! k = h !! k) /\
  h' !! botsRef = Some l /\
  h' !! result = Some (processedBots localeCompare d l) /\
  Array_sort (compareBots localeCompare SortBy.PNL)
             (processedBots localeCompare d l)
  = processedBots localeCompare d l /\
  processedBots localeCompare d (processedBots localeCompare d l)
  = processedBots localeCompare d l /\
  (forall v,
     List.filter (fun b => Number.eqb (pnl b) v)
                 (processedBots localeCompare d l)
     = List.filter (fun b => Number.eqb (pnl b) v) (List.filter (keeps d) l)) /\
  StronglySorted notBelow (processedBots localeCompare d l).
Proof.
  intros Hr Hkey Hnan result h'.
  destruct (processedBotsRef_queryStep localeCompare d h botsRef l Hr)
    as (Hge & Hold & Hres).
  fold result in Hge, Hres. fold h' in Hold, Hres.
  split; [exact Hold|]. split.
  { rewrite Hold; [exact Hr|]. now apply lookup_lt_Some in Hr. }
  split; [exact Hres|].
  rewrite !processedBots_eq, Hkey.
  assert (Hidem :
    Array_sort (compareBots localeCompare SortBy.PNL)
      (Array_sort (compareBots localeCompare SortBy.PNL) (List.filter (keeps d) l))
    = Array_sort (compareBots localeCompare SortBy.PNL) (List.filter (keeps d) l)).
  { apply Array_sort_idempotent, goesAfter_PNL_asym. }
  split; [exact Hidem|]. split; [|split].
  - rewrite List_filter_all; [exact Hidem|].
    rewrite Array_sort_Permutation. apply List_filter_Forall.
  - intros v. apply Array_sort_filter. intros a b Ha Hb.
    rewrite goesAfter_PNL. now apply gt_of_eqb with v.
  - apply Array_sort_PNL_descending, Forall_List_filter, Hnan.
Qed.

Lemma initialBots_pnl : Forall (fun b => pnl b <> NaN) initialBots.
Proof. unfold initialBots. vm_compute. repeat constructor; discriminate. Qed.

Lemma processedBots_pure_idempotent_stable_witness :
  snd (processedBotsRef (fun _ _ => Num 0) initialDashboard 0 [initialBots])
    !! 0%nat = Some initialBots.
Proof.
  exact (proj1 (proj2
    (processedBots_pure_idempotent_stable (fun _ _ => Num 0) initialDashboard
       [initialBots] 0 initialBots eq_refl eq_refl initialBots_pnl))).
Defined.

(** The dashboard's first view of the initial fleet: all ten bots, highest
    PnL first. *)
Example processedBots_initial :
  map (fun b => (id b, pnl b))
      (processedBots (fun _ _ => Num 0) initialDashboard initialBots)
  = [("7", Num (22403 # 4)); ("3", Num (17104 # 5)); ("1", Num (2501 # 2));
     ("8", Num 890); ("5", Num (601 # 4)); ("9", Num (602 # 5));
     ("6", Num 12); ("2", Num (-226 # 5)); ("10", Num (-201 # 4));
     ("4", Num (-241 # 2))].
Proof. vm_compute. reflexivity. Qed.

(** ** Rename *)

Lemma trim_allWhiteSpace s : allWhiteSpace s = true -> Str.trim s = "".
Proof.
  unfold Str.trim. induction s as [|c r IH]; simpl; [reflexivity|].
  intros [Hc Hr]%andb_true_iff. rewrite Hc. now apply IH.
Qed.

(** C8.  When the candidate name is empty or consists of white space only,
    saving the rename changes nothing: the store, and with it every bot's
    name, is what it was, and so is the dashboard's own state. *)
Theorem handleSaveName_rejects_blank (d : DashboardState) (st : AppState) :
  allWhiteSpace (tempName d) = true ->
  handleSaveName d st = (d, st) /\
  map name (bots (snd (handleSaveName d st))) = map name (bots st).
Proof.
  intros H. assert (E : handleSaveName d st = (d, st)).
  { unfold handleSaveName. rewrite (trim_allWhiteSpace _ H). simpl.
    destruct (editingNameId d) as [i|]; [|reflexivity].
    now rewrite andb_false_r. }
  split; [exact E|]. now rewrite E.
Qed.

Lemma handleSaveName_rejects_blank_witness :
  handleSaveName (renaming "1" "   ") initialState
  = (renaming "1" "   ", initialState).
Proof.
  exact (proj1 (handleSaveName_rejects_blank (renaming "1" "   ") initialState
                  eq_refl)).
Defined.

(** A name with something in it is stored, trimmed. *)
Example handleSaveName_accepts :
  map name (firstn 2 (bots (snd (handleSaveName (renaming "1" "  Momentum ")
                                   initialState))))
  = ["Momentum"; "RSI Mean Reversion - ETH"].
Proof. vm_compute. reflexivity. Qed.

(** ** Reading digits *)

Lemma pretty_N_char_digit m :
  (m < 10)%N ->
  Str.isDigit (pretty_N_char m) = true /\
  Str.digitValue (pretty_N_char m) = Z.of_N m.
Proof.
  intros H.
  assert (Hm : (m = 0 \/ m = 1 \/ m = 2 \/ m = 3 \/ m = 4 \/ m = 5 \/ m = 6 \/
               m = 7 \/ m = 8 \/ m = 9)%N) by lia.
  repeat (destruct Hm as [-> | Hm]; [split; reflexivity|]).
  subst m. split; reflexivity.
Qed.

Lemma digitsValue_snoc ds c :
  Str.digitsValue (ds ++ [c])%list = (10 * Str.digitsValue ds + Str.digitValue c)%Z.
Proof. unfold Str.digitsValue. now rewrite fold_left_app. Qed.

Lemma append_cons c (s1 s2 : string) : String c s1 +:+ s2 = String c (s1 +:+ s2).
Proof. reflexivity. Qed.

Lemma string_of_list_ascii_app l1 l2 :
  string_of_list_ascii (l1 ++ l2)%list
  = string_of_list_ascii l1 +:+ string_of_list_ascii l2.
Proof.
  induction l1 as [|c l1 IH]; [reflexivity|].
  cbn [string_of_list_ascii app]. now rewrite append_cons, IH.
Qed.

Lemma append_assoc (s1 s2 s3 : string) : (s1 +:+ s2) +:+ s3 = s1 +:+ (s2 +:+ s3).
Proof.
  induction s1 as [|c s1 IH]; [reflexivity|]. now rewrite !append_cons, IH.
Qed.

Lemma pretty_N_go_digits (x : N) :
  forall s, exists ds,
    pretty_N_go x s = string_of_list_ascii ds +:+ s /\
    digitChars ds /\ Str.digitsValue ds = Z.of_N x /\
    ((0 < x)%N -> ds <> []).
Proof.
  induction (N.lt_wf_0 x) as [x _ IH]. intros s.
  destruct (N.eq_dec x 0%N) as [-> | Hx].
  - exists []. rewrite pretty_N_go_0. repeat split; [constructor | lia].
  - assert (Hpos : (0 < x)%N) by lia.
    rewrite pretty_N_go_step by exact Hpos.
    destruct (IH (x `div` 10)%N (N.div_lt x 10 Hpos eq_refl)
                 (String (pretty_N_char (x `mod` 10)) s))
      as (ds & E & Hd & Hv & _).
    destruct (pretty_N_char_digit (x `mod` 10)%N) as [Hc1 Hc2].
    { apply N.mod_lt. discriminate. }
    exists (ds ++ [pretty_N_char (x `mod` 10)])%list.
    split; [|split; [|split]].
    + rewrite E, string_of_list_ascii_app, append_assoc. reflexivity.
    + apply Forall_app. split; [exact Hd | repeat constructor; exact Hc1].
    + rewrite digitsValue_snoc, Hv, Hc2.
      rewrite (N.div_mod x 10) at 3 by discriminate. lia.
    + intros _ E'. now destruct ds.
Qed.

Lemma append_empty (s : string) : s +:+ "" = s.
Proof.
  induction s as [|c s IH]; [reflexivity|]. now rewrite append_cons, IH.
Qed.

(** The decimal rendering of a natural number is a non-empty run of digits
    whose value is the number. *)
Lemma pretty_N_digits (n : N) :
  exists ds, pretty n = string_of_list_ascii ds /\ ds <> [] /\
             digitChars ds /\ Str.digitsValue ds = Z.of_N n.
Proof.
  unfold pretty, pretty_N. destruct (decide (n = 0%N)) as [-> | Hn].
  - exists ["0"%char]. repeat split; [discriminate | repeat constructor].
  - destruct (pretty_N_go_digits n "") as (ds & E & Hd & Hv & Hne).
    exists ds. rewrite E, append_empty. repeat split; try assumption.
    apply Hne. lia.
Qed.

Lemma takeDigits_cons c r :
  Str.takeDigits (String c r)
  = if Str.isDigit c
    then (c :: fst (Str.takeDigits r), snd (Str.takeDigits r))
    else ([], String c r).
Proof.
  simpl. destruct (Str.isDigit c); [|reflexivity].
  now destruct (Str.takeDigits r).
Qed.

Lemma takeDigits_digits ds rest :
  digitChars ds ->
  Str.takeDigits (string_of_list_ascii ds +:+ rest)
  = ((ds ++ fst (Str.takeDigits rest))%list, snd (Str.takeDigits rest)).
Proof.
  induction 1 as [|c ds Hc _ IH].
  - change (string_of_list_ascii [] +:+ rest) with rest.
    now destruct (Str.takeDigits rest).
  - cbn [string_of_list_ascii]. rewrite append_cons, takeDigits_cons, Hc, IH.
    reflexivity.
Qed.

Lemma digit_not_white c r :
  Str.isDigit c = true -> Str.trimStart (String c r) = String c r.
Proof.
  intros Hc. simpl.
  destruct c as [[] [] [] [] [] [] [] []]; try discriminate Hc; reflexivity.
Qed.

Lemma digit_no_Infinity c r :
  Str.isDigit c = true -> String.prefix "Infinity" (String c r) = false.
Proof.
  intros Hc.
  destruct c as [[] [] [] [] [] [] [] []]; try discriminate Hc; reflexivity.
Qed.

Lemma fin_whole (v : Z) : Number.fin (inject_Z v * pow10 0) = Number.ofZ v.
Proof.
  unfold Number.fin, Number.ofZ. f_equal.
  transitivity (Qred (inject_Z v)); [|apply inject_Z_Qred].
  apply Qred_complete. change (pow10 0) with 1%Q. now rewrite Qmult_1_r.
Qed.

(** ** UpdateAlertSettings *)

(** A text with no number in front reads as NaN. *)
Lemma parseFloat_startsNoNumber (s : string) :
  startsNoNumber s = true -> parseFloat s = NaN.
Proof.
  unfold startsNoNumber, parseFloat.
  destruct (Str.trimStart s) as [|c r]; [reflexivity|].
  destruct c as [[] [] [] [] [] [] [] []]; intros H;
    try discriminate H; reflexivity.
Qed.

Lemma takeDigits_endsNumber (rest : string) :
  endsNumber rest = true -> Str.takeDigits rest = ([], rest).
Proof.
  destruct rest as [|c r]; [reflexivity|]. cbn [endsNumber].
  rewrite takeDigits_cons. destruct (Str.isDigit c); [discriminate|reflexivity].
Qed.

(** A run of digits followed by a text that cannot continue it reads as
    the whole number the digits spell. *)
Lemma parseFloat_prefix (ds : list ascii) (rest : string) :
  digitChars ds -> ds <> [] -> endsNumber rest = true ->
  parseFloat (string_of_list_ascii ds +:+ rest)
  = Number.ofZ (Str.digitsValue ds).
Proof.
  intros Hd Hne Hr.
  assert (HU : parseUnsigned (string_of_list_ascii ds +:+ rest)
               = Some (inject_Z (Str.digitsValue ds) * pow10 0)%Q).
  { unfold parseUnsigned. rewrite takeDigits_digits by exact Hd.
    rewrite (takeDigits_endsNumber rest Hr). cbn [fst snd]. rewrite app_nil_r.
    destruct rest as [|c r].
    - destruct ds; [congruence | reflexivity].
    - cbn [endsNumber] in Hr.
      destruct c as [[] [] [] [] [] [] [] []]; try discriminate Hr;
        (destruct ds; [congruence | reflexivity]). }
  destruct ds as [|c ds']; [congruence|].
  apply Forall_cons in Hd as [Hc Hd].
  cbn [string_of_list_ascii] in *.
  change (String c (string_of_list_ascii ds') +:+ rest)
    with (String c (string_of_list_ascii ds' +:+ rest)) in *.
  set (r := string_of_list_ascii ds' +:+ rest) in *.
  unfold parseFloat. rewrite (digit_not_white c r Hc).
  assert (E : (match String c r with
               | String "+" r0 => (false, r0)
               | String "-" r0 => (true, r0)
               | _ => (false, String c r)
               end) = (false, String c r)).
  { destruct c as [[] [] [] [] [] [] [] []]; try discriminate Hc; reflexivity. }
  rewrite E, (digit_no_Infinity c r Hc), HU. apply fin_whole.
Qed.

Lemma or_whole (n : N) :
  Number.or (Number.ofZ (Z.of_N n)) (Number.ofZ 0) = Number.ofZ (Z.of_N n).
Proof. destruct n; reflexivity. Qed.

(** What [parseFloat(s) || 0] stores for the two kinds of text. *)
Lemma coerced_field (s : string) :
  (startsNoNumber s = true ->
   Number.or (parseFloat s) (Number.ofZ 0) = Num 0) /\
  (forall (n : N) (rest : string),
     (n < 2 ^ 53)%N -> endsNumber rest = true -> s = pretty n +:+ rest ->
     Number.or (parseFloat s) (Number.ofZ 0) = Number.ofZ (Z.of_N n)).
Proof.
  split.
  - intros H. now rewrite (parseFloat_startsNoNumber s H).
  - intros n rest _ Hr ->.
    destruct (pretty_N_digits n) as (ds & -> & Hne & Hd & Hv).
    rewrite (parseFloat_prefix ds rest Hd Hne Hr), Hv. apply or_whole.
Qed.

(** C7, as the code has it.  Saving the alert form always goes through
    and closes the form; it stores, for each bot carrying the form's id
    and at its position, the same bot with the alert configuration and the
    target replaced by what the form holds, each number field read as
    [parseFloat(text) || 0].  A field with no number in front (its first
    character after the leading white space is neither a digit, a sign, a
    dot nor the I of Infinity, or there is none, as for "abc" and for the
    empty text) is stored as 0.  A field that starts with the digits of a
    whole number below 2^53 and goes on with something that cannot
    continue the number is stored as that whole number, whatever follows. *)
Theorem handleSaveAlerts_coerces (d : DashboardState) (st : AppState)
  (f : AlertForm.t) (k : nat) (b : TradingBot) :
  alertForm d = Some f ->
  bots st !! k = Some b ->
  id b = AlertForm.id f ->
  let cfg :=
    {| pnlDropThreshold :=
         Number.or (parseFloat (AlertForm.pnlDropThreshold f)) (Num 0);
       maxDowntimeMinutes :=
         Number.or (parseFloat (AlertForm.maxDowntimeMinutes f)) (Num 0);
       notifyOnTradeFailure := AlertForm.notifyOnTradeFailure f |} in
  let target := Number.or (parseFloat (AlertForm.targetPnl f)) (Num 0) in
  fst (handleSaveAlerts d st) = setAlertForm None d /\
  length (bots (snd (handleSaveAlerts d st))) = length (bots st) /\
  bots (snd (handleSaveAlerts d st)) !! k = Some (withAlertConfig cfg target b) /\
  (startsNoNumber (AlertForm.pnlDropThreshold f) = true ->
   pnlDropThreshold cfg = Num 0) /\
  (startsNoNumber (AlertForm.maxDowntimeMinutes f) = true ->
   maxDowntimeMinutes cfg = Num 0) /\
  (startsNoNumber (AlertForm.targetPnl f) = true -> target = Num 0) /\
  (forall (n : N) (rest : string),
     (n < 2 ^ 53)%N -> endsNumber rest = true ->
     (AlertForm.pnlDropThreshold f = pretty n +:+ rest ->
      pnlDropThreshold cfg = Number.ofZ (Z.of_N n)) /\
     (AlertForm.maxDowntimeMinutes f = pretty n +:+ rest ->
      maxDowntimeMinutes cfg = Number.ofZ (Z.of_N n)) /\
     (AlertForm.targetPnl f = pretty n +:+ rest ->
      target = Number.ofZ (Z.of_N n))).
Proof.
  intros Hf Hk Hid cfg target. unfold handleSaveAlerts. rewrite Hf.
  cbn [fst snd]. split; [reflexivity|].
  unfold handleUpdateBot, setBots. cbn [bots].
  split; [apply length_map|]. split.
  { rewrite (map_cond_lookup (fun bot => String.eqb (id bot) (AlertForm.id f))
               _ _ _ _ Hk).
    rewrite Hid, String.eqb_refl. reflexivity. }
  subst cfg target. cbn [pnlDropThreshold maxDowntimeMinutes].
  change (Num 0) with (Number.ofZ 0).
  split; [apply coerced_field|]. split; [apply coerced_field|].
  split; [apply coerced_field|].
  intros n rest Hn Hr.
  split; [|split]; intros E;
    exact (proj2 (coerced_field _) n rest Hn Hr E).
Qed.

Lemma handleSaveAlerts_coerces_witness :
  let f := {| AlertForm.id := "1"; AlertForm.pnlDropThreshold := "abc";
              AlertForm.maxDowntimeMinutes := "45";
              AlertForm.notifyOnTradeFailure := false;
              AlertForm.targetPnl := "" |} in
  exists b,
    bots initialState !! 0%nat = Some b /\
    bots (snd (handleSaveAlerts (editingAlerts f) initialState)) !! 0%nat
    = Some (withAlertConfig
              {| pnlDropThreshold := Num 0; maxDowntimeMinutes := Num 45;
                 notifyOnTradeFailure := false |} (Num 0) b).
Proof.
  intros f. eexists. split; [reflexivity|].
  exact (proj1 (proj2 (proj2
    (handleSaveAlerts_coerces (editingAlerts f) initialState f 0 _
       eq_refl eq_refl eq_refl)))).
Defined.

(** C7 as stated fails on a text that is not a number but starts with
    one: the thresholds typed as "12abc" and "5px" and the target typed
    as "1,5" are stored as 12, 5 and 1, not as 0. *)
Lemma handleSaveAlerts_keeps_numeric_prefix :
  let f := {| AlertForm.id := "1"; AlertForm.pnlDropThreshold := "12abc";
              AlertForm.maxDowntimeMinutes := "5px";
              AlertForm.notifyOnTradeFailure := true;
              AlertForm.targetPnl := "1,5" |} in
  map (fun b => (id b, pnlDropThreshold (alertSettings b),
                 maxDowntimeMinutes (alertSettings b), targetPnl b))
      (firstn 1 (bots (snd (handleSaveAlerts (editingAlerts f) initialState))))
  = [("1", Num 12, Num 5, Some (Num 1))].
Proof. vm_compute. reflexivity. Qed.

(** ** Delete and the activity log *)

Lemma find_none_iff {A} (p : A -> bool) (l : list A) :
  List.find p l = None <-> forall x, x ∈ l -> p x = false.
Proof.
  induction l as [|y l IH]; simpl.
  - split; [|reflexivity]. intros _ x Hx. inversion Hx.
  - destruct (p y) eqn:Hy.
    + split; [discriminate|]. intros H. rewrite (H y) in Hy by constructor.
      discriminate.
    + rewrite IH. split.
      * intros H x [-> | Hx]%elem_of_cons; auto.
      * intros H x Hx. apply H. now constructor.
Qed.

Lemma historyBot_unknown (l : list TradingBot) i :
  (forall b, b ∈ l -> id b <> i) ->
  historyBot l (Some i) = None /\ historyEntries l (Some i) = [].
Proof.
  intros H. assert (E : historyBot l (Some i) = None).
  { apply find_none_iff. intros b Hb. apply id_eqb_false. now apply H. }
  split; [exact E|]. unfold historyEntries. now rewrite E.
Qed.

Lemma elem_of_List_filter {A} (p : A -> bool) (l : list A) x :
  x ∈ List.filter p l <-> x ∈ l /\ p x = true.
Proof. rewrite !list_elem_of_In. apply List.filter_In. Qed.

(** C9.  Delete(id) stores, in one update, the bots whose id differs from
    [id], so the bot goes together with the history and the alerts it
    holds; nothing else of the state changes, and when no bot carries the
    id the state is unchanged.  Asking for the history of the deleted id, or
    of any id that no bot carries, finds no bot and lists no entry. *)
Theorem handleDeleteBot_spec (i : string) (st : AppState) :
  (forall b, b ∈ bots (handleDeleteBot i st) <-> b ∈ bots st /\ id b <> i) /\
  activeTab (handleDeleteBot i st) = activeTab st /\
  ((forall b, b ∈ bots st -> id b <> i) -> handleDeleteBot i st = st) /\
  historyBot (bots (handleDeleteBot i st)) (Some i) = None /\
  historyEntries (bots (handleDeleteBot i st)) (Some i) = [] /\
  (forall j, (forall b, b ∈ bots st -> id b <> j) ->
     historyBot (bots st) (Some j) = None /\
     historyEntries (bots st) (Some j) = []).
Proof.
  assert (Hmem : forall b,
    b ∈ bots (handleDeleteBot i st) <-> b ∈ bots st /\ id b <> i).
  { intros b. unfold handleDeleteBot, setBots; cbn [bots].
    rewrite elem_of_List_filter, negb_true_iff. now rewrite String.eqb_neq. }
  split; [exact Hmem|]. split; [reflexivity|]. split; [|split; [|split]].
  - intros H. unfold handleDeleteBot, setBots.
    rewrite List_filter_all; [apply AppState_eta|].
    apply Forall_forall. intros b Hb.
    rewrite negb_true_iff. apply id_eqb_false. now apply H.
  - apply historyBot_unknown. intros b Hb. now apply Hmem in Hb.
  - apply historyBot_unknown. intros b Hb. now apply Hmem in Hb.
  - intros j. apply historyBot_unknown.
Qed.

Lemma handleDeleteBot_spec_witness :
  handleDeleteBot "11" initialState = initialState.
Proof.
  apply (proj1 (proj2 (proj2 (handleDeleteBot_spec "11" initialState)))).
  intros b Hb.
  repeat (apply elem_of_cons in Hb as [-> | Hb]; [vm_compute; discriminate|]).
  inversion Hb.
Defined.

Example handleDeleteBot_initial :
  map id (bots (handleDeleteBot "3" initialState))
  = ["1"; "2"; "4"; "5"; "6"; "7"; "8"; "9"; "10"] /\
  length (historyEntries (bots initialState) (Some "3")) = 20%nat /\
  historyEntries (bots (handleDeleteBot "3" initialState)) (Some "3") = [].
Proof. split; [|split]; vm_compute; reflexivity. Qed.

(** ** Frame of the single-bot operations *)

Lemma others_map_cond i (f : TradingBot -> TradingBot) l :
  (forall b, id (f b) = id b) ->
  others i (map (fun b => if String.eqb (id b) i then f b else b) l)
  = others i l.
Proof.
  intros Hf. unfold others. induction l as [|b l IH]; simpl; [reflexivity|].
  destruct (String.eqb (id b) i) eqn:Hb.
  - rewrite Hf, Hb. simpl. exact IH.
  - rewrite Hb. simpl. now rewrite IH.
Qed.

Lemma map_cond_lookup_other i (f : TradingBot -> TradingBot) l k b :
  l !! k = Some b -> id b <> i ->
  map (fun b => if String.eqb (id b) i then f b else b) l !! k = Some b.
Proof.
  intros Hk Hi.
  rewrite (map_cond_lookup (fun b => String.eqb (id b) i) f _ _ _ Hk).
  now rewrite id_eqb_false.
Qed.

(** C10.  ToggleStatus, Rename, UpdateAlertSettings and Delete aimed at the
    id [i] leave the bots with another id as they were and in the order
    they had: the sub-list of those bots is the same before and after.  The
    first three also keep every such bot at its position, and Delete keeps
    exactly that sub-list. *)
Theorem single_bot_operations_frame (i : string) (st : AppState) :
  others i (bots (handleToggleBot i st)) = others i (bots st) /\
  others i (bots (handleDeleteBot i st)) = others i (bots st) /\
  bots (handleDeleteBot i st) = others i (bots st) /\
  (forall d, editingNameId d = Some i ->
     others i (bots (snd (handleSaveName d st))) = others i (bots st)) /\
  (forall d f, alertForm d = Some f -> AlertForm.id f = i ->
     others i (bots (snd (handleSaveAlerts d st))) = others i (bots st)) /\
  (forall k b, bots st !! k = Some b -> id b <> i ->
     bots (handleToggleBot i st) !! k = Some b /\
     (forall d, editingNameId d = Some i ->
        bots (snd (handleSaveName d st)) !! k = Some b) /\
     (forall d f, alertForm d = Some f -> AlertForm.id f = i ->
        bots (snd (handleSaveAlerts d st)) !! k = Some b)).
Proof.
  split; [|split; [|split; [|split; [|split]]]].
  - unfold handleToggleBot, setBots; cbn [bots]. now apply others_map_cond.
  - unfold handleDeleteBot, setBots, others; cbn [bots].
    rewrite List_filter_filter. apply List.filter_ext.
    intros b. now rewrite andb_diag.
  - reflexivity.
  - intros d Hd. unfold handleSaveName. rewrite Hd.
    destruct (Str.truthy i && Str.truthy (Str.trim (tempName d)))%bool;
      [|reflexivity].
    unfold handleUpdateBot, setBots; cbn [snd bots]. now apply others_map_cond.
  - intros d f Hf <-. unfold handleSaveAlerts. rewrite Hf.
    unfold handleUpdateBot, setBots; cbn [snd bots]. now apply others_map_cond.
  - intros k b Hk Hi. split; [|split].
    + unfold handleToggleBot, setBots; cbn [bots].
      now apply map_cond_lookup_other.
    + intros d Hd. unfold handleSaveName. rewrite Hd.
      destruct (Str.truthy i && Str.truthy (Str.trim (tempName d)))%bool;
        [|exact Hk].
      unfold handleUpdateBot, setBots; cbn [snd bots].
      now apply map_cond_lookup_other.
    + intros d f Hf <-. unfold handleSaveAlerts. rewrite Hf.
      unfold handleUpdateBot, setBots; cbn [snd bots].
      now apply map_cond_lookup_other.
Qed.

Lemma single_bot_operations_frame_witness :
  others "1" (bots (snd (handleSaveName (renaming "1" "Momentum") initialState)))
  = others "1" (bots initialState) /\
  bots (handleToggleBot "1" initialState) !! 1%nat = bots initialState !! 1%nat.
Proof.
  pose proof (single_bot_operations_frame "1" initialState)
    as (_ & _ & _ & Hname & _ & Hpos).
  split.
  - exact (Hname (renaming "1" "Momentum") eq_refl).
  - refine (proj1 (Hpos 1%nat _ eq_refl _)). vm_compute. discriminate.
Defined.

(** ** Any stable sort gives the same result

    The order in which an engine compares elements is its own affair; the
    result is not.  On PnL values that are numbers, a list in descending
    order in which the bots of each PnL come in the order of the input is
    the list computed by [Array_sort]. *)

Lemma eqb_refl_number (a : number) : a <> NaN -> Number.eqb a a = true.
Proof.
  destruct a as [|s|p]; simpl; [congruence | destruct s; reflexivity |].
  intros _. now apply Qeq_bool_iff.
Qed.

Lemma eqb_sym_number (a b : number) : Number.eqb a b = Number.eqb b a.
Proof.
  destruct a as [|s|p], b as [|s'|q]; simpl; try reflexivity.
  - destruct s, s'; reflexivity.
  - apply eq_true_iff_eq. rewrite !Qeq_bool_iff. split; intros H; now symmetry.
Qed.

Lemma eqb_of_not_gt (a b : number) :
  a <> NaN -> b <> NaN ->
  Number.gt a b = false -> Number.gt b a = false -> Number.eqb a b = true.
Proof.
  destruct a as [|s|p], b as [|s'|q]; simpl; try congruence.
  - destruct s, s'; simpl; congruence.
  - destruct s; simpl; congruence.
  - destruct s'; simpl; congruence.
  - rewrite !Qlt_bool_false_iff, Qeq_bool_iff. intros _ _ H1 H2.
    now apply Qle_antisym.
Qed.

Lemma sorted_head_notBelow x t y :
  StronglySorted notBelow (x :: t) -> y ∈ x :: t -> notBelow x y.
Proof.
  intros Hs [-> | Hy]%elem_of_cons.
  - unfold notBelow. destruct (Number.gt (pnl x) (pnl x)) eqn:E; [|reflexivity].
    now rewrite (gt_asym _ _ E) in E.
  - apply StronglySorted_inv in Hs as [_ Hall].
    rewrite Forall_forall in Hall. now apply Hall.
Qed.

Lemma head_in_class (x : TradingBot) t :
  pnl x <> NaN ->
  List.filter (fun b => Number.eqb (pnl b) (pnl x)) (x :: t)
  = x :: List.filter (fun b => Number.eqb (pnl b) (pnl x)) t.
Proof. intros H. simpl. now rewrite eqb_refl_number. Qed.

Lemma sorted_classes_unique (l1 l2 : list TradingBot) :
  Forall (fun b => pnl b <> NaN) l1 ->
  Forall (fun b => pnl b <> NaN) l2 ->
  StronglySorted notBelow l1 ->
  StronglySorted notBelow l2 ->
  (forall v, List.filter (fun b => Number.eqb (pnl b) v) l1
             = List.filter (fun b => Number.eqb (pnl b) v) l2) ->
  l1 = l2.
Proof.
  revert l2. induction l1 as [|x t1 IH]; intros [|y t2] Hn1 Hn2 Hs1 Hs2 Hcl.
  - reflexivity.
  - apply Forall_cons in Hn2 as [Hy _].
    specialize (Hcl (pnl y)). rewrite head_in_class in Hcl by exact Hy.
    discriminate.
  - apply Forall_cons in Hn1 as [Hx _].
    specialize (Hcl (pnl x)). rewrite head_in_class in Hcl by exact Hx.
    discriminate.
  - apply Forall_cons in Hn1 as [Hx Hn1]. apply Forall_cons in Hn2 as [Hy Hn2].
    assert (Hyx : notBelow x y).
    { apply (sorted_head_notBelow x t1 y Hs1).
      apply list_elem_of_In. 
      apply (proj1 (List.filter_In (fun b => Number.eqb (pnl b) (pnl y)) y (x :: t1))).
      rewrite (Hcl (pnl y)), head_in_class by exact Hy. now left. }
    assert (Hxy : notBelow y x).
    { apply (sorted_head_notBelow y t2 x Hs2).
      apply list_elem_of_In.
      apply (proj1 (List.filter_In (fun b => Number.eqb (pnl b) (pnl x)) x (y :: t2))).
      rewrite <- (Hcl (pnl x)), head_in_class by exact Hx. now left. }
    unfold notBelow in Hyx, Hxy.
    assert (E : Number.eqb (pnl y) (pnl x) = true)
      by now apply eqb_of_not_gt.
    assert (Hhead : x = y).
    { specialize (Hcl (pnl x)). rewrite head_in_class in Hcl by exact Hx.
      simpl in Hcl. rewrite E in Hcl. now injection Hcl. }
    subst y. f_equal.
    apply IH; try assumption.
    + now apply StronglySorted_inv in Hs1 as [? _].
    + now apply StronglySorted_inv in Hs2 as [? _].
    + intros v. specialize (Hcl v). simpl in Hcl.
      destruct (Number.eqb (pnl x) v); [now injection Hcl | exact Hcl].
Qed.

Theorem stable_sort_unique lc (l sorted : list TradingBot) :
  Forall (fun b => pnl b <> NaN) l ->
  Forall (fun b => pnl b <> NaN) sorted ->
  StronglySorted notBelow sorted ->
  (forall v, List.filter (fun b => Number.eqb (pnl b) v) sorted
             = List.filter (fun b => Number.eqb (pnl b) v) l) ->
  sorted = Array_sort (compareBots lc SortBy.PNL) l.
Proof.
  intros Hl Hsorted Hs Hcl. apply sorted_classes_unique; try assumption.
  - now rewrite Array_sort_Permutation.
  - now apply Array_sort_PNL_descending.
  - intros v. rewrite Hcl. symmetry. apply Array_sort_filter.
    intros a b Ha Hb. rewrite goesAfter_PNL. now apply gt_of_eqb with v.
Qed.

(** * Further properties of the code *)

(** ** Rounding to two decimals *)

Lemma Qle_bool_false_iff a b : Qle_bool a b = false <-> (b < a)%Q.
Proof.
  rewrite <- not_true_iff_false, Qle_bool_iff. split; [apply Qnot_le_lt | apply Qlt_not_le].
Qed.

Lemma nearestHundredth_bounds (x : Q) :
  (x - (1 # 200) <= inject_Z (Number.nearestHundredth x) * (1 # 100) <= x + (1 # 200))%Q.
Proof.
  unfold Number.nearestHundredth.
  pose proof (Qfloor_le (x * 100 + (1 # 2))) as H1.
  pose proof (Qlt_floor (x * 100 + (1 # 2))) as H2.
  rewrite inject_Z_plus in H2.
  set (n := inject_Z (Qfloor (x * 100 + (1 # 2)))) in *.
  change (inject_Z 1) with 1%Q in H2. clearbody n.
  split; lra.
Qed.

Lemma Qmake_100 (n : Z) : (n # 100 == inject_Z n * (1 # 100))%Q.
Proof. unfold Qeq, Qmult, inject_Z. simpl. lia. Qed.

(** Rounding to two decimals moves a finite number by at most half a
    hundredth. *)
Lemma toFixed2_error (q : Q) :
  exists r, Number.toFixed2 (Num q) = Num r /\ (Qabs (r - q) <= 1 # 200)%Q.
Proof.
  unfold Number.toFixed2, Number.fin, Qneg_bool.
  destruct (Qlt_bool q 0) eqn:Hneg.
  - destruct (Qle_bool (inject_Z (10 ^ 21)) (- q)).
    + exists q. split; [reflexivity|]. apply Qabs_Qle_condition. split; lra.
    + eexists. split; [reflexivity|].
      rewrite Qred_correct, Qmake_100.
      pose proof (nearestHundredth_bounds (- q)) as [H1 H2].
      apply Qabs_Qle_condition. split; lra.
  - destruct (Qle_bool (inject_Z (10 ^ 21)) q).
    + exists q. split; [reflexivity|]. apply Qabs_Qle_condition. split; lra.
    + eexists. split; [reflexivity|].
      rewrite Qred_correct, Qmake_100.
      pose proof (nearestHundredth_bounds q) as [H1 H2].
      apply Qabs_Qle_condition. split; lra.
Qed.

Lemma nearestHundredth_of_hundredth (n : Z) :
  Number.nearestHundredth (Qred (n # 100)) = n.
Proof.
  unfold Number.nearestHundredth.
  assert (E : (Qred (n # 100) * 100 + (1 # 2) == inject_Z n + (1 # 2))%Q).
  { rewrite Qred_correct, Qmake_100. ring. }
  rewrite (Qfloor_comp _ _ E).
  pose proof (Qfloor_le (inject_Z n + (1 # 2))) as H1.
  pose proof (Qlt_floor (inject_Z n + (1 # 2))) as H2.
  set (m := Qfloor (inject_Z n + (1 # 2))) in *. clearbody m.
  rewrite inject_Z_plus in H2. change (inject_Z 1) with 1%Q in H2.
  assert (H3 : (inject_Z m < inject_Z (n + 1))%Q).
  { rewrite inject_Z_plus. change (inject_Z 1) with 1%Q. lra. }
  assert (H4 : (inject_Z (n - 1) < inject_Z m)%Q).
  { unfold Z.sub. rewrite inject_Z_plus. change (inject_Z (- (1))) with (-1 # 1)%Q. lra. }
  rewrite <- Zlt_Qlt in H3, H4. lia.
Qed.

Lemma nearestHundredth_nonneg (x : Q) : (0 <= x)%Q -> (0 <= Number.nearestHundredth x)%Z.
Proof.
  intros H. unfold Number.nearestHundredth.
  change 0%Z with (Qfloor 0). apply Qfloor_resp_le. lra.
Qed.

Lemma nearestHundredth_comp (x y : Q) :
  (x == y)%Q -> Number.nearestHundredth x = Number.nearestHundredth y.
Proof.
  intros E. unfold Number.nearestHundredth. apply Qfloor_comp. now rewrite E.
Qed.

(** A whole number of hundredths is its own rounding. *)
Lemma toFixed2_hundredth (z : Z) :
  Number.toFixed2 (Num (Qred (z # 100))) = Num (Qred (z # 100)).
Proof.
  unfold Number.toFixed2, Qneg_bool, Number.fin.
  destruct (Qlt_bool (Qred (z # 100)) 0).
  - destruct (Qle_bool _ _); [reflexivity|]. f_equal.
    assert (E : (- Qred (z # 100) == Qred (- z # 100))%Q).
    { rewrite !Qred_correct. reflexivity. }
    rewrite (nearestHundredth_comp _ _ E), nearestHundredth_of_hundredth.
    apply Qred_complete. unfold Qeq. simpl. lia.
  - destruct (Qle_bool _ _); [reflexivity|]. f_equal.
    now rewrite nearestHundredth_of_hundredth.
Qed.

(** Rounding to two decimals twice is rounding once. *)
Lemma toFixed2_idempotent (a : number) :
  Number.toFixed2 (Number.toFixed2 a) = Number.toFixed2 a.
Proof.
  destruct a as [|s|q]; try reflexivity.
  assert (H : Number.toFixed2 (Num q) = Num q \/
              exists z, Number.toFixed2 (Num q) = Num (Qred (z # 100))).
  { unfold Number.toFixed2, Number.fin.
    destruct (Qneg_bool q); destruct (Qle_bool _ _); eauto. }
  destruct H as [H | [z H]].
  - now rewrite !H.
  - rewrite H. apply toFixed2_hundredth.
Qed.

(** ** Simulation tick, further *)

Lemma tickBot_draws bot d : drawsInRange d -> drawsInRange (snd (tickBot bot d)).
Proof.
  intros Hd. unfold tickBot.
  destruct (Status_eqb (status bot) RUNNING); [|exact Hd].
  unfold bind, random, ret. cbv beta iota.
  destruct (Number.gt (Number.fin (d 2%nat)) (Num 0.95)); cbv beta iota.
  - intros n. apply Hd.
  - destruct (Number.gt (Number.fin (d 3%nat)) (Num 0.9)); cbv beta iota;
      [destruct (String.eqb (lastTrade bot) "Just now");
       [|destruct (String.eqb (lastTrade bot) "1m ago")]|];
      cbv beta iota; intros n; apply Hd.
Qed.

(** [mapM] hands each element draws that satisfy whatever the callback
    keeps true of them. *)
Lemma mapM_Forall2_inv {A B} (P : Draws -> Prop) (f : A -> Rand B) xs d :
  (forall x d0, P d0 -> P (snd (f x d0))) ->
  P d ->
  Forall2 (fun x y => exists d', P d' /\ y = fst (f x d')) xs (fst (mapM f xs d)).
Proof.
  intros Hf. revert d. induction xs as [|x xs IH]; intros d Hd.
  - constructor.
  - rewrite mapM_cons. simpl. constructor; [eauto|]. apply IH. now apply Hf.
Qed.

Lemma tickBot_sameIdentity bot d : sameIdentity bot (fst (tickBot bot d)).
Proof.
  destruct (status bot) eqn:Hs.
  - destruct (tickBot_running bot d Hs)
      as (H1 & H2 & H3 & H4 & H5 & H6 & H7 & H8 & H9 & _).
    repeat split; assumption.
  - rewrite tickBot_not_running by (rewrite Hs; discriminate).
    repeat split; reflexivity.
  - rewrite tickBot_not_running by (rewrite Hs; discriminate).
    repeat split; reflexivity.
Qed.

Lemma tick_sameIdentity (st : AppState) (d : Draws) :
  Forall2 sameIdentity (bots st) (bots (fst (tick st d))).
Proof.
  rewrite tick_bots. eapply Forall2_impl; [apply mapM_Forall2|].
  intros b b' [d' ->]. apply tickBot_sameIdentity.
Qed.

(** X1.  A tick changes neither the selected tab nor the size or order of the
    fleet, and of each bot it keeps id, name, status, uptime, alert
    configuration, stored alerts, target, strategy code and history. *)
Theorem tick_keeps_identity (st : AppState) (d : Draws) :
  activeTab (fst (tick st d)) = activeTab st /\
  length (bots (fst (tick st d))) = length (bots st) /\
  Forall2 sameIdentity (bots st) (bots (fst (tick st d))).
Proof.
  pose proof (tick_sameIdentity st d) as H.
  split; [|split; [|exact H]].
  - unfold tick, bind, ret. destruct (mapM tickBot (bots st) d). reflexivity.
  - symmetry. eapply Forall2_length, H.
Qed.

Lemma tickBot_tradeStep bot d : tradeStep bot (fst (tickBot bot d)).
Proof.
  unfold tradeStep, tickBot.
  destruct (Status_eqb (status bot) RUNNING); [|right; split; [|left]; reflexivity].
  unfold bind, random, ret. cbv beta iota.
  destruct (Number.gt (Number.fin (d 2%nat)) (Num 0.95)); cbv beta iota.
  - left. split; reflexivity.
  - destruct (Number.gt (Number.fin (d 3%nat)) (Num 0.9)); cbv beta iota;
      [|right; split; [|left]; reflexivity].
    destruct (String.eqb (lastTrade bot) "Just now") eqn:E1; cbv beta iota.
    { right. split; [reflexivity|]. right; left.
      split; [now apply String.eqb_eq | reflexivity]. }
    destruct (String.eqb (lastTrade bot) "1m ago") eqn:E2; cbv beta iota.
    { right. split; [reflexivity|]. right; right.
      split; [now apply String.eqb_eq | reflexivity]. }
    right. split; [|left]; reflexivity.
Qed.

Lemma add_ofZ (a b : Z) :
  Number.add (Number.ofZ a) (Number.ofZ b) = Number.ofZ (a + b).
Proof.
  unfold Number.add, Number.ofZ, Number.fin. f_equal.
  transitivity (Qred (inject_Z (a + b))); [|apply inject_Z_Qred].
  apply Qred_complete. now rewrite inject_Z_plus.
Qed.

(** X2.  In a tick a bot's trade count stays or becomes [trades + 1], and
    the latter only together with the label "Just now"; otherwise the
    label stays or ages one step, "Just now" to "1m ago" to "2m ago".  A
    count that is a whole number from 0 to below 2^53 stays as it is or
    goes up by exactly one. *)
Theorem tick_trades_never_decrease (st : AppState) (d : Draws) :
  Forall2 (fun b b' =>
             tradeStep b b' /\
             forall n : Z, (0 <= n < 2 ^ 53)%Z -> trades b = Number.ofZ n ->
               trades b' = Number.ofZ n \/ trades b' = Number.ofZ (n + 1))
          (bots st) (bots (fst (tick st d))).
Proof.
  rewrite tick_bots. eapply Forall2_impl; [apply mapM_Forall2|].
  intros b b' [d' ->]. pose proof (tickBot_tradeStep b d') as Hstep.
  split; [exact Hstep|]. intros n _ Ht.
  destruct Hstep as [[-> _] | [-> _]]; rewrite Ht.
  - right. apply add_ofZ.
  - left. reflexivity.
Qed.

Lemma mapM_tickBot_idle l d :
  Forall (fun b => status b <> RUNNING) l -> mapM tickBot l d = (l, d).
Proof.
  induction 1 as [|b l Hb _ IH]; [reflexivity|].
  rewrite mapM_cons, (tickBot_not_running b d Hb). simpl. now rewrite IH.
Qed.

(** X3.  When no bot is running a tick changes nothing and draws nothing. *)
Theorem tick_idle_fleet (st : AppState) (d : Draws) :
  Forall (fun b => status b <> RUNNING) (bots st) -> tick st d = (st, d).
Proof.
  intros H. unfold tick, bind, ret. rewrite (mapM_tickBot_idle _ d H).
  unfold setBots. now rewrite AppState_eta.
Qed.

Lemma tick_idle_fleet_witness :
  tick (handleToggleBot "1704175200000" (losingRun 0)) loadDraws
  = (handleToggleBot "1704175200000" (losingRun 0), loadDraws).
Proof.
  apply (tick_idle_fleet (handleToggleBot "1704175200000" (losingRun 0))).
  repeat constructor. vm_compute. discriminate.
Defined.

Lemma tickChange_range d :
  drawsInRange d -> exists c, tickChange d = Num c /\ (-8 < c < 8)%Q.
Proof.
  intros Hd. destruct (Hd 0%nat) as [H0 H1]. unfold tickChange.
  destruct (Number.gt (Number.fin (d 1%nat)) (Num 0.45));
    (eexists; split; [reflexivity|]);
    rewrite !Qred_correct; unfold Number.ofZ;
    change (inject_Z 8) with 8%Q;
    [change (inject_Z 1) with 1%Q | change (inject_Z (-1)) with (-1 # 1)%Q];
    split; lra.
Qed.

Lemma tickChange_Num d : exists c, tickChange d = Num c.
Proof.
  unfold tickChange.
  destruct (Number.gt (Number.fin (d 1%nat)) (Num 0.45)); eexists; reflexivity.
Qed.

(** X4.  With draws in range, a tick moves a PnL of magnitude up to 10^9
    by less than 8.01: the volatility bound 8, the half cent of the
    rounding to two decimals, and room for the rounding of binary64. *)
Theorem tick_pnl_step_bounded (st : AppState) (d : Draws) :
  drawsInRange d ->
  Forall2 (fun b b' =>
             forall p, pnl b = Num p -> (Qabs p <= 1000000000)%Q ->
               exists p', pnl b' = Num p' /\
                          (Qabs (p' - p) < 8 + (1 # 100))%Q)
          (bots st) (bots (fst (tick st d))).
Proof.
  intros Hd. rewrite tick_bots.
  eapply Forall2_impl;
    [apply (mapM_Forall2_inv drawsInRange tickBot);
     [intros; now apply tickBot_draws | exact Hd]|].
  intros b b' (d' & Hd' & ->) p Hp _.
  destruct (Status_eqb (status b) RUNNING) eqn:Hs.
  - assert (Hrun : status b = RUNNING) by (destruct (status b); now try discriminate).
    destruct (tickBot_running b d' Hrun)
      as (_ & _ & _ & _ & _ & _ & _ & _ & _ & Hpnl & _).
    rewrite Hpnl. unfold tickNewPnl. rewrite Hp.
    destruct (tickChange_range d' Hd') as (c & -> & Hc1 & Hc2).
    simpl Number.add. unfold Number.fin.
    destruct (toFixed2_error (Qred (p + c))) as (r & -> & Hr).
    exists r. split; [reflexivity|].
    apply Qabs_Qle_condition in Hr. rewrite Qred_correct in Hr.
    destruct Hr as [Hr1 Hr2]. apply Qabs_Qlt_condition. split; lra.
  - rewrite tickBot_not_running by (intros E; rewrite E in Hs; discriminate).
    exists p. split; [exact Hp|]. apply Qabs_Qlt_condition. split; lra.
Qed.

Lemma loadDraws_inRange : drawsInRange loadDraws.
Proof. intros n. unfold loadDraws. split; lra. Qed.

Lemma tick_pnl_step_bounded_witness :
  Forall2 (fun b b' =>
             forall p, pnl b = Num p -> (Qabs p <= 1000000000)%Q ->
               exists p', pnl b' = Num p' /\
                          (Qabs (p' - p) < 8 + (1 # 100))%Q)
          (bots initialState) (bots (fst (tick initialState loadDraws))).
Proof.
  exact (tick_pnl_step_bounded initialState loadDraws loadDraws_inRange).
Defined.

Lemma cycle4_inRange (a b c e : Q) :
  (0 <= a < 1)%Q -> (0 <= b < 1)%Q -> (0 <= c < 1)%Q -> (0 <= e < 1)%Q ->
  drawsInRange (cycle4 a b c e).
Proof.
  intros Ha Hb Hc He n. unfold cycle4.
  destruct (n mod 4)%nat as [|[|[|]]]; assumption.
Qed.

(** X5.  With draws in range, after a tick the stored percent of a running
    bot that started from a PnL of magnitude up to 10^9 is within 0.0051
    of its stored PnL over 100: both are roundings to two decimals of the
    same new PnL, one of them after the division by 10000 and the
    multiplication by 100, and the bound leaves room for the rounding of
    binary64. *)
Theorem tick_percent_tracks_pnl (st : AppState) (d : Draws) :
  drawsInRange d ->
  Forall2 (fun b b' =>
             status b = RUNNING ->
             forall p, pnl b = Num p -> (Qabs p <= 1000000000)%Q ->
               exists a c, pnl b' = Num a /\ pnlPercent b' = Num c /\
                 (Qabs (c - a * (1 # 100)) <= 51 # 10000)%Q)
          (bots st) (bots (fst (tick st d))).
Proof.
  intros _. rewrite tick_bots. eapply Forall2_impl; [apply mapM_Forall2|].
  intros b b' [d' ->] Hrun p Hp _.
  destruct (tickBot_running b d' Hrun)
    as (_ & _ & _ & _ & _ & _ & _ & _ & _ & Hpnl & Hpct).
  rewrite Hpnl, Hpct. unfold tickNewPnl. rewrite Hp.
  destruct (tickChange_Num d') as [c ->].
  simpl Number.add. unfold Number.fin.
  set (x := Qred (p + c)).
  assert (Hy : exists y, Number.mul (Number.div (Num x) (Number.ofZ 10000))
                                    (Number.ofZ 100) = Num y /\
                         (y == x * (1 # 100))%Q).
  { eexists. split; [reflexivity|].
    rewrite !Qred_correct. unfold Number.ofZ.
    change (inject_Z 10000) with 10000%Q. change (inject_Z 100) with 100%Q.
    field. }
  destruct Hy as (y & -> & Hy).
  destruct (toFixed2_error x) as (a & -> & Ha).
  destruct (toFixed2_error y) as (c' & -> & Hc).
  exists a, c'. split; [reflexivity|]. split; [reflexivity|].
  apply Qabs_Qle_condition in Ha, Hc. destruct Ha, Hc.
  apply Qabs_Qle_condition. clearbody x. split; lra.
Qed.

Lemma tick_percent_tracks_pnl_witness :
  exists a c,
    map pnl (bots (fst (tick (losingRun 0) (cycle4 0.062 0.5 0 0)))) = [Num a] /\
    map pnlPercent (bots (fst (tick (losingRun 0) (cycle4 0.062 0.5 0 0))))
    = [Num c] /\
    (Qabs (c - a * (1 # 100)) <= 51 # 10000)%Q.
Proof.
  assert (Hd : drawsInRange (cycle4 0.062 0.5 0 0)).
  { apply cycle4_inRange; split; lra. }
  pose proof (tick_percent_tracks_pnl (losingRun 0) (cycle4 0.062 0.5 0 0) Hd) as H.
  remember (bots (fst (tick (losingRun 0) (cycle4 0.062 0.5 0 0)))) as l eqn:El.
  vm_compute in El. subst l.
  apply Forall2_cons_1 in H as [H _].
  assert (Hb0 : (Qabs 0 <= 1000000000)%Q) by (vm_compute; discriminate).
  destruct (H eq_refl 0%Q eq_refl Hb0) as (a & c & Ha & Hc & Hb).
  exists a, c. simpl in *. rewrite <- Ha, <- Hc. split; [reflexivity|].
  split; [reflexivity | exact Hb].
Defined.

(** X6.  The PnL and the percent a tick stores for a running bot are already
    rounded: rounding them to two decimals again changes nothing. *)
Theorem tick_stores_rounded_values (st : AppState) (d : Draws) :
  Forall2 (fun b b' =>
             status b = RUNNING ->
             Number.toFixed2 (pnl b') = pnl b' /\
             Number.toFixed2 (pnlPercent b') = pnlPercent b')
          (bots st) (bots (fst (tick st d))).
Proof.
  rewrite tick_bots. eapply Forall2_impl; [apply mapM_Forall2|].
  intros b b' [d' ->] Hrun.
  destruct (tickBot_running b d' Hrun)
    as (_ & _ & _ & _ & _ & _ & _ & _ & _ & -> & ->).
  split; apply toFixed2_idempotent.
Qed.

Lemma tick_stores_rounded_values_witness :
  Forall2 (fun b b' =>
             status b = RUNNING ->
             Number.toFixed2 (pnl b') = pnl b' /\
             Number.toFixed2 (pnlPercent b') = pnlPercent b')
          (bots initialState) (bots (fst (tick initialState loadDraws))).
Proof. exact (tick_stores_rounded_values initialState loadDraws). Defined.

(** ** Lifecycle operations, composed *)

Lemma TradingBot_eta (b : TradingBot) :
  {| id := id b; name := name b; status := status b; pnl := pnl b;
     pnlPercent := pnlPercent b; uptime := uptime b; trades := trades b;
     lastTrade := lastTrade b; alertSettings := alertSettings b;
     activeAlerts := activeAlerts b; targetPnl := targetPnl b;
     strategyCode := strategyCode b; history := history b |} = b.
Proof. destruct b; reflexivity. Qed.

Lemma toggled_toggled (b : TradingBot) : toggled (toggled b) = toggledTwice b.
Proof.
  unfold toggledTwice, toggled, withStatus. simpl.
  destruct (status b) eqn:Hs; simpl; try reflexivity;
    rewrite <- Hs; apply TradingBot_eta.
Qed.

Lemma map_map_cond i (f : TradingBot -> TradingBot) l :
  (forall b, id (f b) = id b) ->
  map (fun b => if String.eqb (id b) i then f b else b)
      (map (fun b => if String.eqb (id b) i then f b else b) l)
  = map (fun b => if String.eqb (id b) i then f (f b) else b) l.
Proof.
  intros Hf. rewrite List.map_map. apply map_ext. intros b.
  destruct (String.eqb (id b) i) eqn:Hb; [|now rewrite Hb].
  now rewrite Hf, Hb.
Qed.

(** X7.  Two toggles of the same id in a row put every bot with that id at its
    position where [toggledTwice] says; when none of them is stopped the
    state is what it was before the first. *)
Theorem handleToggleBot_twice (i : string) (st : AppState) :
  (forall k b, bots st !! k = Some b -> id b = i ->
     bots (handleToggleBot i (handleToggleBot i st)) !! k
     = Some (toggledTwice b)) /\
  (Forall (fun b => id b = i -> status b <> STOPPED) (bots st) ->
   handleToggleBot i (handleToggleBot i st) = st).
Proof.
  assert (E : bots (handleToggleBot i (handleToggleBot i st))
              = map (fun b => if String.eqb (id b) i then toggledTwice b else b)
                    (bots st)).
  { unfold handleToggleBot, setBots; cbn [bots].
    rewrite map_map_cond by reflexivity.
    apply map_ext. intros b. now rewrite toggled_toggled. }
  split.
  - intros k b Hk Hi. rewrite E.
    rewrite (map_cond_lookup (fun b => String.eqb (id b) i) toggledTwice _ _ _ Hk).
    now rewrite Hi, String.eqb_refl.
  - intros H.
    assert (E' : bots (handleToggleBot i (handleToggleBot i st)) = bots st).
    { rewrite E. clear E. induction H as [|b l Hb _ IH]; [reflexivity|].
      simpl. rewrite IH. f_equal.
      destruct (String.eqb (id b) i) eqn:Hi; [|reflexivity].
      apply String.eqb_eq in Hi. specialize (Hb Hi).
      unfold toggledTwice. destruct (status b); congruence. }
    destruct st as [tab l]. unfold handleToggleBot, setBots in *.
    cbn [bots activeTab] in *. now rewrite E'.
Qed.

Lemma handleToggleBot_twice_witness :
  handleToggleBot "2" (handleToggleBot "2" initialState) = initialState.
Proof.
  apply (proj2 (handleToggleBot_twice "2" initialState)).
  unfold initialState. cbn [bots].
  set (l := initialBots). vm_compute in l. subst l.
  repeat (apply Forall_cons; split; [vm_compute; congruence|]).
  apply Forall_nil. exact I.
Defined.

(** X8.  Deleting right after a deploy, by the new bot's id, leaves the bots of
    the earlier store that do not carry that id: the earlier store itself
    when the id was new to it, and otherwise the earlier store without the
    older bots that shared the id. *)
Theorem handleDeleteBot_after_deploy (now : Z) (n desc code : string)
  (st : AppState) :
  bots (handleDeleteBot (pretty now) (handleDeployBot now n desc code st))
  = others (pretty now) (bots st) /\
  ((forall b, b ∈ bots st -> id b <> pretty now) ->
   bots (handleDeleteBot (pretty now) (handleDeployBot now n desc code st))
   = bots st).
Proof.
  assert (E : bots (handleDeleteBot (pretty now)
                      (handleDeployBot now n desc code st))
              = others (pretty now) (bots st)).
  { unfold handleDeleteBot, handleDeployBot, setBots, setActiveTab, others.
    cbn [bots id]. simpl List.filter. now rewrite String.eqb_refl. }
  split; [exact E|]. intros H. rewrite E. unfold others.
  apply List_filter_all, Forall_forall. intros b Hb.
  rewrite negb_true_iff. apply id_eqb_false. now apply H.
Qed.

Lemma initialBots_no_id (i : string) :
  Forall (fun j => j <> i) (map id initialBots) ->
  forall b, b ∈ bots initialState -> id b <> i.
Proof.
  intros H b Hb. rewrite Forall_forall in H. apply H.
  apply list_elem_of_fmap. exists b. split; [reflexivity | exact Hb].
Qed.

Lemma handleDeleteBot_after_deploy_witness :
  bots (handleDeleteBot (pretty 1704175200000%Z)
          (handleDeployBot 1704175200000 "Test Bot" "desc" "code" initialState))
  = bots initialState.
Proof.
  apply (proj2 (handleDeleteBot_after_deploy 1704175200000 "Test Bot" "desc"
                  "code" initialState)).
  apply initialBots_no_id. vm_compute.
  repeat (apply Forall_cons; split; [discriminate|]). apply Forall_nil. exact I.
Defined.

(** X9.  Deleting the same id twice is deleting it once, and two deletes can be
    done in either order. *)
Theorem handleDeleteBot_idempotent_commutes (i j : string) (st : AppState) :
  handleDeleteBot i (handleDeleteBot i st) = handleDeleteBot i st /\
  handleDeleteBot i (handleDeleteBot j st)
  = handleDeleteBot j (handleDeleteBot i st).
Proof.
  unfold handleDeleteBot, setBots; cbn [bots activeTab]. split; f_equal.
  - rewrite List_filter_filter. apply List.filter_ext. intros b.
    now rewrite andb_diag.
  - rewrite !List_filter_filter. apply List.filter_ext. intros b.
    apply andb_comm.
Qed.

(** ** Unique identifiers *)

Lemma map_id_map_cond i (f : TradingBot -> TradingBot) l :
  (forall b, id (f b) = id b) ->
  map id (map (fun b => if String.eqb (id b) i then f b else b) l) = map id l.
Proof.
  intros Hf. rewrite List.map_map. apply map_ext. intros b.
  destruct (String.eqb (id b) i); [apply Hf | reflexivity].
Qed.

Lemma NoDup_map_filter {A B} (g : A -> B) (p : A -> bool) l :
  NoDup (map g l) -> NoDup (map g (List.filter p l)).
Proof.
  induction l as [|x l IH]; simpl; [trivial|].
  intros [Hx Hl]%NoDup_cons. destruct (p x); simpl; [|now apply IH].
  apply NoDup_cons. split; [|now apply IH].
  intros Hin. apply Hx. apply list_elem_of_In in Hin. apply list_elem_of_In.
  apply List.in_map_iff in Hin as (y & Hy & Hin). apply List.in_map_iff.
  exists y. split; [exact Hy|]. now apply List.filter_In in Hin as [? _].
Qed.

Lemma tick_ids st d : map id (bots (fst (tick st d))) = map id (bots st).
Proof.
  pose proof (tick_sameIdentity st d) as H.
  induction H as [|b b' l l' Hb _ IH]; [reflexivity|].
  simpl. rewrite IH. f_equal. apply Hb.
Qed.

(** X10.  If no two bots share an id, then none do after a toggle, a delete, a
    rename, a save of the alert form or a tick, and none do after a deploy
    whose clock reading differs from the readings the ids were made from. *)
Theorem uniqueIds_kept (st : AppState) :
  uniqueIds (bots st) ->
  (forall i, uniqueIds (bots (handleToggleBot i st))) /\
  (forall i, uniqueIds (bots (handleDeleteBot i st))) /\
  (forall dash, uniqueIds (bots (snd (handleSaveName dash st)))) /\
  (forall dash, uniqueIds (bots (snd (handleSaveAlerts dash st)))) /\
  (forall d, uniqueIds (bots (fst (tick st d)))) /\
  (forall now n desc code,
     idsFromOtherInstants now (bots st) ->
     uniqueIds (bots (handleDeployBot now n desc code st))).
Proof.
  unfold uniqueIds. intros H.
  split; [|split; [|split; [|split; [|split]]]].
  - intros i. unfold handleToggleBot, setBots; cbn [bots].
    now rewrite map_id_map_cond.
  - intros i. unfold handleDeleteBot, setBots; cbn [bots].
    now apply NoDup_map_filter.
  - intros dash. unfold handleSaveName.
    destruct (editingNameId dash) as [i|]; [|exact H].
    destruct (Str.truthy i && Str.truthy (Str.trim (tempName dash)))%bool;
      [|exact H].
    unfold handleUpdateBot, setBots; cbn [snd bots].
    now rewrite map_id_map_cond.
  - intros dash. unfold handleSaveAlerts.
    destruct (alertForm dash) as [f|]; [|exact H].
    unfold handleUpdateBot, setBots; cbn [snd bots].
    now rewrite map_id_map_cond.
  - intros d. now rewrite tick_ids.
  - intros now n desc code Hother.
    unfold handleDeployBot, setActiveTab, setBots; cbn [bots map id].
    apply NoDup_cons. split; [|exact H].
    unfold idsFromOtherInstants in Hother. rewrite Forall_forall in Hother.
    intros Hin. apply list_elem_of_fmap in Hin as (b0 & Hb0 & Hin).
    destruct (Hother b0 Hin) as (t & Ht & Hid).
    rewrite Hid in Hb0. apply (inj pretty) in Hb0. congruence.
Qed.

Lemma initialBots_uniqueIds : uniqueIds (bots initialState).
Proof.
  unfold uniqueIds.
  set (l := map id (bots initialState)). vm_compute in l. subst l.
  apply (bool_decide_unpack _). vm_compute. exact I.
Defined.

Lemma uniqueIds_kept_witness :
  uniqueIds (bots (handleDeployBot 1704175200000 "Test Bot" "desc" "code"
                     initialState)).
Proof.
  destruct (uniqueIds_kept initialState initialBots_uniqueIds)
    as (_ & _ & _ & _ & _ & H).
  apply H. exact initialBots_ids.
Defined.

(** ** The activity log's bot *)

Lemma find_first {A} (p : A -> bool) (l : list A) x :
  List.find p l = Some x <->
  exists l1 l2, l = (l1 ++ x :: l2)%list /\ p x = true /\
                Forall (fun y => p y = false) l1.
Proof.
  induction l as [|y l IH]; simpl.
  - split; [discriminate|]. intros (l1 & l2 & E & _). now destruct l1.
  - destruct (p y) eqn:Hy.
    + split.
      * intros [= ->]. exists [], l. repeat split; [exact Hy | constructor].
      * intros ([|z l1] & l2 & E & Hx & Hall).
        -- injection E as -> _. reflexivity.
        -- injection E as -> _. apply Forall_cons in Hall as [Hz _]. congruence.
    + rewrite IH. split.
      * intros (l1 & l2 & -> & Hx & Hall). exists (y :: l1), l2.
        repeat split; [exact Hx | now constructor].
      * intros ([|z l1] & l2 & E & Hx & Hall).
        -- injection E as -> _. congruence.
        -- injection E as _ ->. apply Forall_cons in Hall as [_ Hall].
           exists l1, l2. repeat split; assumption.
Qed.

(** X11.  The activity log is that of the first bot carrying the selected id.
    When ids are unique this is the bot whose log was asked for; when they
    are not, a later bot with the same id never gets its log shown. *)
Theorem historyBot_first_with_id (l : list TradingBot) (i : string) :
  (forall b, historyBot l (Some i) = Some b <->
     exists l1 l2, l = (l1 ++ b :: l2)%list /\ id b = i /\
                   Forall (fun b0 => id b0 <> i) l1) /\
  (uniqueIds l -> forall b, b ∈ l -> historyBot l (Some (id b)) = Some b).
Proof.
  assert (H1 : forall j b, historyBot l (Some j) = Some b <->
     exists l1 l2, l = (l1 ++ b :: l2)%list /\ id b = j /\
                   Forall (fun b0 => id b0 <> j) l1).
  { intros j b. unfold historyBot. rewrite find_first.
    split; intros (l1 & l2 & E & Hb & Hall); exists l1, l2;
      (split; [exact E|]); split.
    - now apply String.eqb_eq.
    - eapply Forall_impl; [exact Hall|]. intros b0. apply String.eqb_neq.
    - now apply String.eqb_eq.
    - eapply Forall_impl; [exact Hall|]. intros b0. apply String.eqb_neq. }
  split; [apply H1|].
  intros Hu b Hb. apply H1.
  apply list_elem_of_split in Hb as (l1 & l2 & ->).
  exists l1, l2. split; [reflexivity|]. split; [reflexivity|].
  unfold uniqueIds in Hu. rewrite map_app in Hu. simpl in Hu.
  apply NoDup_app in Hu as (_ & Hdis & _).
  apply Forall_forall. intros b0 Hb0 E.
  apply (Hdis (id b0)).
  - apply list_elem_of_fmap. now exists b0.
  - rewrite E. constructor.
Qed.

Lemma historyBot_first_with_id_witness :
  historyBot initialBots (Some "3") = initialBots !! 2%nat.
Proof.
  destruct (initialBots !! 2%nat) as [b|] eqn:Hb; [|discriminate Hb].
  assert (Hid : id b = "3") by (injection Hb as <-; reflexivity).
  rewrite <- Hid.
  apply (proj2 (historyBot_first_with_id initialBots "") initialBots_uniqueIds).
  eapply list_elem_of_lookup_2, Hb.
Defined.

(** With a shared id the log shown for it is the newer bot's. *)
Example historyBot_shadowed :
  let st := handleDeployBot 1704175200000 "Second Bot" "desc" "code"
              (handleDeployBot 1704175200000 "Test Bot" "desc" "code"
                 emptyState) in
  map name (bots st) = ["Second Bot"; "Test Bot"] /\
  option_map name (historyBot (bots st) (Some "1704175200000"))
  = Some "Second Bot".
Proof. split; vm_compute; reflexivity. Qed.

(** ** Rename, accepted *)

Lemma trimStart_head c r :
  Str.isWhiteSpace c = false -> Str.trimStart (String c r) = String c r.
Proof. intros H. simpl. now rewrite H. Qed.

Lemma trimStart_fixed s : Str.trimStart (Str.trimStart s) = Str.trimStart s.
Proof.
  induction s as [|c r IH]; [reflexivity|]. simpl.
  destruct (Str.isWhiteSpace c) eqn:Hc; [exact IH|]. now apply trimStart_head.
Qed.

Lemma trimEnd_cons c r :
  Str.trimEnd (String c r)
  = match Str.trimEnd r with
    | EmptyString =>
        if Str.isWhiteSpace c then EmptyString else String c EmptyString
    | r' => String c r'
    end.
Proof. reflexivity. Qed.

Lemma trimEnd_fixed s : Str.trimEnd (Str.trimEnd s) = Str.trimEnd s.
Proof.
  induction s as [|c r IH]; [reflexivity|]. rewrite trimEnd_cons.
  destruct (Str.trimEnd r) as [|c' r'] eqn:Hr.
  - destruct (Str.isWhiteSpace c) eqn:Hc; [reflexivity|].
    rewrite trimEnd_cons. simpl. now rewrite Hc.
  - rewrite trimEnd_cons, IH. reflexivity.
Qed.

Lemma trimEnd_keeps_head c r :
  Str.isWhiteSpace c = false -> exists r', Str.trimEnd (String c r) = String c r'.
Proof.
  intros Hc. simpl. destruct (Str.trimEnd r); [rewrite Hc|]; eauto.
Qed.

Lemma trim_trimmed s : trimmed (Str.trim s).
Proof.
  unfold trimmed, Str.trim. split; [|apply trimEnd_fixed].
  destruct (Str.trimStart s) as [|c r] eqn:Hs; [reflexivity|].
  assert (Hc : Str.isWhiteSpace c = false).
  { pose proof (trimStart_fixed s) as H. rewrite Hs in H. simpl in H.
    destruct (Str.isWhiteSpace c) eqn:Hc; [|reflexivity].
    exfalso. clear Hs. 
    assert (Hlen : String.length (Str.trimStart r) <= String.length r).
    { clear. induction r as [|c' r' IH]; simpl; [lia|].
      destruct (Str.isWhiteSpace c'); simpl; lia. }
    rewrite H in Hlen. simpl in Hlen. lia. }
  destruct (trimEnd_keeps_head c r Hc) as [r' ->]. now apply trimStart_head.
Qed.

Lemma trim_empty_iff s : Str.trim s = "" <-> allWhiteSpace s = true.
Proof.
  split; [|apply trim_allWhiteSpace].
  unfold Str.trim. induction s as [|c r IH]; [reflexivity|]. simpl.
  destruct (Str.isWhiteSpace c) eqn:Hc; [exact IH|].
  simpl. destruct (Str.trimEnd r); [rewrite Hc|]; discriminate.
Qed.

(** X12.  When a name with something other than white space in it is saved for
    the bot being renamed, every bot carrying that id gets, at its
    position, the name with the surrounding white space removed, which is
    not empty and neither starts nor ends with white space, and nothing
    else of the bot changes; the editor closes. *)
Theorem handleSaveName_stores_trimmed (d : DashboardState) (st : AppState)
  (i : string) :
  editingNameId d = Some i ->
  i <> "" ->
  allWhiteSpace (tempName d) = false ->
  fst (handleSaveName d st) = setEditingNameId None d /\
  Str.trim (tempName d) <> "" /\
  trimmed (Str.trim (tempName d)) /\
  (forall k b, bots st !! k = Some b -> id b = i ->
     bots (snd (handleSaveName d st)) !! k
     = Some (withName (Str.trim (tempName d)) b)).
Proof.
  intros Hd Hi Hn.
  assert (Hne : Str.trim (tempName d) <> "").
  { intros E. apply trim_empty_iff in E. congruence. }
  unfold handleSaveName. rewrite Hd.
  assert (Ht : (Str.truthy i && Str.truthy (Str.trim (tempName d)))%bool = true).
  { destruct i; [congruence|]. destruct (Str.trim (tempName d)); [congruence|].
    reflexivity. }
  rewrite Ht. cbn [fst snd].
  split; [reflexivity|]. split; [exact Hne|]. split; [apply trim_trimmed|].
  intros k b Hk Hb. unfold handleUpdateBot, setBots; cbn [bots].
  rewrite (map_cond_lookup (fun bot => String.eqb (id bot) i) _ _ _ _ Hk).
  now rewrite Hb, String.eqb_refl.
Qed.

Lemma handleSaveName_stores_trimmed_witness :
  option_map name
    (bots (snd (handleSaveName (renaming "1" "  Momentum ") initialState))
       !! 0%nat)
  = Some "Momentum".
Proof.
  destruct (handleSaveName_stores_trimmed (renaming "1" "  Momentum ")
              initialState "1" eq_refl ltac:(discriminate) eq_refl)
    as (_ & _ & _ & H).
  destruct (initialBots !! 0%nat) as [b|] eqn:Hb; [|discriminate Hb].
  assert (Hid : id b = "1") by (injection Hb as <-; reflexivity).
  rewrite (H 0%nat b Hb Hid). reflexivity.
Defined.

(** ** The counters in the dashboard's header *)

Lemma activeCount_Forall2 l l' :
  Forall2 sameIdentity l l' -> activeCount l' = activeCount l.
Proof.
  unfold activeCount. induction 1 as [|b b' l l' Hb _ IH]; [reflexivity|].
  simpl. destruct Hb as (_ & _ & -> & _).
  destruct (Status_eqb (status b) RUNNING); simpl; now rewrite IH.
Qed.

(** X13.  The number of active bots is at most the size of the fleet and no tick
    changes it; a deploy raises it by one and leaves the total PnL, the sum
    of the bots' PnL from left to right starting at 0, where it was. *)
Theorem header_counters (st : AppState) :
  activeCount (bots st) <= length (bots st) /\
  (forall d, activeCount (bots (fst (tick st d))) = activeCount (bots st)) /\
  (forall now n desc code,
     activeCount (bots (handleDeployBot now n desc code st))
     = S (activeCount (bots st)) /\
     totalPnL (bots (handleDeployBot now n desc code st)) = totalPnL (bots st)).
Proof.
  split; [|split].
  - unfold activeCount. apply List.filter_length_le.
  - intros d. apply activeCount_Forall2. apply tick_sameIdentity.
  - intros now n desc code. split; reflexivity.
Qed.

(** ** Opening the alert form and saving it untouched *)

Lemma or_truthy (x y : number) : Number.truthy x = true -> Number.or x y = x.
Proof. unfold Number.or. now intros ->. Qed.

(** X14.  Open the alert form on a bot and save it without typing anything.  If
    reading back the rendering of each of the bot's thresholds, and of its
    target when it has a non-zero one, gives that number again, the bot is
    stored with thresholds that are NaN or zero turned into 0 and the
    others as they were, and with the target shown by the form: its own, or
    5000 if it had none or zero.  Nothing else of the bot changes. *)
Theorem edit_then_save_alerts (toString : number -> string)
  (d : DashboardState) (st : AppState) (k : nat) (b : TradingBot) :
  bots st !! k = Some b ->
  parseFloat (toString (pnlDropThreshold (alertSettings b)))
  = pnlDropThreshold (alertSettings b) ->
  parseFloat (toString (maxDowntimeMinutes (alertSettings b)))
  = maxDowntimeMinutes (alertSettings b) ->
  (forall t, targetPnl b = Some t -> Number.truthy t = true ->
             parseFloat (toString t) = t) ->
  bots (snd (handleSaveAlerts (handleEditAlerts toString b d) st)) !! k
  = Some (withAlertConfig
            {| pnlDropThreshold :=
                 Number.or (pnlDropThreshold (alertSettings b)) (Num 0);
               maxDowntimeMinutes :=
                 Number.or (maxDowntimeMinutes (alertSettings b)) (Num 0);
               notifyOnTradeFailure := notifyOnTradeFailure (alertSettings b) |}
            (shownTarget b) b) /\
  (Number.truthy (pnlDropThreshold (alertSettings b)) = true ->
   Number.truthy (maxDowntimeMinutes (alertSettings b)) = true ->
   bots (snd (handleSaveAlerts (handleEditAlerts toString b d) st)) !! k
   = Some (withAlertConfig (alertSettings b) (shownTarget b) b)).
Proof.
  intros Hk Hdrop Hdown Htarget.
  assert (E : bots (snd (handleSaveAlerts (handleEditAlerts toString b d) st)) !! k
    = Some (withAlertConfig
            {| pnlDropThreshold :=
                 Number.or (pnlDropThreshold (alertSettings b)) (Num 0);
               maxDowntimeMinutes :=
                 Number.or (maxDowntimeMinutes (alertSettings b)) (Num 0);
               notifyOnTradeFailure := notifyOnTradeFailure (alertSettings b) |}
            (shownTarget b) b)).
  { unfold handleSaveAlerts, handleEditAlerts, setAlertForm. cbn [alertForm snd].
    unfold handleUpdateBot, setBots. cbn [bots AlertForm.id].
    rewrite (map_cond_lookup (fun bot => String.eqb (id bot) (id b)) _ _ _ _ Hk).
    rewrite String.eqb_refl. unfold spread, withAlertConfig.
    cbn -[parseFloat Number.or]. rewrite Hdrop, Hdown.
    do 2 f_equal. f_equal. unfold shownTarget.
    destruct (targetPnl b) as [t|] eqn:Ht; [|reflexivity].
    destruct (Number.truthy t) eqn:Htt; [|reflexivity].
    rewrite (Htarget t eq_refl Htt). now apply or_truthy. }
  split; [exact E|]. intros H1 H2. rewrite E.
  rewrite !or_truthy by assumption. do 2 f_equal.
  now destruct (alertSettings b).
Qed.

Lemma edit_then_save_alerts_witness :
  exists b,
    initialBots !! 0%nat = Some b /\
    bots (snd (handleSaveAlerts
                 (handleEditAlerts wholeToString b initialDashboard)
                 initialState)) !! 0%nat
    = Some (withAlertConfig (alertSettings b) (shownTarget b) b).
Proof.
  destruct (initialBots !! 0%nat) as [b|] eqn:Hb; [|discriminate Hb].
  exists b. split; [reflexivity|].
  assert (Hs : alertSettings b = mkSettings 5 60 true)
    by (injection Hb as <-; reflexivity).
  assert (Ht : targetPnl b = Some (Num 5000))
    by (injection Hb as <-; reflexivity).
  apply (proj2 (edit_then_save_alerts wholeToString initialDashboard
                  initialState 0 b Hb
                  ltac:(rewrite Hs; reflexivity) ltac:(rewrite Hs; reflexivity)
                  ltac:(intros t Et _; rewrite Ht in Et; injection Et as <-;
                        reflexivity)));
    rewrite Hs; reflexivity.
Defined.

(** ** Sorting by a key, highest first *)

Section DescendingByKey.
Context {A : Type} (key : A -> number).

Lemma goesAfter_descending (a b : A) :
  goesAfter (compareDescending key) a b = Number.gt (key b) (key a).
Proof. unfold goesAfter, compareDescending. apply gt_sub. Qed.

Lemma goesAfter_descending_asym (a b : A) :
  goesAfter (compareDescending key) a b = true ->
  goesAfter (compareDescending key) b a = false.
Proof. rewrite !goesAfter_descending. apply gt_asym. Qed.

Lemma insertSorted_descending x l :
  Forall (fun b => key b <> NaN) l ->
  StronglySorted (keyNotBelow key) l ->
  StronglySorted (keyNotBelow key) (insertSorted (compareDescending key) x l).
Proof.
  intros Hnan Hs. induction Hs as [|y l Hs IH Hy]; simpl.
  - repeat constructor.
  - apply Forall_cons in Hnan as [Hyn Hnan].
    rewrite goesAfter_descending.
    destruct (Number.gt (key y) (key x)) eqn:Hxy.
    + constructor; [now apply IH|].
      rewrite insertSorted_Permutation. constructor; [|exact Hy].
      unfold keyNotBelow. now apply gt_asym.
    + constructor; [now constructor|].
      constructor; [exact Hxy|].
      eapply Forall_impl; [exact Hy|]. intros z Hz.
      unfold keyNotBelow in *. now apply gt_false_trans with (key y).
Qed.

(** When no key is NaN the sorted array has the higher keys first. *)
Lemma Array_sort_descending l :
  Forall (fun b => key b <> NaN) l ->
  StronglySorted (keyNotBelow key) (Array_sort (compareDescending key) l).
Proof.
  induction 1 as [|x l Hx Hl IH]; simpl; [constructor|].
  apply insertSorted_descending; [|exact IH].
  now rewrite Array_sort_Permutation.
Qed.

(** Elements with [===] keys keep the order they had. *)
Lemma Array_sort_descending_stable l v :
  List.filter (fun b => Number.eqb (key b) v)
              (Array_sort (compareDescending key) l)
  = List.filter (fun b => Number.eqb (key b) v) l.
Proof.
  apply Array_sort_filter. intros a b Ha Hb.
  rewrite goesAfter_descending. now apply gt_of_eqb with v.
Qed.
End DescendingByKey.

(** ** Fleet query, further *)

Lemma keeps_spec d b :
  keeps d b = true <->
  statusMatches (statusFilter d) b = true /\
  (searchQuery d = "" \/
   searchMatches (Str.toLowerCase (searchQuery d)) b = true).
Proof.
  unfold keeps. rewrite andb_true_iff.
  destruct (searchQuery d) as [|c r]; simpl Str.truthy; cbv iota.
  - intuition.
  - split; intros [H1 H2]; (split; [exact H1|]); [now right|].
    destruct H2 as [H2|H2]; [discriminate | exact H2].
Qed.

(** X15.  Whatever the sort key and the collation, the dashboard lists each bot
    of the store that passes the status filter and the search box exactly
    as often as the store holds it, and lists nothing else; with the filter
    on ALL and an empty search box the list is a rearrangement of the whole
    store. *)
Theorem processedBots_lists_matching_bots
  (localeCompare : string -> string -> number) (d : DashboardState)
  (l : list TradingBot) :
  processedBots localeCompare d l ≡ₚ List.filter (keeps d) l /\
  (forall b, b ∈ processedBots localeCompare d l <->
     b ∈ l /\ statusMatches (statusFilter d) b = true /\
     (searchQuery d = "" \/
      searchMatches (Str.toLowerCase (searchQuery d)) b = true)) /\
  (statusFilter d = ALL -> searchQuery d = "" ->
   processedBots localeCompare d l ≡ₚ l).
Proof.
  assert (P : processedBots localeCompare d l ≡ₚ List.filter (keeps d) l).
  { rewrite processedBots_eq. apply Array_sort_Permutation. }
  split; [exact P|]. split.
  - intros b. rewrite P, elem_of_List_filter, keeps_spec. reflexivity.
  - intros Hf Hq. rewrite P. rewrite List_filter_all; [reflexivity|].
    apply Forall_forall. intros b _. apply keeps_spec. rewrite Hf.
    split; [reflexivity | now left].
Qed.

Lemma processedBots_lists_matching_bots_witness :
  processedBots (fun _ _ => Num 0) initialDashboard initialBots ≡ₚ initialBots.
Proof.
  exact (proj2 (proj2 (processedBots_lists_matching_bots (fun _ _ => Num 0)
                         initialDashboard initialBots)) eq_refl eq_refl).
Defined.

Lemma lowerChar_fixed c : Str.lowerChar (Str.lowerChar c) = Str.lowerChar c.
Proof. destruct c as [[] [] [] [] [] [] [] []]; reflexivity. Qed.

Lemma toLowerCase_fixed s :
  Str.toLowerCase (Str.toLowerCase s) = Str.toLowerCase s.
Proof.
  induction s as [|c r IH]; [reflexivity|]. simpl. now rewrite lowerChar_fixed, IH.
Qed.

Lemma truthy_toLowerCase s : Str.truthy (Str.toLowerCase s) = Str.truthy s.
Proof. now destruct s. Qed.

(** X16.  The search box does not tell capitals from small letters: typing a
    text or typing it in small letters lists the same bots in the same
    order. *)
Theorem processedBots_search_ignores_case
  (localeCompare : string -> string -> number) (d : DashboardState)
  (q : string) (l : list TradingBot) :
  processedBots localeCompare (setSearchQuery (Str.toLowerCase q) d) l
  = processedBots localeCompare (setSearchQuery q d) l.
Proof.
  unfold processedBots, setSearchQuery. cbn [statusFilter searchQuery sortBy].
  now rewrite truthy_toLowerCase, toLowerCase_fixed.
Qed.

(** ** Decimal digits *)

Lemma matchDigitsBefore_cons X run c r :
  matchDigitsBefore X run (String c r)
  = if Str.isDigit c then matchDigitsBefore X (run ++ [c])%list r
    else if (Ascii.eqb c X && negb (Nat.eqb (length run) 0))%bool then Some run
    else matchDigitsBefore X [] r.
Proof. reflexivity. Qed.

Lemma matchDigitsBefore_digits X run ds rest :
  digitChars ds ->
  matchDigitsBefore X run (string_of_list_ascii ds +:+ rest)
  = matchDigitsBefore X (run ++ ds)%list rest.
Proof.
  intros H. revert run. induction H as [|c ds Hc _ IH]; intros run.
  - change (string_of_list_ascii [] +:+ rest) with rest. now rewrite app_nil_r.
  - cbn [string_of_list_ascii].
    rewrite append_cons, matchDigitsBefore_cons, Hc, IH, <- app_assoc.
    reflexivity.
Qed.

Lemma includes_char_cons a r c :
  Str.includes (String a r) (String c "")
  = (Ascii.eqb c a || Str.includes r (String c ""))%bool.
Proof.
  simpl. destruct (ascii_dec c a) as [-> | Hne].
  - rewrite Ascii.eqb_refl. now destruct r.
  - apply Ascii.eqb_neq in Hne. rewrite Hne. reflexivity.
Qed.

Lemma includes_char_app s1 s2 c :
  Str.includes (s1 +:+ s2) (String c "")
  = (Str.includes s1 (String c "") || Str.includes s2 (String c ""))%bool.
Proof.
  induction s1 as [|a r IH].
  - simpl. reflexivity.
  - rewrite append_cons, !includes_char_cons, IH. now rewrite orb_assoc.
Qed.

Lemma includes_char_digits ds c :
  digitChars ds -> Str.isDigit c = false ->
  Str.includes (string_of_list_ascii ds) (String c "") = false.
Proof.
  intros H Hc. induction H as [|a ds Ha _ IH]; [reflexivity|].
  cbn [string_of_list_ascii]. rewrite includes_char_cons, IH, orb_false_r.
  apply Ascii.eqb_neq. intros ->. congruence.
Qed.

Lemma length_nonempty {A} (l : list A) : l <> [] -> Nat.eqb (length l) 0 = false.
Proof. destruct l; [congruence | reflexivity]. Qed.

Lemma hours_value (a b : Z) :
  Number.add (Number.mul (Number.ofZ a) (Number.ofZ 24)) (Number.ofZ b)
  = Number.ofZ (24 * a + b).
Proof.
  unfold Number.add, Number.mul, Number.ofZ, Number.fin. f_equal.
  rewrite <- (inject_Z_Qred (24 * a + b)). apply Qred_complete.
  rewrite Qred_correct, <- inject_Z_mult, <- inject_Z_plus.
  now replace (a * 24 + b)%Z with (24 * a + b)%Z by lia.
Qed.

Lemma match_found X ds rest :
  digitChars ds -> ds <> [] -> Str.isDigit X = false ->
  matchDigitsBefore X [] (string_of_list_ascii ds +:+ String X rest) = Some ds.
Proof.
  intros Hd Hne HX.
  rewrite matchDigitsBefore_digits, matchDigitsBefore_cons, HX by exact Hd.
  cbn [app]. now rewrite Ascii.eqb_refl, (length_nonempty ds Hne).
Qed.

Lemma match_skip X ds c rest :
  digitChars ds -> Str.isDigit c = false -> c <> X ->
  matchDigitsBefore X [] (string_of_list_ascii ds +:+ String c rest)
  = matchDigitsBefore X [] rest.
Proof.
  intros Hd Hc Hne.
  rewrite matchDigitsBefore_digits, matchDigitsBefore_cons, Hc by exact Hd.
  apply Ascii.eqb_neq in Hne. now rewrite Hne.
Qed.

Lemma match_end X ds :
  digitChars ds -> matchDigitsBefore X [] (string_of_list_ascii ds) = None.
Proof.
  intros Hd. rewrite <- (append_empty (string_of_list_ascii ds)).
  now rewrite matchDigitsBefore_digits.
Qed.

(** X17.  The uptime labels the fleet uses are read as follows: "Nd Mh" as
    24 N + M hours when that is below 2^53, "Hh Mm" as H hours when H is
    below 2^53, and a label of minutes alone as 0.01. *)
Theorem getHours_labels (n m : N) :
  ((24 * n + m < 2 ^ 53)%N ->
   getHours (pretty n +:+ "d " +:+ pretty m +:+ "h")
   = Number.ofZ (Z.of_N (24 * n + m))) /\
  ((n < 2 ^ 53)%N ->
   getHours (pretty n +:+ "h " +:+ pretty m +:+ "m") = Number.ofZ (Z.of_N n)) /\
  getHours (pretty m +:+ "m") = Num 0.01.
Proof.
  destruct (pretty_N_digits n) as (dn & -> & Hn0 & Hn & Vn).
  destruct (pretty_N_digits m) as (dm & -> & Hm0 & Hm & Vm).
  unfold getHours. split; [|split]; [intros _ | intros _ |].
  - rewrite !includes_char_app, !(includes_char_digits _ "m")
      by (assumption || reflexivity).
    change (Str.includes "d " "m") with false.
    change (Str.includes "h" "m") with false.
    cbv [orb andb]. cbv iota.
    change ("d " +:+ string_of_list_ascii dm +:+ "h")
      with (String "d" (String " " (string_of_list_ascii dm +:+ String "h" ""))).
    rewrite (match_found "d" dn) by (assumption || reflexivity).
    rewrite (match_skip "h" dn "d") by (assumption || reflexivity || discriminate).
    rewrite (matchDigitsBefore_cons "h" [] " ").
    change (Str.isDigit " ") with false. cbv iota.
    change (Ascii.eqb " " "h") with false. cbv [andb]. cbv iota.
    rewrite (match_found "h" dm) by (assumption || reflexivity).
    unfold parseIntDigits. rewrite Vn, Vm, hours_value. apply f_equal. lia.
  - rewrite !includes_char_app,
      !(includes_char_digits _ "h"), !(includes_char_digits _ "m")
      by (assumption || reflexivity).
    change (Str.includes "h " "m") with false.
    change (Str.includes "m" "m") with true.
    change (Str.includes "h " "h") with true.
    cbv [orb andb negb]. cbv iota.
    change ("h " +:+ string_of_list_ascii dm +:+ "m")
      with (String "h" (String " " (string_of_list_ascii dm +:+ String "m" ""))).
    rewrite (match_skip "d" dn "h") by (assumption || reflexivity || discriminate).
    rewrite (matchDigitsBefore_cons "d" [] " ").
    change (Str.isDigit " ") with false. cbv iota.
    change (Ascii.eqb " " "d") with false. cbv [andb]. cbv iota.
    rewrite (match_skip "d" dm "m") by (assumption || reflexivity || discriminate).
    change (matchDigitsBefore "d" [] "") with (@None (list ascii)).
    rewrite (match_found "h" dn) by (assumption || reflexivity).
    unfold parseIntDigits. change (Number.ofZ 0) with (Number.ofZ 0%Z).
    rewrite Vn. change (Number.ofZ 0) with (Number.ofZ (Z.of_N 0)).
    rewrite hours_value. apply f_equal. lia.
  - rewrite !includes_char_app,
      !(includes_char_digits _ "h"), !(includes_char_digits _ "m"),
      !(includes_char_digits _ "d")
      by (assumption || reflexivity).
    reflexivity.
Qed.

Lemma getHours_labels_witness :
  getHours "4d 12h" = Number.ofZ 108 /\ getHours "12h 30m" = Number.ofZ 12.
Proof.
  split.
  - exact (proj1 (getHours_labels 4 12) eq_refl).
  - exact (proj1 (proj2 (getHours_labels 12 30)) eq_refl).
Defined.

Lemma getHours_Num s : exists q, getHours s = Num q.
Proof.
  unfold getHours.
  destruct (_ && _ && _)%bool; [eexists; reflexivity|].
  destruct (matchDigitsBefore "d" [] s), (matchDigitsBefore "h" [] s);
    eexists; reflexivity.
Qed.

(** X18.  With the sort by uptime the dashboard lists the bots with more hours on
    their label first, sorting the list again changes nothing, and bots
    whose labels read as the same number of hours come in the order they
    have in the store. *)
Theorem processedBots_by_uptime
  (localeCompare : string -> string -> number) (d : DashboardState)
  (l : list TradingBot) :
  sortBy d = SortBy.UPTIME ->
  StronglySorted (keyNotBelow uptimeHours) (processedBots localeCompare d l) /\
  Array_sort (compareBots localeCompare SortBy.UPTIME)
             (processedBots localeCompare d l)
  = processedBots localeCompare d l /\
  (forall v,
     List.filter (fun b => Number.eqb (uptimeHours b) v)
                 (processedBots localeCompare d l)
     = List.filter (fun b => Number.eqb (uptimeHours b) v)
                   (List.filter (keeps d) l)).
Proof.
  intros Hkey. rewrite processedBots_eq, Hkey.
  change (compareBots localeCompare SortBy.UPTIME)
    with (compareDescending uptimeHours).
  split; [|split].
  - apply Array_sort_descending, Forall_forall. intros b _.
    unfold uptimeHours. destruct (getHours_Num (uptime b)) as [q ->].
    discriminate.
  - apply Array_sort_idempotent, goesAfter_descending_asym.
  - intros v. apply Array_sort_descending_stable.
Qed.

Lemma processedBots_by_uptime_witness :
  map uptime (processedBots (fun _ _ => Num 0)
                (setSortBy SortBy.UPTIME initialDashboard) initialBots)
  = ["15d 4h"; "7d 2h"; "4d 12h"; "3d 12h"; "3d 8h"; "1d 4h"; "1d 0h";
     "12h 30m"; "6h 15m"; "5h 10m"] /\
  StronglySorted (keyNotBelow uptimeHours)
    (processedBots (fun _ _ => Num 0)
       (setSortBy SortBy.UPTIME initialDashboard) initialBots).
Proof.
  split; [vm_compute; reflexivity|].
  exact (proj1 (processedBots_by_uptime (fun _ _ => Num 0)
                  (setSortBy SortBy.UPTIME initialDashboard) initialBots
                  eq_refl)).
Defined.

(** ** Whole numbers typed into the alert form *)

Lemma parseUnsigned_digits ds :
  digitChars ds -> ds <> [] ->
  parseUnsigned (string_of_list_ascii ds)
  = Some (inject_Z (Str.digitsValue ds) * pow10 0)%Q.
Proof.
  intros Hd Hne. unfold parseUnsigned.
  rewrite <- (append_empty (string_of_list_ascii ds)) at 1.
  rewrite takeDigits_digits by exact Hd.
  change (Str.takeDigits "") with (@nil ascii, "").
  cbn [fst snd]. rewrite app_nil_r.
  destruct ds; [congruence | reflexivity].
Qed.

Lemma fin_whole_opp (v : Z) :
  Number.fin (- (inject_Z v * pow10 0)) = Number.ofZ (- v).
Proof.
  unfold Number.fin, Number.ofZ. f_equal.
  transitivity (Qred (inject_Z (- v))); [|apply inject_Z_Qred].
  apply Qred_complete. change (pow10 0) with 1%Q.
  now rewrite Qmult_1_r, inject_Z_opp.
Qed.

Lemma parseFloat_digits ds :
  digitChars ds -> ds <> [] ->
  parseFloat (string_of_list_ascii ds) = Number.ofZ (Str.digitsValue ds) /\
  parseFloat ("-" +:+ string_of_list_ascii ds)
  = Number.ofZ (- Str.digitsValue ds).
Proof.
  intros Hd Hne. pose proof (parseUnsigned_digits ds Hd Hne) as HU.
  destruct ds as [|c ds']; [congruence|].
  apply Forall_cons in Hd as [Hc Hd].
  cbn [string_of_list_ascii] in *.
  set (r := string_of_list_ascii ds') in *.
  split.
  - unfold parseFloat. rewrite (digit_not_white c r Hc).
    assert (E : (match String c r with
                 | String "+" r0 => (false, r0)
                 | String "-" r0 => (true, r0)
                 | _ => (false, String c r)
                 end) = (false, String c r)).
    { destruct c as [[] [] [] [] [] [] [] []]; try discriminate Hc; reflexivity. }
    rewrite E, (digit_no_Infinity c r Hc), HU. apply fin_whole.
  - unfold parseFloat. change ("-" +:+ String c r) with (String "-" (String c r)).
    change (Str.trimStart (String "-" (String c r))) with (String "-" (String c r)).
    cbv iota beta. rewrite (digit_no_Infinity c r Hc), HU. apply fin_whole_opp.
Qed.

(** [parseFloat] reads the decimal rendering of a whole number back as
    that number. *)
Lemma parseFloat_pretty (z : Z) : parseFloat (pretty z) = Number.ofZ z.
Proof.
  destruct z as [|p|p].
  - reflexivity.
  - change (pretty (Z.pos p)) with (pretty (N.pos p)).
    destruct (pretty_N_digits (N.pos p)) as (ds & -> & Hne & Hd & Hv).
    rewrite (proj1 (parseFloat_digits ds Hd Hne)), Hv. reflexivity.
  - change (pretty (Z.neg p)) with ("-" +:+ pretty (N.pos p)).
    destruct (pretty_N_digits (N.pos p)) as (ds & -> & Hne & Hd & Hv).
    rewrite (proj2 (parseFloat_digits ds Hd Hne)), Hv. reflexivity.
Qed.

Lemma or_ofZ (z : Z) : Number.or (Number.ofZ z) (Number.ofZ 0) = Number.ofZ z.
Proof. destruct z; reflexivity. Qed.

(** X19.  Saving the alert form with whole numbers of magnitude below 2^53
    typed in its three number fields stores exactly those numbers,
    negative ones and zero included. *)
Theorem handleSaveAlerts_whole_numbers (d : DashboardState) (st : AppState)
  (f : AlertForm.t) (k : nat) (b : TradingBot) (drop downtime target : Z) :
  alertForm d = Some f ->
  bots st !! k = Some b ->
  id b = AlertForm.id f ->
  AlertForm.pnlDropThreshold f = pretty drop ->
  AlertForm.maxDowntimeMinutes f = pretty downtime ->
  AlertForm.targetPnl f = pretty target ->
  (Z.abs drop < 2 ^ 53)%Z -> (Z.abs downtime < 2 ^ 53)%Z ->
  (Z.abs target < 2 ^ 53)%Z ->
  bots (snd (handleSaveAlerts d st)) !! k
  = Some (withAlertConfig
            {| pnlDropThreshold := Number.ofZ drop;
               maxDowntimeMinutes := Number.ofZ downtime;
               notifyOnTradeFailure := AlertForm.notifyOnTradeFailure f |}
            (Number.ofZ target) b).
Proof.
  intros Hf Hk Hid Hdrop Hdown Htarget _ _ _.
  unfold handleSaveAlerts. rewrite Hf. cbn [snd].
  unfold handleUpdateBot, setBots. cbn [bots].
  rewrite (map_cond_lookup (fun bot => String.eqb (id bot) (AlertForm.id f))
             _ _ _ _ Hk).
  rewrite Hid, String.eqb_refl, Hdrop, Hdown, Htarget, !parseFloat_pretty, !or_ofZ.
  reflexivity.
Qed.

Lemma handleSaveAlerts_whole_numbers_witness :
  let f := {| AlertForm.id := "1"; AlertForm.pnlDropThreshold := "12";
              AlertForm.maxDowntimeMinutes := "0";
              AlertForm.notifyOnTradeFailure := true;
              AlertForm.targetPnl := "-250" |} in
  exists b,
    initialBots !! 0%nat = Some b /\
    bots (snd (handleSaveAlerts (editingAlerts f) initialState)) !! 0%nat
    = Some (withAlertConfig
              {| pnlDropThreshold := Num 12; maxDowntimeMinutes := Num 0;
                 notifyOnTradeFailure := true |} (Num (-250)) b).
Proof.
  intros f.
  destruct (initialBots !! 0%nat) as [b|] eqn:Hb; [|discriminate Hb].
  exists b. split; [reflexivity|].
  assert (Hid : id b = "1") by (injection Hb as <-; reflexivity).
  exact (handleSaveAlerts_whole_numbers (editingAlerts f) initialState f 0 b
           12 0 (-250) eq_refl Hb Hid eq_refl eq_refl eq_refl
           eq_refl eq_refl eq_refl).
Defined.

(** ** Exporting the strategy code *)

Lemma lower_replaced_char c :
  isFileNameChar (Str.lowerChar (if isAlnum c then c else "_"%char)) = true.
Proof. destruct c as [[] [] [] [] [] [] [] []]; reflexivity. Qed.

Lemma sanitized_chars s :
  Forall (fun c => isFileNameChar c = true)
         (list_ascii_of_string (Str.toLowerCase (replaceNonAlnum s))).
Proof.
  induction s as [|c r IH]; simpl; constructor; [|exact IH].
  apply lower_replaced_char.
Qed.

Lemma sanitized_length s :
  String.length (Str.toLowerCase (replaceNonAlnum s)) = String.length s.
Proof. induction s as [|c r IH]; simpl; [reflexivity | now rewrite IH]. Qed.

(** X20.  Exporting does nothing for a bot without strategy code or with empty
    code.  Otherwise the file offered holds the code unchanged and is named
    by a stem with ".py" behind it, where the stem is as long as the bot's
    name and made of small letters, digits and underscores only. *)
Theorem handleExportCode_file (bot : TradingBot) :
  match handleExportCode bot with
  | None => strategyCode bot = None \/ strategyCode bot = Some ""
  | Some f =>
      strategyCode bot = Some (blobContent f) /\ blobContent f <> "" /\
      exists stem,
        download f = stem +:+ ".py" /\
        String.length stem = String.length (name bot) /\
        Forall (fun c => isFileNameChar c = true) (list_ascii_of_string stem)
  end.
Proof.
  unfold handleExportCode. destruct (strategyCode bot) as [code|]; [|now left].
  destruct code as [|c r]; [now right|]. cbn [Str.truthy download blobContent].
  split; [reflexivity|]. split; [discriminate|].
  eexists. split; [reflexivity|]. split; [apply sanitized_length|].
  apply sanitized_chars.
Qed.

Example handleExportCode_initial :
  map (fun b => option_map download (handleExportCode b)) (firstn 2 initialBots)
  = [Some "macd_trend_follower___btc.py"; Some "rsi_mean_reversion___eth.py"].
Proof. vm_compute. reflexivity. Qed.

(** ** The progress bar *)

Lemma clamp_bounds (y : Q) :
  exists q,
    Math_min (Num (inject_Z 100)) (Math_max (Num (inject_Z 0)) (Num y)) = Num q /\
    (0 <= q <= 100)%Q /\ ((100 <= y)%Q -> q = 100%Q).
Proof.
  unfold Math_max. cbn [Number.gt].
  change (inject_Z 0) with 0%Q. change (inject_Z 100) with 100%Q.
  destruct (Qlt_bool y 0) eqn:H0.
  - unfold Math_min. cbn [Number.gt]. change (Qlt_bool 0 100) with true.
    cbv iota. exists 0%Q. apply Qlt_bool_iff in H0.
    split; [reflexivity|]. split; [split; lra|]. intros H. lra.
  - apply Qlt_bool_false_iff in H0. unfold Math_min. cbn [Number.gt].
    destruct (Qlt_bool y 100) eqn:H1.
    + apply Qlt_bool_iff in H1. exists y.
      split; [reflexivity|]. split; [split; lra|]. intros H. lra.
    + exists 100%Q. split; [reflexivity|]. split; [split; lra|]. reflexivity.
Qed.

(** X21.  For a bot whose PnL is a number, the progress bar, when it is drawn, is
    between 0 and 100 percent wide, and it is full once the PnL has reached
    a target that is a number. *)
Theorem progressPercent_bounds (bot : TradingBot) (p : Q) (x : number) :
  pnl bot = Num p ->
  progressPercent bot = Some x ->
  exists q, x = Num q /\ (0 <= q <= 100)%Q /\
            (forall t, targetPnl bot = Some (Num t) -> (t <= p)%Q -> q = 100%Q).
Proof.
  intros Hp. unfold progressPercent. rewrite Hp.
  destruct (targetPnl bot) as [[|s|t]|]; try discriminate.
  - destruct s; [discriminate|]. cbn [Number.truthy Number.gt andb negb].
    intros [= <-]. exists 0%Q. split; [reflexivity|].
    split; [split; lra|]. intros t [=].
  - destruct (Number.truthy (Num t) && Number.gt (Num t) (Number.ofZ 0))%bool
      eqn:Hc; [|discriminate].
    apply andb_true_iff in Hc as [_ Hpos]. cbn [Number.gt Number.ofZ] in Hpos.
    apply Qlt_bool_iff in Hpos. change (inject_Z 0) with 0%Q in Hpos.
    assert (Hz : Qzero_bool t = false).
    { unfold Qzero_bool. apply not_true_iff_false. rewrite Qeq_bool_iff. lra. }
    assert (Hv : Number.mul (Number.div (Num p) (Num t)) (Number.ofZ 100)
                 = Num (Qred (Qred (p / t) * inject_Z 100))).
    { unfold Number.div. now rewrite Hz. }
    rewrite Hv. change (Number.ofZ 100) with (Num (inject_Z 100)).
    change (Number.ofZ 0) with (Num (inject_Z 0)).
    destruct (clamp_bounds (Qred (Qred (p / t) * inject_Z 100)))
      as (q & -> & Hq & Hfull).
    intros [= <-]. exists q. split; [reflexivity|]. split; [exact Hq|].
    intros t' [= <-] Htp. apply Hfull.
    rewrite !Qred_correct. change (inject_Z 100) with 100%Q.
    assert (1 <= p / t)%Q.
    { apply Qle_shift_div_l; [exact Hpos | lra]. }
    lra.
Qed.

Lemma progressPercent_bounds_witness :
  exists b q,
    initialBots !! 0%nat = Some b /\ progressPercent b = Some (Num q) /\
    (0 <= q <= 100)%Q.
Proof.
  destruct (initialBots !! 0%nat) as [b|] eqn:Hb; [|discriminate Hb].
  assert (Hp : pnl b = Num (2501 # 2)) by (injection Hb as <-; reflexivity).
  assert (Hx : progressPercent b = Some (Num (2501 # 100)))
    by (injection Hb as <-; vm_compute; reflexivity).
  destruct (progressPercent_bounds b _ _ Hp Hx) as (q & Hq & Hb' & _).
  exists b, q. split; [reflexivity|]. split; [now rewrite Hx, Hq | exact Hb'].
Defined.

(** ** Ranking a batch of strategies *)

Lemma readsAsPercent_Num (r : BacktestResult.t) :
  readsAsPercent r -> returnValue r <> NaN.
Proof. intros (k & _ & E). rewrite E. discriminate. Qed.

(** X22.  The ranking keeps every result of the batch, once each.  When
    every total return reads as a number with at most two decimals and of
    magnitude at most 10^9, ranking a ranked batch changes nothing,
    results whose returns read as the same number keep the order the
    service gave them, and the higher returns come first. *)
Theorem sortedData_ranking (data : list BacktestResult.t) :
  sortedData data ≡ₚ data /\
  (Forall readsAsPercent data ->
   sortedData (sortedData data) = sortedData data /\
   (forall v,
      List.filter (fun r => Number.eqb (returnValue r) v) (sortedData data)
      = List.filter (fun r => Number.eqb (returnValue r) v) data) /\
   StronglySorted (keyNotBelow returnValue) (sortedData data)).
Proof.
  unfold sortedData.
  change (fun a b => Number.sub (returnValue b) (returnValue a))
    with (compareDescending returnValue).
  split; [apply Array_sort_Permutation|]. intros Hall. split; [|split].
  - apply Array_sort_idempotent, goesAfter_descending_asym.
  - intros v. apply Array_sort_descending_stable.
  - apply Array_sort_descending.
    eapply Forall_impl; [exact Hall|]. apply readsAsPercent_Num.
Qed.

Lemma removeFirst_cons c a r :
  removeFirst c (String a r)
  = if Ascii.eqb a c then r else String a (removeFirst c r).
Proof. reflexivity. Qed.

Lemma removeFirst_after_digits c ds rest :
  digitChars ds -> Str.isDigit c = false ->
  removeFirst c (string_of_list_ascii ds +:+ rest)
  = string_of_list_ascii ds +:+ removeFirst c rest.
Proof.
  intros Hd Hc. induction Hd as [|a ds Ha _ IH]; [reflexivity|].
  cbn [string_of_list_ascii]. rewrite !append_cons, removeFirst_cons, IH.
  assert (E : Ascii.eqb a c = false).
  { apply Ascii.eqb_neq. intros ->. congruence. }
  now rewrite E.
Qed.

(** X23.  A total return written as a whole number of percent below 2^53,
    with a plus sign, a minus sign or no sign in front, counts in the
    ranking as that signed number. *)
Theorem returnValue_whole_percent (r : BacktestResult.t) (n : N) :
  (n < 2 ^ 53)%N ->
  (BacktestResult.totalReturn r = "+" +:+ pretty n +:+ "%" ->
   returnValue r = Number.ofZ (Z.of_N n)) /\
  (BacktestResult.totalReturn r = pretty n +:+ "%" ->
   returnValue r = Number.ofZ (Z.of_N n)) /\
  (BacktestResult.totalReturn r = "-" +:+ pretty n +:+ "%" ->
   returnValue r = Number.ofZ (- Z.of_N n)).
Proof.
  intros _. destruct (pretty_N_digits n) as (ds & -> & Hne & Hd & Hv).
  unfold returnValue.
  split; [|split]; intros ->.
  - change ("+" +:+ string_of_list_ascii ds +:+ "%")
      with (String "+" (string_of_list_ascii ds +:+ "%")).
    rewrite removeFirst_cons. change (Ascii.eqb "+" "%") with false. cbv iota.
    rewrite removeFirst_after_digits by (assumption || reflexivity).
    change (removeFirst "%" "%") with "". rewrite append_empty.
    rewrite removeFirst_cons, Ascii.eqb_refl.
    rewrite (proj1 (parseFloat_digits ds Hd Hne)), Hv. reflexivity.
  - rewrite removeFirst_after_digits by (assumption || reflexivity).
    change (removeFirst "%" "%") with "". rewrite append_empty.
    rewrite <- (append_empty (string_of_list_ascii ds)) at 1.
    rewrite removeFirst_after_digits by (assumption || reflexivity).
    change (removeFirst "+" "") with "". rewrite append_empty.
    rewrite (proj1 (parseFloat_digits ds Hd Hne)), Hv. reflexivity.
  - change ("-" +:+ string_of_list_ascii ds +:+ "%")
      with (String "-" (string_of_list_ascii ds +:+ "%")).
    rewrite removeFirst_cons. change (Ascii.eqb "-" "%") with false. cbv iota.
    rewrite removeFirst_after_digits by (assumption || reflexivity).
    change (removeFirst "%" "%") with "". rewrite append_empty.
    rewrite removeFirst_cons. change (Ascii.eqb "-" "+") with false. cbv iota.
    rewrite <- (append_empty (string_of_list_ascii ds)) at 1.
    rewrite removeFirst_after_digits by (assumption || reflexivity).
    change (removeFirst "+" "") with "". rewrite append_empty.
    change (String "-" (string_of_list_ascii ds))
      with ("-" +:+ string_of_list_ascii ds).
    rewrite (proj2 (parseFloat_digits ds Hd Hne)), Hv. reflexivity.
Qed.

Lemma returnValue_whole_percent_witness :
  returnValue (sampleResult "A" "+12%") = Number.ofZ 12 /\
  returnValue (sampleResult "B" "-3%") = Number.ofZ (- 3).
Proof.
  split.
  - apply (proj1 (returnValue_whole_percent (sampleResult "A" "+12%") 12
                    eq_refl)).
    reflexivity.
  - apply (proj2 (proj2 (returnValue_whole_percent (sampleResult "B" "-3%") 3
                           eq_refl))).
    reflexivity.
Defined.

Lemma sortedData_ranking_witness :
  map BacktestResult.strategyName
      (sortedData [sampleResult "A" "+4.5%"; sampleResult "B" "-3%";
                   sampleResult "C" "+12.25%"; sampleResult "D" "+4.50%"])
  = ["C"; "A"; "D"; "B"] /\
  StronglySorted (keyNotBelow returnValue)
    (sortedData [sampleResult "A" "+4.5%"; sampleResult "B" "-3%";
                 sampleResult "C" "+12.25%"; sampleResult "D" "+4.50%"]).
Proof.
  split; [vm_compute; reflexivity|].
  apply (proj2 (sortedData_ranking _)).
  apply Forall_cons. split.
  { exists 450%Z. split; [vm_compute; discriminate | vm_compute; reflexivity]. }
  apply Forall_cons. split.
  { exists (-300)%Z. split; [vm_compute; discriminate | vm_compute; reflexivity]. }
  apply Forall_cons. split.
  { exists 1225%Z. split; [vm_compute; discriminate | vm_compute; reflexivity]. }
  apply Forall_cons. split.
  { exists 450%Z. split; [vm_compute; discriminate | vm_compute; reflexivity]. }
  apply Forall_nil. exact I.
Defined.

(** ** Rounding to two decimals keeps the order *)

Lemma nearestHundredth_mono (x y : Q) :
  (x <= y)%Q -> (Number.nearestHundredth x <= Number.nearestHundredth y)%Z.
Proof.
  intros H. unfold Number.nearestHundredth. apply Qfloor_resp_le. lra.
Qed.

Lemma big_times_100 : (inject_Z (10 ^ 21) * 100 == inject_Z (10 ^ 23))%Q.
Proof. vm_compute. reflexivity. Qed.

Lemma nearestHundredth_cap (x : Q) :
  (x < inject_Z (10 ^ 21))%Q ->
  (inject_Z (Number.nearestHundredth x) * (1 # 100) <= inject_Z (10 ^ 21))%Q.
Proof.
  intros H. pose proof big_times_100 as HB.
  assert (Hn : (Number.nearestHundredth x <= 10 ^ 23)%Z).
  { unfold Number.nearestHundredth.
    pose proof (Qfloor_le (x * 100 + (1 # 2))) as H1.
    assert (H2 : (inject_Z (Qfloor (x * 100 + (1 # 2))) < inject_Z (10 ^ 23 + 1))%Q).
    { rewrite inject_Z_plus. change (inject_Z 1) with 1%Q.
      set (B := inject_Z (10 ^ 21)) in *. set (C := inject_Z (10 ^ 23)) in *.
      set (n := inject_Z (Qfloor (x * 100 + (1 # 2)))) in *.
      clearbody B C n. lra. }
    rewrite <- Zlt_Qlt in H2. lia. }
  rewrite Zle_Qle in Hn.
  set (B := inject_Z (10 ^ 21)) in *. set (C := inject_Z (10 ^ 23)) in *.
  set (n := inject_Z (Number.nearestHundredth x)) in *.
  clearbody B C n. lra.
Qed.

Lemma toFixed2_rounded (q : Q) :
  exists r, Number.toFixed2 (Num q) = Num r /\ (r == rounded q)%Q.
Proof.
  unfold Number.toFixed2, rounded, Number.fin.
  destruct (Qneg_bool q).
  - destruct (Qle_bool _ _); eexists; (split; [reflexivity|]); [reflexivity|].
    rewrite Qred_correct, Qmake_100. reflexivity.
  - destruct (Qle_bool _ _); eexists; (split; [reflexivity|]); [reflexivity|].
    rewrite Qred_correct, Qmake_100. reflexivity.
Qed.

Lemma rounded_mono (a b : Q) : (a <= b)%Q -> (rounded a <= rounded b)%Q.
Proof.
  intros Hab. unfold rounded, Qneg_bool.
  destruct (Qlt_bool a 0) eqn:Ha, (Qlt_bool b 0) eqn:Hb;
    repeat match goal with
           | H : Qlt_bool _ _ = true |- _ => apply Qlt_bool_iff in H
           | H : Qlt_bool _ _ = false |- _ => apply Qlt_bool_false_iff in H
           end.
  - destruct (Qle_bool (inject_Z (10 ^ 21)) (- a)) eqn:Ba,
             (Qle_bool (inject_Z (10 ^ 21)) (- b)) eqn:Bb;
      repeat match goal with
             | H : Qle_bool _ _ = true |- _ => apply Qle_bool_iff in H
             | H : Qle_bool _ _ = false |- _ => apply Qle_bool_false_iff in H
             end.
    + exact Hab.
    + pose proof (nearestHundredth_cap (- b) Bb).
      set (B := inject_Z (10 ^ 21)) in *.
      set (n := inject_Z (Number.nearestHundredth (- b))) in *.
      clearbody B n. lra.
    + set (B := inject_Z (10 ^ 21)) in *. clearbody B. lra.
    + assert (H : (- b <= - a)%Q) by lra.
      apply nearestHundredth_mono in H. rewrite Zle_Qle in H.
      set (n := inject_Z (Number.nearestHundredth (- b))) in *.
      set (m := inject_Z (Number.nearestHundredth (- a))) in *.
      clearbody n m. lra.
  - assert (Hr1 : (rounded a <= 0)%Q).
    { unfold rounded, Qneg_bool.
      rewrite (proj2 (Qlt_bool_iff a 0) Ha).
      destruct (Qle_bool (inject_Z (10 ^ 21)) (- a)); [lra|].
      pose proof (nearestHundredth_nonneg (- a)) as Hn.
      assert (0 <= - a)%Q by lra. specialize (Hn H). rewrite Zle_Qle in Hn.
      set (n := inject_Z (Number.nearestHundredth (- a))) in *.
      change (inject_Z 0) with 0%Q in Hn. clearbody n. lra. }
    unfold rounded, Qneg_bool in Hr1. rewrite (proj2 (Qlt_bool_iff a 0) Ha) in Hr1.
    assert (Hr2 : (0 <= if Qle_bool (inject_Z (10 ^ 21)) b then b
                        else inject_Z (Number.nearestHundredth b) * (1 # 100))%Q).
    { destruct (Qle_bool (inject_Z (10 ^ 21)) b); [exact Hb|].
      pose proof (nearestHundredth_nonneg b Hb) as Hn. rewrite Zle_Qle in Hn.
      set (n := inject_Z (Number.nearestHundredth b)) in *.
      change (inject_Z 0) with 0%Q in Hn. clearbody n. lra. }
    lra.
  - lra.
  - destruct (Qle_bool (inject_Z (10 ^ 21)) a) eqn:Ba,
             (Qle_bool (inject_Z (10 ^ 21)) b) eqn:Bb;
      repeat match goal with
             | H : Qle_bool _ _ = true |- _ => apply Qle_bool_iff in H
             | H : Qle_bool _ _ = false |- _ => apply Qle_bool_false_iff in H
             end.
    + exact Hab.
    + set (B := inject_Z (10 ^ 21)) in *. clearbody B. lra.
    + pose proof (nearestHundredth_cap a Ba).
      set (B := inject_Z (10 ^ 21)) in *.
      set (n := inject_Z (Number.nearestHundredth a)) in *.
      clearbody B n. lra.
    + apply nearestHundredth_mono in Hab. rewrite Zle_Qle in Hab.
      set (n := inject_Z (Number.nearestHundredth b)) in *.
      set (m := inject_Z (Number.nearestHundredth a)) in *.
      clearbody n m. lra.
Qed.

(** Rounding to two decimals never swaps two finite numbers. *)
Lemma toFixed2_monotone (a b ra rb : Q) :
  (a <= b)%Q ->
  Number.toFixed2 (Num a) = Num ra -> Number.toFixed2 (Num b) = Num rb ->
  (ra <= rb)%Q.
Proof.
  intros Hab Ha Hb.
  destruct (toFixed2_rounded a) as (ra' & Ea & Hra).
  destruct (toFixed2_rounded b) as (rb' & Eb & Hrb).
  rewrite Ea in Ha. rewrite Eb in Hb. injection Ha as <-. injection Hb as <-.
  rewrite Hra, Hrb. now apply rounded_mono.
Qed.

(** ** The mock activity log *)

Lemma historyTypes_no_alert k : nth k historyTypes INFO <> ALERT.
Proof. do 6 (destruct k as [|k]; [discriminate|]). destruct k; discriminate. Qed.

Lemma mockEntry_draws time i d :
  drawsInRange d -> drawsInRange (snd (mockEntry time i d)).
Proof.
  intros Hd. unfold mockEntry, bind, random, ret. cbv beta iota.
  destruct (nth _ historyTypes INFO); cbv beta iota;
    try (destruct (Number.gt _ _); cbv beta iota); intros n; apply Hd.
Qed.

Lemma profit_range (p : Q) :
  (0 <= p < 1)%Q ->
  exists q,
    Number.toFixed2 (Number.sub (Number.mul (Number.fin p) (Number.ofZ 100))
                                (Number.ofZ 40)) = Num q /\
    (-40 <= q <= 60)%Q.
Proof.
  intros [H0 H1].
  assert (Hv : exists v, Number.sub (Number.mul (Number.fin p) (Number.ofZ 100))
                                    (Number.ofZ 40) = Num v /\
                         (v == p * 100 - 40)%Q).
  { eexists. split; [reflexivity|]. rewrite !Qred_correct.
    unfold Number.ofZ. change (inject_Z 100) with 100%Q.
    change (inject_Z 40) with 40%Q. ring. }
  destruct Hv as (v & -> & Hv).
  destruct (toFixed2_rounded v) as (q & Eq & Hq).
  exists q. split; [exact Eq|].
  assert (Hlo : Number.toFixed2 (Num (-40)) = Num (-40)) by (vm_compute; reflexivity).
  assert (Hhi : Number.toFixed2 (Num 60) = Num 60) by (vm_compute; reflexivity).
  split.
  - apply (toFixed2_monotone (-40) v _ _); [lra | exact Hlo | exact Eq].
  - apply (toFixed2_monotone v 60 _ _); [lra | exact Eq | exact Hhi].
Qed.

Lemma mockEntry_shape time i d :
  let e := fst (mockEntry time i d) in
  BotHistoryEntry.id e = "h-" +:+ pretty i /\
  BotHistoryEntry.timestamp e = time /\
  BotHistoryEntry.type e <> ALERT /\
  (BotHistoryEntry.profit e = None \/
   (BotHistoryEntry.type e = TRADE /\
    BotHistoryEntry.title e = "Executed SELL Order" /\
    (drawsInRange d ->
     exists q, BotHistoryEntry.profit e = Some (Num q) /\ (-40 <= q <= 60)%Q))).
Proof.
  unfold mockEntry, bind, random, ret. cbv beta iota.
  pose proof (historyTypes_no_alert
                (floorIndex (Number.mul (Number.fin (d 0%nat)) (Number.ofZ 5))))
    as Hna.
  destruct (nth _ historyTypes INFO) eqn:Ht; cbv beta iota.
  - destruct (Number.gt (Number.fin (d 1%nat)) (Num 0.5)); cbv beta iota;
      cbn [fst BotHistoryEntry.id BotHistoryEntry.timestamp BotHistoryEntry.type
           BotHistoryEntry.profit BotHistoryEntry.title].
    + repeat split; try discriminate. now left.
    + repeat split; try discriminate. right. repeat split.
      intros Hd. destruct (profit_range (d 2%nat) (Hd 2%nat)) as (q & -> & Hq).
      exists q. split; [reflexivity | exact Hq].
  - cbn [fst BotHistoryEntry.id BotHistoryEntry.timestamp BotHistoryEntry.type
         BotHistoryEntry.profit]. repeat split; try discriminate. now left.
  - congruence.
  - cbn [fst BotHistoryEntry.id BotHistoryEntry.timestamp BotHistoryEntry.type
         BotHistoryEntry.profit]. repeat split; try discriminate. now left.
Qed.

Lemma generateMockHistory_Forall2 stamp count d :
  Forall2 (fun i e => exists d', (drawsInRange d -> drawsInRange d') /\
                                 e = fst (mockEntry (stamp i) i d'))
          (seq 0 count) (fst (generateMockHistory stamp count d)).
Proof.
  unfold generateMockHistory.
  eapply Forall2_impl;
    [apply (mapM_Forall2_inv (fun d' => drawsInRange d -> drawsInRange d')
              (fun i => mockEntry (stamp i) i))|].
  - intros i d0 H Hd. apply mockEntry_draws. now apply H.
  - trivial.
  - intros i e (d' & H & ->). eauto.
Qed.

(** X24.  [generateMockHistory(count)] gives [count] entries; entry number [i],
    counting from 0, has the id "h-i" and the time stamp of 45 minutes
    times [i] before the call, so no two entries share an id. *)
Theorem generateMockHistory_entries (stamp : nat -> string) (count : nat)
  (d : Draws) :
  length (fst (generateMockHistory stamp count d)) = count /\
  map BotHistoryEntry.id (fst (generateMockHistory stamp count d))
  = map (fun i => "h-" +:+ pretty i) (seq 0 count) /\
  map BotHistoryEntry.timestamp (fst (generateMockHistory stamp count d))
  = map stamp (seq 0 count) /\
  NoDup (map BotHistoryEntry.id (fst (generateMockHistory stamp count d))).
Proof.
  pose proof (generateMockHistory_Forall2 stamp count d) as H.
  assert (Hid : map BotHistoryEntry.id (fst (generateMockHistory stamp count d))
                = map (fun i => "h-" +:+ pretty i) (seq 0 count)).
  { induction H as [|i e l l' (d' & _ & ->) _ IH]; [reflexivity|].
    simpl. rewrite IH. f_equal. apply (mockEntry_shape (stamp i) i d'). }
  split; [|split; [exact Hid|split]].
  - transitivity (length (seq 0 count)); [|apply length_seq].
    symmetry. eapply Forall2_length, H.
  - clear Hid. induction H as [|i e l l' (d' & _ & ->) _ IH]; [reflexivity|].
    simpl. rewrite IH. f_equal.
    exact (proj1 (proj2 (mockEntry_shape (stamp i) i d'))).
  - rewrite Hid. apply (NoDup_fmap_2 (fun i : nat => "h-" +:+ pretty i)).
    apply NoDup_seq.
Qed.

(** X25.  No mock entry is of type ALERT.  An entry carries a profit only if it
    is a trade titled "Executed SELL Order", and with draws in range that
    profit is a number from -40 to 60. *)
Theorem generateMockHistory_profits (stamp : nat -> string) (count : nat)
  (d : Draws) :
  Forall (fun e =>
            BotHistoryEntry.type e <> ALERT /\
            (BotHistoryEntry.profit e = None \/
             (BotHistoryEntry.type e = TRADE /\
              BotHistoryEntry.title e = "Executed SELL Order" /\
              (drawsInRange d ->
               exists q, BotHistoryEntry.profit e = Some (Num q) /\
                         (-40 <= q <= 60)%Q))))
         (fst (generateMockHistory stamp count d)).
Proof.
  pose proof (generateMockHistory_Forall2 stamp count d) as H.
  induction H as [|i e l l' (d' & Hd' & ->) _ IH]; constructor; [|exact IH].
  destruct (mockEntry_shape (stamp i) i d') as (_ & _ & Hna & Hp).
  split; [exact Hna|]. destruct Hp as [Hp | (Ht & Hti & Hr)]; [now left|].
  right. split; [exact Ht|]. split; [exact Hti|]. intros Hd. apply Hr, Hd', Hd.
Qed.

(** An entry of the log generated with sale draws (a trade, not a buy, the
    profit draw at 0.9) carries a profit from -40 to 60. *)
Lemma generateMockHistory_profits_witness :
  Forall (fun e => exists q, BotHistoryEntry.profit e = Some (Num q) /\
                             (-40 <= q <= 60)%Q)
         (fst (generateMockHistory loadStamp 1 (cycle4 0.1 0.1 0.9 0.1))).
Proof.
  assert (Hd : drawsInRange (cycle4 0.1 0.1 0.9 0.1)).
  { intros n. unfold cycle4. destruct (n mod 4)%nat as [|[|[|]]]; split; lra. }
  pose proof (generateMockHistory_profits loadStamp 1 (cycle4 0.1 0.1 0.9 0.1))
    as H.
  remember (fst (generateMockHistory loadStamp 1 (cycle4 0.1 0.1 0.9 0.1)))
    as l eqn:El.
  vm_compute in El. subst l.
  apply Forall_cons in H as [(_ & [Hn | (_ & _ & Hr)]) _];
    [discriminate Hn|].
  apply Forall_cons. split; [exact (Hr Hd) | apply Forall_nil; exact I].
Defined.

(** ** The mock market data *)

Lemma toFixed2_order (a b : Q) :
  (a <= b)%Q ->
  exists ra rb,
    Number.toFixed2 (Num a) = Num ra /\ Number.toFixed2 (Num b) = Num rb /\
    (ra <= rb)%Q.
Proof.
  intros Hab.
  destruct (toFixed2_rounded a) as (ra & Ea & _).
  destruct (toFixed2_rounded b) as (rb & Eb & _).
  exists ra, rb. split; [exact Ea|]. split; [exact Eb|].
  exact (toFixed2_monotone a b ra rb Hab Ea Eb).
Qed.

Lemma toFixed2_zero : Number.toFixed2 (Num 0) = Num 0.
Proof. vm_compute. reflexivity. Qed.

Lemma toFixed2_nonneg (a ra : Q) :
  (0 <= a)%Q -> Number.toFixed2 (Num a) = Num ra -> (0 <= ra)%Q.
Proof.
  intros Ha Ea. exact (toFixed2_monotone 0 a 0 ra Ha toFixed2_zero Ea).
Qed.

Lemma volume_range (r : Q) :
  (0 <= r < 1)%Q ->
  exists v,
    Number.add (Math_floor (Number.mul (Number.fin r) (Number.ofZ 1000)))
               (Number.ofZ 500) = Num (inject_Z v) /\
    (500 <= v <= 1499)%Z.
Proof.
  intros [H0 H1]. cbn [Number.fin Number.mul Number.ofZ Math_floor Number.add].
  set (f := Qfloor (Qred (Qred r * inject_Z 1000))).
  exists (f + 500)%Z. split.
  - unfold Number.fin. f_equal.
    transitivity (Qred (inject_Z (f + 500))); [|apply inject_Z_Qred].
    apply Qred_complete. now rewrite inject_Z_plus.
  - assert (E : (Qred (Qred r * inject_Z 1000) == r * 1000)%Q).
    { rewrite !Qred_correct. reflexivity. }
    assert (L : (0 <= f)%Z).
    { change 0%Z with (Qfloor 0). apply Qfloor_resp_le. rewrite E. lra. }
    assert (U : (f < 1000)%Z).
    { pose proof (Qfloor_le (Qred (Qred r * inject_Z 1000))) as Hf.
      fold f in Hf. rewrite E in Hf.
      apply Z.lt_nge. intros Hge.
      assert (Hq : (inject_Z 1000 <= inject_Z f)%Q) by (rewrite <- Zle_Qle; exact Hge).
      change (inject_Z 1000) with 1000%Q in Hq. lra. }
    lia.
Qed.

(** One round of the loop: from a positive price and four draws from
    [0, 1), the price carried on is positive and within 1% of the one
    carried in, the candle opens at the rounded price carried in and closes
    at the rounded price carried on, and it is well formed. *)
Lemma candleOf_ok (time : string) (p r1 r2 r3 r4 : Q) :
  (0 < p)%Q -> (0 <= r1 < 1)%Q -> (0 <= r2 < 1)%Q -> (0 <= r3 < 1)%Q ->
  (0 <= r4 < 1)%Q ->
  exists p',
    snd (candleOf time (Num p) (Number.fin r1) (Number.fin r2) (Number.fin r3)
                  (Number.fin r4)) = Num p' /\
    (0 < p')%Q /\
    ((99 # 100) * p <= p' <= (101 # 100) * p)%Q /\
    CandleData.time (fst (candleOf time (Num p) (Number.fin r1) (Number.fin r2)
                                   (Number.fin r3) (Number.fin r4))) = time /\
    CandleData.open (fst (candleOf time (Num p) (Number.fin r1) (Number.fin r2)
                                   (Number.fin r3) (Number.fin r4)))
    = Number.toFixed2 (Num p) /\
    CandleData.close (fst (candleOf time (Num p) (Number.fin r1) (Number.fin r2)
                                    (Number.fin r3) (Number.fin r4)))
    = Number.toFixed2 (Num p') /\
    wellFormedCandle (fst (candleOf time (Num p) (Number.fin r1) (Number.fin r2)
                                    (Number.fin r3) (Number.fin r4))).
Proof.
  intros Hp H1 H2 H3 H4.
  destruct (volume_range r4 H4) as (v & Ev & Hv).
  unfold candleOf. cbv zeta. cbn [fst snd].
  cbn [CandleData.time CandleData.open CandleData.close].
  pose (vol := Qred (p * 0.02)).
  pose (cl := Qred (p + Qred (Qred (Qred r1 + Qred (- 0.5)) * vol))).
  change (Number.mul (Num p) (Num 0.02)) with (Num vol).
  change (Number.add (Num p)
            (Number.mul (Number.sub (Number.fin r1) (Num 0.5)) (Num vol)))
    with (Num cl).
  assert (E2 : (0.02 == 1 # 50)%Q) by reflexivity.
  assert (E5 : (0.5 == 1 # 2)%Q) by reflexivity.
  assert (E5' : (- 0.5 == - (1 # 2))%Q) by reflexivity.
  assert (Evol : (vol == p * (1 # 50))%Q).
  { unfold vol. rewrite Qred_correct, E2. reflexivity. }
  assert (X1 : (0 <= r1 * p /\ r1 * p <= p)%Q) by (split; nra).
  assert (X2 : (0 <= r2 * p /\ r2 * p <= p)%Q) by (split; nra).
  assert (X3 : (0 <= r3 * p /\ r3 * p <= p)%Q) by (split; nra).
  assert (Ecl : (cl == p + (r1 * p - (1 # 2) * p) * (1 # 50))%Q).
  { unfold cl. rewrite !Qred_correct, Evol, E5'. ring. }
  exists cl. split; [reflexivity|]. split; [lra|]. split; [lra|].
  split; [reflexivity|]. split; [reflexivity|]. split; [reflexivity|].
  unfold wellFormedCandle.
  cbn [CandleData.open CandleData.close CandleData.high CandleData.low
       CandleData.volume].
  assert (Emax : exists mx, Math_max (Num p) (Num cl) = Num mx /\
                            (p <= mx /\ cl <= mx)%Q).
  { unfold Math_max. cbn [Number.gt].
    destruct (Qlt_bool cl p) eqn:E; eexists; (split; [reflexivity|]).
    - apply Qlt_bool_iff in E. lra.
    - apply Qlt_bool_false_iff in E. lra. }
  assert (Emin : exists mn, Math_min (Num p) (Num cl) = Num mn /\
                            (mn <= p /\ mn <= cl /\ (mn == p \/ mn == cl))%Q).
  { unfold Math_min. cbn [Number.gt].
    destruct (Qlt_bool cl p) eqn:E; eexists; (split; [reflexivity|]).
    - apply Qlt_bool_iff in E. split; [lra|]. split; [lra|]. right. reflexivity.
    - apply Qlt_bool_false_iff in E. split; [lra|]. split; [lra|]. left. reflexivity. }
  destruct Emax as (mx & -> & Hmx1 & Hmx2).
  destruct Emin as (mn & -> & Hmn1 & Hmn2 & Hmn3).
  pose (hi := Qred (mx + Qred (Qred (Qred r2 * vol) * 0.5))).
  pose (lo := Qred (mn + Qred (- Qred (Qred (Qred r3 * vol) * 0.5)))).
  change (Number.add (Num mx)
            (Number.mul (Number.mul (Number.fin r2) (Num vol)) (Num 0.5)))
    with (Num hi).
  change (Number.sub (Num mn)
            (Number.mul (Number.mul (Number.fin r3) (Num vol)) (Num 0.5)))
    with (Num lo).
  assert (Ehi : (hi == mx + r2 * p * (1 # 100))%Q).
  { unfold hi. rewrite !Qred_correct, Evol, E5. ring. }
  assert (Elo : (lo == mn - r3 * p * (1 # 100))%Q).
  { unfold lo. rewrite !Qred_correct, Evol, E5. ring. }
  assert (L0 : (0 <= lo)%Q) by (destruct Hmn3 as [E|E]; lra).
  assert (L1 : (lo <= p)%Q) by lra.
  assert (L2 : (lo <= cl)%Q) by lra.
  assert (L3 : (p <= hi)%Q) by lra.
  assert (L4 : (cl <= hi)%Q) by lra.
  destruct (toFixed2_rounded p) as (o' & Eo & _).
  destruct (toFixed2_rounded hi) as (h' & Eh & _).
  destruct (toFixed2_rounded lo) as (l' & El & _).
  destruct (toFixed2_rounded cl) as (c' & Ec & _).
  exists o', h', l', c', v.
  repeat (split; [assumption|]).
  split; [|exact Hv].
  split; [exact (toFixed2_nonneg lo l' L0 El)|].
  split; [exact (toFixed2_monotone _ _ _ _ L1 El Eo)|].
  split; [exact (toFixed2_monotone _ _ _ _ L2 El Ec)|].
  split; [exact (toFixed2_monotone _ _ _ _ L3 Eo Eh)|].
  exact (toFixed2_monotone _ _ _ _ L4 Ec Eh).
Qed.

Lemma drawsInRange_skip4 (d : Draws) :
  drawsInRange d -> drawsInRange (fun n => d (S (S (S (S n))))).
Proof. intros Hd n. apply Hd. Qed.

Lemma candlesFrom_S (stamp : nat -> string) (i : nat) (price : number) (d : Draws) :
  fst (candlesFrom stamp (S i) price d)
  = fst (candleOf (stamp (S i)) price (Number.fin (d 0%nat)) (Number.fin (d 1%nat))
                  (Number.fin (d 2%nat)) (Number.fin (d 3%nat)))
    :: fst (candlesFrom stamp i
              (snd (candleOf (stamp (S i)) price (Number.fin (d 0%nat))
                             (Number.fin (d 1%nat)) (Number.fin (d 2%nat))
                             (Number.fin (d 3%nat))))
              (fun n => d (S (S (S (S n)))))).
Proof.
  cbn [candlesFrom]. unfold bind, random, ret. cbv beta iota.
  destruct (candleOf _ _ _ _ _ _) as [c p'] eqn:Ec. cbn [fst snd].
  destruct (candlesFrom stamp i p' _) as [rest d'] eqn:Er.
  cbn [fst]. reflexivity.
Qed.

Lemma candlesFrom_ok (stamp : nat -> string) (i : nat) :
  forall (p : Q) (d : Draws),
    (0 < p)%Q -> drawsInRange d ->
    length (fst (candlesFrom stamp i (Num p) d)) = i /\
    map CandleData.time (fst (candlesFrom stamp i (Num p) d))
    = map stamp (rev (seq 1 i)) /\
    Forall wellFormedCandle (fst (candlesFrom stamp i (Num p) d)) /\
    linked (Number.toFixed2 (Num p)) (fst (candlesFrom stamp i (Num p) d)) /\
    Forall (fun c => CandleData.ma7 c = None /\ CandleData.ma25 c = None)
           (fst (candlesFrom stamp i (Num p) d)).
Proof.
  induction i as [|i IH]; intros p d Hp Hd.
  - cbn. repeat split; constructor.
  - rewrite candlesFrom_S.
    destruct (candleOf_ok (stamp (S i)) p (d 0%nat) (d 1%nat) (d 2%nat) (d 3%nat)
                Hp (Hd _) (Hd _) (Hd _) (Hd _))
      as (p' & Ep & Hp' & _ & Et & Eo & Ec & Hw).
    rewrite Ep.
    destruct (IH p' _ Hp' (drawsInRange_skip4 d Hd)) as (Il & It & Iw & Ik & Im).
    split; [cbn [length]; now rewrite Il|].
    split.
    { rewrite seq_S, rev_app_distr. cbn [rev app map]. now rewrite Et, It. }
    split; [constructor; assumption|].
    split.
    { cbn [linked]. split; [exact Eo|]. rewrite Ec. exact Ik. }
    constructor; [|exact Im]. split; reflexivity.
Qed.

Lemma imap_withAverages_map {B} (g : CandleData.t -> B) (array l : list CandleData.t) :
  (forall i c, g (withAverages array i c) = g c) ->
  forall j, map g (imap (fun i => withAverages array (j + i)) l) = map g l.
Proof.
  intros Hg. induction l as [|c l IH]; intros j; [reflexivity|].
  cbn [imap map]. rewrite Hg. f_equal.
  rewrite <- (IH (S j)). f_equal. apply imap_ext. intros i x _.
  cbn. now rewrite Nat.add_succ_r.
Qed.

Lemma wellFormedCandle_withAverages array i c :
  wellFormedCandle c -> wellFormedCandle (withAverages array i c).
Proof. intros H. exact H. Qed.

Lemma linked_map (l l' : list CandleData.t) :
  map CandleData.open l' = map CandleData.open l ->
  map CandleData.close l' = map CandleData.close l ->
  forall start, linked start l -> linked start l'.
Proof.
  revert l'. induction l as [|c l IH]; intros [|c' l'] Ho Hc start H;
    try discriminate; [exact I|].
  cbn [map] in Ho, Hc. injection Ho as Ho1 Ho2. injection Hc as Hc1 Hc2.
  cbn [linked] in *. destruct H as [H1 H2]. split; [congruence|].
  rewrite Hc1. now apply IH.
Qed.

Lemma generateMockData_eq (stamp : nat -> string) (count : nat) (d : Draws) :
  fst (generateMockData stamp count d)
  = imap (withAverages (fst (candlesFrom stamp count (Number.ofZ 45000) d)))
         (fst (candlesFrom stamp count (Number.ofZ 45000) d)).
Proof.
  unfold generateMockData, bind, ret.
  destruct (candlesFrom stamp count (Number.ofZ 45000) d) as [data d'].
  reflexivity.
Qed.

(** X26.  With draws from [0, 1), [generateMockData(count)] for a [count]
    up to 1000, over which no price leaves the range of binary64, returns
    [count] candles, stamped [count], [count - 1], ..., 1 hours before the call;
    every candle is well formed (low is the least and high the greatest of
    its four prices, none is negative, the volume is a whole number from
    500 to 1499), the first opens at 45000 and each next one opens where
    the one before it closed. *)
Theorem generateMockData_candles (stamp : nat -> string) (count : nat) (d : Draws) :
  (count <= 1000)%nat ->
  drawsInRange d ->
  length (fst (generateMockData stamp count d)) = count /\
  map CandleData.time (fst (generateMockData stamp count d))
  = map stamp (rev (seq 1 count)) /\
  Forall wellFormedCandle (fst (generateMockData stamp count d)) /\
  linked (Number.ofZ 45000) (fst (generateMockData stamp count d)).
Proof.
  intros _ Hd. rewrite generateMockData_eq.
  destruct (candlesFrom_ok stamp count 45000 d ltac:(reflexivity) Hd)
    as (Hl & Ht & Hw & Hk & _).
  change (Num 45000) with (Number.ofZ 45000) in *.
  set (data := fst (candlesFrom stamp count (Number.ofZ 45000) d)) in *.
  split; [now rewrite length_imap|].
  split.
  { rewrite <- Ht.
    exact (imap_withAverages_map CandleData.time data data (fun _ _ => eq_refl) 0%nat). }
  split.
  { apply Forall_lookup_2. intros k c Hc. rewrite list_lookup_imap in Hc.
    destruct (data !! k) as [c0|] eqn:E; [|discriminate Hc].
    injection Hc as <-. apply wellFormedCandle_withAverages.
    exact (Forall_lookup_1 _ _ _ _ Hw E). }
  apply (linked_map data).
  - exact (imap_withAverages_map CandleData.open data data (fun _ _ => eq_refl) 0%nat).
  - exact (imap_withAverages_map CandleData.close data data (fun _ _ => eq_refl) 0%nat).
  - exact Hk.
Qed.

Lemma generateMockData_candles_witness :
  length (fst (generateMockData pretty 3 loadDraws)) = 3%nat /\
  Forall wellFormedCandle (fst (generateMockData pretty 3 loadDraws)).
Proof.
  destruct (generateMockData_candles pretty 3 loadDraws ltac:(lia)
              loadDraws_inRange)
    as (Hl & _ & Hw & _).
  split; [exact Hl | exact Hw].
Defined.

(** The sum of [slice.reduce((acc, curr) => acc + curr.close, acc0)] when
    every close is a number between [lo] and [hi]. *)
Lemma sum_closes_range (lo hi : Q) (slice : list CandleData.t) :
  Forall (fun c => exists q, CandleData.close c = Num q /\ (lo <= q <= hi)%Q) slice ->
  forall a : Q,
  exists s,
    fold_left (fun acc curr => Number.add acc (CandleData.close curr)) slice (Num a)
    = Num s /\
    (a + inject_Z (Z.of_nat (length slice)) * lo <= s
     <= a + inject_Z (Z.of_nat (length slice)) * hi)%Q.
Proof.
  induction 1 as [|c slice (q & Eq & Hq) _ IH]; intros a.
  - exists a. split; [reflexivity|].
    change (inject_Z (Z.of_nat (length (@nil CandleData.t)))) with 0%Q. lra.
  - cbn [fold_left]. rewrite Eq. cbn [Number.add Number.fin].
    destruct (IH (Qred (a + q))) as (s & Es & Hs). exists s. split; [exact Es|].
    rewrite Qred_correct in Hs.
    replace (Z.of_nat (length (c :: slice))) with (Z.of_nat (length slice) + 1)%Z
      by (cbn [length]; lia).
    rewrite inject_Z_plus. change (inject_Z 1) with 1%Q.
    set (n := inject_Z (Z.of_nat (length slice))) in *. clearbody n. lra.
Qed.

(** [getMA(period)]: nothing at an index before [period - 1]; from there
    on a number within half a cent of the range of the closes. *)
Lemma getMA_range (array : list CandleData.t) (index period : nat) (lo hi : Q) :
  (0 < period)%nat -> (index < length array)%nat ->
  Forall (fun c => exists q, CandleData.close c = Num q /\ (lo <= q <= hi)%Q) array ->
  (getMA array index period = None <-> (index < period - 1)%nat) /\
  forall m, getMA array index period = Some m ->
            exists q, m = Num q /\ (lo - (1 # 200) <= q <= hi + (1 # 200))%Q.
Proof.
  intros Hp Hi Hall. unfold getMA.
  destruct (index <? period - 1)%nat eqn:E.
  - apply Nat.ltb_lt in E. split; [tauto|]. intros m [=].
  - apply Nat.ltb_ge in E. split; [split; [intros [=] | lia]|].
    intros m [= <-].
    set (slice := List.firstn _ _).
    assert (Hlen : length slice = period).
    { unfold slice. rewrite length_firstn, length_skipn. lia. }
    assert (Hs : Forall (fun c => exists q, CandleData.close c = Num q /\
                                            (lo <= q <= hi)%Q) slice).
    { unfold slice. apply Forall_take, Forall_drop, Hall. }
    destruct (sum_closes_range lo hi slice Hs 0) as (s & Es & Hsum).
    change (Number.ofZ 0) with (Num 0). rewrite Es, Hlen in *.
    set (n := inject_Z (Z.of_nat period)) in *.
    assert (Hn : (0 < n)%Q).
    { unfold n. change 0%Q with (inject_Z 0). rewrite <- Zlt_Qlt. lia. }
    unfold Number.div, Number.ofZ. fold n.
    assert (Ez : Qzero_bool n = false).
    { unfold Qzero_bool. apply not_true_iff_false. intros Ht.
      apply Qeq_bool_iff in Ht. lra. }
    rewrite Ez. unfold Number.fin.
    destruct (toFixed2_error (Qred (s / n))) as (r & Er & Herr).
    exists r. split; [exact Er|].
    apply Qabs_Qle_condition in Herr. rewrite Qred_correct in Herr.
    assert (Hq : (lo <= s / n <= hi)%Q).
    { clearbody n. split.
      - apply Qle_shift_div_l; [exact Hn|]. lra.
      - apply Qle_shift_div_r; [exact Hn|]. lra. }
    clearbody n. set (x := (s / n)%Q) in *. clearbody x. lra.
Qed.

(** X27.  In the list [generateMockData] returns, the 7-candle average is missing
    on the first 6 candles and the 25-candle average on the first 24, and
    nowhere else; when all closes are numbers between [lo] and [hi], and
    these are within 10^9 of zero, an average that is there is a number
    within 0.006 of that range: the half cent of the rounding to two
    decimals, and room for the rounding of binary64 in the sum. *)
Theorem generateMockData_averages (stamp : nat -> string) (count : nat) (d : Draws)
  (lo hi : Q) :
  (- 1000000000 <= lo)%Q -> (hi <= 1000000000)%Q ->
  Forall (fun c => exists q, CandleData.close c = Num q /\ (lo <= q <= hi)%Q)
         (fst (generateMockData stamp count d)) ->
  forall k c,
    fst (generateMockData stamp count d) !! k = Some c ->
    (CandleData.ma7 c = None <-> (k < 6)%nat) /\
    (CandleData.ma25 c = None <-> (k < 24)%nat) /\
    forall m, CandleData.ma7 c = Some m \/ CandleData.ma25 c = Some m ->
              exists q, m = Num q /\ (lo - (6 # 1000) <= q <= hi + (6 # 1000))%Q.
Proof.
  intros _ _. rewrite generateMockData_eq.
  set (data := fst (candlesFrom stamp count (Number.ofZ 45000) d)).
  intros Hall k c Hc.
  assert (Hraw : Forall (fun c => exists q, CandleData.close c = Num q /\
                                            (lo <= q <= hi)%Q) data).
  { apply Forall_lookup_2. intros j c0 Hj.
    assert (Hj' : imap (withAverages data) data !! j = Some (withAverages data j c0))
      by (rewrite list_lookup_imap, Hj; reflexivity).
    exact (Forall_lookup_1 _ _ _ _ Hall Hj'). }
  rewrite list_lookup_imap in Hc.
  destruct (data !! k) as [c0|] eqn:E; [|discriminate Hc].
  injection Hc as <-. cbn [withAverages CandleData.ma7 CandleData.ma25].
  assert (Hk : (k < length data)%nat) by (apply lookup_lt_is_Some; eauto).
  destruct (getMA_range data k 7 lo hi ltac:(lia) Hk Hraw) as [H7 V7].
  destruct (getMA_range data k 25 lo hi ltac:(lia) Hk Hraw) as [H25 V25].
  split; [exact H7|]. split; [exact H25|].
  intros m [Hm | Hm];
    [destruct (V7 m Hm) as (q & Eq & Hq) | destruct (V25 m Hm) as (q & Eq & Hq)];
    exists q; (split; [exact Eq|]); split; lra.
Qed.

Lemma generateMockData_averages_witness :
  match fst (generateMockData pretty 8 loadDraws) !! 6%nat with
  | Some c =>
      exists q, CandleData.ma7 c = Some (Num q) /\
                (40000 - (6 # 1000) <= q <= 50000 + (6 # 1000))%Q
  | None => False
  end.
Proof.
  assert (Hall : Forall (fun c => exists q, CandleData.close c = Num q /\
                                            (40000 <= q <= 50000)%Q)
                        (fst (generateMockData pretty 8 loadDraws))).
  { apply Forall_lookup_2. intros k c Hk.
    do 8 (destruct k as [|k];
          [vm_compute in Hk; injection Hk as <-; eexists;
           (split; [reflexivity|]); split; vm_compute; discriminate|]).
    vm_compute in Hk. discriminate Hk. }
  assert (Hlo : (- 1000000000 <= 40000)%Q) by (vm_compute; discriminate).
  assert (Hhi : (50000 <= 1000000000)%Q) by (vm_compute; discriminate).
  pose proof (generateMockData_averages pretty 8 loadDraws 40000 50000 Hlo Hhi
                Hall 6%nat) as H.
  destruct (fst (generateMockData pretty 8 loadDraws) !! 6%nat) as [c|] eqn:E;
    [|vm_compute in E; discriminate E].
  destruct (H c eq_refl) as (H7 & _ & Hm).
  destruct (CandleData.ma7 c) as [m|]; [|pose proof (proj1 H7 eq_refl); lia].
  destruct (Hm m (or_introl eq_refl)) as (q & -> & Hq).
  exists q. split; [reflexivity | exact Hq].
Defined.

(** ** The price header *)

Lemma decay_pos (n : nat) : (0 < decay n)%Q.
Proof. induction n as [|n IH]; cbn [decay]; [reflexivity | lra]. Qed.

Lemma decay_le (n m : nat) : (n <= m)%nat -> (decay m <= decay n)%Q.
Proof.
  induction 1 as [|m _ IH]; [lra|]. cbn [decay]. pose proof (decay_pos m). lra.
Qed.

Lemma decay_le_1 (n : nat) : (decay n <= 1)%Q.
Proof. exact (decay_le 0 n (Nat.le_0_l n)). Qed.

(** The closes of the loop are the rounded prices of a walk that moves by
    at most 1% a round and stays above [floor] when [i] rounds of decay
    leave the starting price above it. *)
Lemma candlesFrom_closes (stamp : nat -> string) (floor : Q) (i : nat) :
  forall (p : Q) (d : Draws),
    (0 < floor)%Q -> (floor <= p * decay i)%Q -> drawsInRange d ->
    (forall c, fst (candlesFrom stamp i (Num p) d) !! 0%nat = Some c ->
               exists b, CandleData.close c = Number.toFixed2 (Num b) /\
                         ((99 # 100) * p <= b <= (101 # 100) * p)%Q) /\
    (forall k c1 c2,
        fst (candlesFrom stamp i (Num p) d) !! k = Some c1 ->
        fst (candlesFrom stamp i (Num p) d) !! S k = Some c2 ->
        exists a b,
          CandleData.close c1 = Number.toFixed2 (Num a) /\
          CandleData.close c2 = Number.toFixed2 (Num b) /\
          (floor <= a)%Q /\ ((99 # 100) * a <= b <= (101 # 100) * a)%Q).
Proof.
  induction i as [|i IH]; intros p d Hf Hp Hd.
  - split; [intros c [=] | intros k c1 c2 [=]].
  - rewrite candlesFrom_S.
    assert (Hpos : (0 < p)%Q).
    { pose proof (decay_pos (S i)). pose proof (decay_le_1 (S i)). nra. }
    destruct (candleOf_ok (stamp (S i)) p (d 0%nat) (d 1%nat) (d 2%nat) (d 3%nat)
                Hpos (Hd _) (Hd _) (Hd _) (Hd _))
      as (p' & Ep & Hp' & Hr & _ & _ & Ec & _).
    rewrite Ep.
    assert (Hp2 : (floor <= p' * decay i)%Q).
    { cbn [decay] in Hp. pose proof (decay_pos i). nra. }
    destruct (IH p' _ Hf Hp2 (drawsInRange_skip4 d Hd)) as [Ih It].
    split.
    + intros c [= <-]. exists p'. split; [exact Ec | exact Hr].
    + intros [|k] c1 c2 H1 H2.
      * injection H1 as <-.
        destruct (Ih c2 H2) as (b & Eb & Hb).
        exists p', b. split; [exact Ec|]. split; [exact Eb|].
        split; [|exact Hb].
        pose proof (decay_pos i). pose proof (decay_le_1 i). nra.
      * exact (It k c1 c2 H1 H2).
Qed.

Lemma decay_100 : (16000 <= 45000 * decay 100)%Q.
Proof. vm_compute. discriminate. Qed.

Lemma Array_at_lookup {A} (array : list A) (k : nat) (i : Z) :
  i = Z.of_nat k -> Array_at array i = array !! k.
Proof.
  intros ->. unfold Array_at.
  destruct (Z.ltb_spec (Z.of_nat k) 0); [lia|]. now rewrite Nat2Z.id.
Qed.

(** The percent change of two closes that are the rounded values of prices
    above 16000 and within 1% of each other. *)
Lemma percent_of_closes (a b ra rb : Q) :
  (16000 <= a)%Q -> ((99 # 100) * a <= b <= (101 # 100) * a)%Q ->
  Number.toFixed2 (Num a) = Num ra -> Number.toFixed2 (Num b) = Num rb ->
  exists v pc,
    Number.sub (Num rb) (Num ra) = Num v /\
    Number.mul (Number.div (Number.sub (Num rb) (Num ra)) (Num ra)) (Number.ofZ 100)
    = Num pc /\
    (0 < rb)%Q /\ (Qabs pc < 101 # 100)%Q.
Proof.
  intros Ha Hb Ea Eb.
  destruct (toFixed2_error a) as (ra' & Ea' & Hra).
  destruct (toFixed2_error b) as (rb' & Eb' & Hrb).
  rewrite Ea in Ea'. rewrite Eb in Eb'. injection Ea' as <-. injection Eb' as <-.
  apply Qabs_Qle_condition in Hra, Hrb.
  cbn [Number.sub Number.neg Number.add Number.fin].
  set (v := Qred (rb + Qred (- ra))).
  assert (Ev : (v == rb - ra)%Q) by (unfold v; rewrite !Qred_correct; ring).
  assert (Hpos : (0 < ra)%Q) by lra.
  assert (Ez : Qzero_bool ra = false).
  { unfold Qzero_bool. apply not_true_iff_false. intros Ht.
    apply Qeq_bool_iff in Ht. lra. }
  unfold Number.div. rewrite Ez.
  cbn [Number.fin Number.mul Number.ofZ].
  set (pc := Qred (Qred (v / ra) * inject_Z 100)).
  assert (Epc : (pc == v / ra * 100)%Q).
  { unfold pc. rewrite !Qred_correct. reflexivity. }
  exists v, pc. split; [reflexivity|]. split; [reflexivity|].
  split; [lra|].
  assert (Hq : (- (1005 # 100000) < v / ra /\ v / ra < 1005 # 100000)%Q).
  { split.
    - apply Qlt_shift_div_l; [exact Hpos|]. lra.
    - apply Qlt_shift_div_r; [exact Hpos|]. lra. }
  clearbody v pc.
  apply Qabs_Qlt_condition. set (x := (v / ra)%Q) in *. clearbody x. lra.
Qed.

(** X28.  Over the data of [generateMockData(count)] for a [count] from 2 to 100,
    the header's last price is a positive number, and [getChange] returns
    two numbers, with a percent change below 1.01 in magnitude: the
    close before the last is far from zero, so the division gives neither
    NaN nor an infinity. *)
Theorem getChange_bounded (stamp : nat -> string) (count : nat) (d : Draws) :
  (2 <= count <= 100)%nat -> drawsInRange d ->
  exists last v pc,
    getLastPrice (fst (generateMockData stamp count d)) = Some (Num last) /\
    getChange (fst (generateMockData stamp count d))
    = Some {| Change.value := Num v; Change.percent := Num pc |} /\
    (0 < last)%Q /\ (Qabs pc < 101 # 100)%Q.
Proof.
  intros Hc Hd. rewrite generateMockData_eq.
  destruct (candlesFrom_ok stamp count 45000 d ltac:(reflexivity) Hd)
    as (Hl & _ & _ & _ & _).
  assert (Hf : (16000 <= 45000 * decay count)%Q).
  { pose proof decay_100. pose proof (decay_le count 100 ltac:(lia)). lra. }
  destruct (candlesFrom_closes stamp 16000 count 45000 d ltac:(reflexivity) Hf Hd)
    as [_ Hk].
  change (Num 45000) with (Number.ofZ 45000) in *.
  set (data := fst (candlesFrom stamp count (Number.ofZ 45000) d)) in *.
  destruct (lookup_lt_is_Some_2 data (count - 2)) as [c1 E1]; [lia|].
  destruct (lookup_lt_is_Some_2 data (count - 1)) as [c2 E2]; [lia|].
  replace (count - 1)%nat with (S (count - 2)) in E2 by lia.
  destruct (Hk _ c1 c2 E1 E2) as (a & b & Ea & Eb & Ha & Hb).
  destruct (toFixed2_rounded a) as (ra & Era & _).
  destruct (toFixed2_rounded b) as (rb & Erb & _).
  destruct (percent_of_closes a b ra rb Ha Hb Era Erb)
    as (v & pc & Ev & Epc & Hpos & Habs).
  exists rb, v, pc.
  unfold getLastPrice, getChange. rewrite length_imap, Hl.
  rewrite (Array_at_lookup _ (S (count - 2))) by lia.
  rewrite (Array_at_lookup _ (count - 2)) by lia.
  rewrite !list_lookup_imap, E1, E2. cbn [fmap option_fmap option_map].
  cbn [withAverages CandleData.close].
  rewrite Ea, Eb, Era, Erb, Epc, Ev.
  repeat split; assumption.
Qed.

Lemma getChange_bounded_witness :
  exists last v pc,
    getLastPrice (fst (generateMockData pretty 3 loadDraws)) = Some (Num last) /\
    getChange (fst (generateMockData pretty 3 loadDraws))
    = Some {| Change.value := Num v; Change.percent := Num pc |} /\
    (0 < last)%Q /\ (Qabs pc < 101 # 100)%Q.
Proof.
  apply (getChange_bounded pretty 3 loadDraws); [lia | exact loadDraws_inRange].
Defined.
